(** * Patient-triage mobile client: the API service and the call screens

    A shallow embedding of
    - [app/services/api.ts]: [analyzeQuery], [getStatus], [pollStatus],
      [checkMultiAgentHealth], [checkBackendHealth];
    - [app/(tabs)/videocall.tsx]: [endCall], [toggleMute], [flipCamera]
      and the call set-up that registers [endCall] on the peer call;
    - [app/(tabs)/firstscreen.tsx]: the Vapi ['message'] handler.

    Asynchronous functions are run to completion against an oracle for the
    outside world (the network, the camera); what they do to the world is
    kept as a trace of events, or as an explicit component state. *)

From Stdlib Require Import ZArith List String Ascii Bool Arith Lia DecimalString.
From Equations Require Import Equations.
Import ListNotations.

Set Implicit Arguments.
Set Warnings "-register-all".

Local Open Scope string_scope.
Local Open Scope Z_scope.

(** ** The JavaScript values the screens and the service look at *)

Module Js.

(** What [response.json()] or an SDK callback hands to the code.  Numbers
    are never computed with by the modelled functions; they are kept as
    integers. *)
Inductive value : Type :=
| VUndefined
| VNull
| VBool (b : bool)
| VNum (n : Z)
| VStr (s : string)
| VArr (items : list value)
| VObj (props : list (string * value)).

(** Values that can be thrown. [ErrorOf v] is [new Error(v)] for a [v]
    that is not a string (its message is the string conversion of [v]). *)
Inductive exn : Type :=
| Error (message : string)
| ErrorOf (message : value)
| TypeError (message : string)
| SyntaxError (message : string).

Inductive outcome (A : Type) : Type :=
| Ret (a : A)
| Throw (e : exn).
Arguments Throw {A} e.

(** [typeof v] *)
Definition typeof (v : value) : string :=
  match v with
  | VUndefined => "undefined"
  | VNull => "object"
  | VBool _ => "boolean"
  | VNum _ => "number"
  | VStr _ => "string"
  | VArr _ => "object"
  | VObj _ => "object"
  end.

Fixpoint lookup (name : string) (props : list (string * value)) : value :=
  match props with
  | [] => VUndefined
  | (k, v) :: rest => if String.eqb k name then v else lookup name rest
  end.

(** [v.name] for a property name that no built-in prototype defines:
    reading a property of [null] or [undefined] throws, any other value
    without the property gives [undefined]. *)
Definition get (v : value) (name : string) : outcome value :=
  match v with
  | VUndefined => Throw (TypeError "Cannot read properties of undefined")
  | VNull => Throw (TypeError "Cannot read properties of null")
  | VObj props => Ret (lookup name props)
  | _ => Ret VUndefined
  end.

(** [v === 'literal'] *)
Definition strict_eq_str (v : value) (literal : string) : bool :=
  match v with
  | VStr s => String.eqb s literal
  | _ => false
  end.

(** [v !== null] *)
Definition not_null (v : value) : bool :=
  match v with
  | VNull => false
  | _ => true
  end.

(** Truthiness, as [||] and [if] test it. *)
Definition truthy (v : value) : bool :=
  match v with
  | VUndefined | VNull => false
  | VBool b => b
  | VNum n => negb (n =? 0)
  | VStr s => negb (String.eqb s "")
  | VArr _ | VObj _ => true
  end.

(** [new Error(v)] *)
Definition new_Error (v : value) : exn :=
  match v with
  | VStr s => Error s
  | _ => ErrorOf v
  end.

(** [encodeURIComponent], on strings taken as UTF-8 text: every byte
    outside [A-Z a-z 0-9 - _ . ! ~ * ' ( )] becomes [%XX]. *)
Definition unreserved (c : ascii) : bool :=
  let n := nat_of_ascii c in
  ((65 <=? n) && (n <=? 90))%nat
  || ((97 <=? n) && (n <=? 122))%nat
  || ((48 <=? n) && (n <=? 57))%nat
  || existsb (Ascii.eqb c) (list_ascii_of_string "-_.!~*'()").

Definition hex_digit (n : nat) : ascii :=
  nth n (list_ascii_of_string "0123456789ABCDEF") "0"%char.

Fixpoint encodeURIComponent (s : string) : string :=
  match s with
  | EmptyString => EmptyString
  | String c rest =>
      if unreserved c then String c (encodeURIComponent rest)
      else
        let n := nat_of_ascii c in
        String "%" (String (hex_digit (n / 16)) (String (hex_digit (n mod 16))
          (encodeURIComponent rest)))
  end.

(** [v?.name], for a property name that no built-in prototype defines *)
Definition opt_get (v : value) (name : string) : value :=
  match v with
  | VObj props => lookup name props
  | _ => VUndefined
  end.

(** [a || b] *)
Definition or_else (a b : value) : value := if truthy a then a else b.

(** The string a template literal puts in for a value. *)
Fixpoint to_string (v : value) : string :=
  match v with
  | VUndefined => "undefined"
  | VNull => "null"
  | VBool true => "true"
  | VBool false => "false"
  | VNum n => NilZero.string_of_int (Z.to_int n)
  | VStr s => s
  | VArr items =>
      (fix join (l : list value) : string :=
         match l with
         | [] => EmptyString
         | x :: rest =>
             let shown := match x with
                          | VUndefined | VNull => EmptyString
                          | _ => to_string x
                          end in
             match rest with
             | [] => shown
             | _ :: _ => shown ++ "," ++ join rest
             end
         end) items
  | VObj _ => "[object Object]"
  end.

(** The payload of a UTF-8 continuation byte [10xxxxxx]. *)
Definition continuation (c : ascii) : option N :=
  let b := N_of_ascii c in
  if ((128 <=? b) && (b <? 192))%N then Some (b - 128)%N else None.

(** U+FFFD, which stands for a byte that starts no well-formed sequence. *)
Definition replacement : N := 65533%N.

(** The code points of a string, its bytes read as UTF-8: one byte below
    U+0080, two bytes from U+0080, three from U+0800 (the surrogates
    excepted), four from U+10000. *)
Fixpoint code_points (s : string) : list N :=
  match s with
  | EmptyString => []
  | String c0 rest =>
      let b0 := N_of_ascii c0 in
      if (b0 <? 128)%N then b0 :: code_points rest
      else
        match rest with
        | EmptyString => [replacement]
        | String c1 rest1 =>
            match continuation c1 with
            | None => replacement :: code_points rest
            | Some x1 =>
                if ((194 <=? b0) && (b0 <? 224))%N then
                  ((b0 - 192) * 64 + x1)%N :: code_points rest1
                else
                  match rest1 with
                  | EmptyString => replacement :: code_points rest
                  | String c2 rest2 =>
                      match continuation c2 with
                      | None => replacement :: code_points rest
                      | Some x2 =>
                          let cp3 := ((b0 - 224) * 4096 + x1 * 64 + x2)%N in
                          if ((224 <=? b0) && (b0 <? 240) && (2048 <=? cp3)
                              && negb ((55296 <=? cp3) && (cp3 <? 57344)))%N then
                            cp3 :: code_points rest2
                          else
                            match rest2 with
                            | EmptyString => replacement :: code_points rest
                            | String c3 rest3 =>
                                match continuation c3 with
                                | None => replacement :: code_points rest
                                | Some x3 =>
                                    let cp4 := ((b0 - 240) * 262144 + x1 * 4096
                                                + x2 * 64 + x3)%N in
                                    if ((240 <=? b0) && (b0 <? 245) && (65536 <=? cp4)
                                        && (cp4 <? 1114112))%N then
                                      cp4 :: code_points rest3
                                    else replacement :: code_points rest
                                end
                            end
                      end
                  end
            end
        end
  end.

(** The code points [String.prototype.trim] removes: the WhiteSpace and
    LineTerminator productions of ECMAScript. TAB, LF, VT, FF, CR, SPACE,
    NO-BREAK SPACE, OGHAM SPACE MARK, EN QUAD .. HAIR SPACE, LINE SEPARATOR,
    PARAGRAPH SEPARATOR, NARROW NO-BREAK SPACE, MEDIUM MATHEMATICAL SPACE,
    IDEOGRAPHIC SPACE, ZERO WIDTH NO-BREAK SPACE. *)
Definition white_space (cp : N) : bool :=
  (existsb (N.eqb cp)
           [9; 10; 11; 12; 13; 32; 160; 5760; 8232; 8233; 8239; 8287; 12288; 65279]
   || ((8192 <=? cp) && (cp <=? 8202)))%N.

(** [s.trim() === ''] : every character of [s] is one [trim] removes. *)
Definition trims_to_empty (s : string) : bool :=
  forallb white_space (code_points s).

End Js.

(** ** app/services/api.ts *)

Module Api.
Import Js.

Definition MULTI_AGENT_BASE_URL : string := "https://nokia-multi-agent.vercel.app".
Definition BACKEND_BASE_URL : string := "https://nokia-backend.vercel.app".

Inductive http_method : Type := GET | POST.

(** The arguments of one [fetch] call. [req_body] is the value handed to
    [JSON.stringify]. *)
Record request : Type := Request {
  url : string;
  method : http_method;
  headers : list (string * string);
  req_body : option value
}.

(** A resolved [fetch]: the status code, and the parsed body when the body
    is JSON ([None]: [response.json()] rejects). *)
Record response : Type := Response {
  status : Z;
  json_body : option value
}.

(** [response.ok] *)
Definition ok (r : response) : bool := (200 <=? status r) && (status r <=? 299).

Inductive fetch_result : Type :=
| Resolves (r : response)
| Rejects (e : exn).

(** What a run does to the outside world, in order. Console output is not
    part of the trace. *)
Inductive event : Type :=
| EFetch (r : request)
| EProgress (attempt maxAttempts : Z)
| EDelay (ms : Z).

(** The result of running an asynchronous function to completion from a
    point where [n] requests had been issued: how it settled, how many
    requests have been issued by then, and the events of the run. *)
Record run (A : Type) : Type := Run {
  result : outcome A;
  fetched : nat;
  trace : list event
}.

Definition M (A : Type) : Type := nat -> run A.

Definition ret {A} (a : A) : M A := fun n => Run (Ret a) n [].
Definition throw {A} (e : exn) : M A := fun n => Run (Throw e) n [].
Definition lift {A} (o : outcome A) : M A := fun n => Run o n [].
Definition emit (ev : event) : M unit := fun n => Run (Ret tt) n [ev].

(** [prepend evs r]: the run [r] after the events [evs]. *)
Definition prepend {A} (evs : list event) (r : run A) : run A :=
  Run (result r) (fetched r) (evs ++ trace r).

Definition bind {A B} (m : M A) (f : A -> M B) : M B :=
  fun n =>
    let r := m n in
    match result r with
    | Ret a => prepend (trace r) (f a (fetched r))
    | Throw e => Run (Throw e) (fetched r) (trace r)
    end.

(** [try { m } catch (error) { handler error }] *)
Definition try_catch {A} (m : M A) (handler : exn -> M A) : M A :=
  fun n =>
    let r := m n in
    match result r with
    | Ret _ => r
    | Throw e => prepend (trace r) (handler e (fetched r))
    end.

Declare Scope api_scope.
Delimit Scope api_scope with api.
Notation "x <- m ;; k" := (bind m (fun x => k))
  (at level 61, m at next level, right associativity) : api_scope.
Notation "m ;; k" := (bind m (fun _ => k))
  (at level 61, right associativity) : api_scope.
Local Open Scope api_scope.

(** [options] of [pollStatus]; an absent field takes its default.
    [maxAttempts] and [interval] are whole numbers (a count and a number of
    milliseconds). [onProgress] tells whether a callback was supplied: the
    callback is a notification, calling it is an event of the run and it
    returns normally. *)
Record options : Type := Options {
  maxAttempts : option Z;
  interval : option Z;
  onProgress : bool
}.

Definition no_options : options := Options None None false.

(** [const { maxAttempts = 5, interval = 2000, onProgress } = options] *)
Definition maxAttempts_of (o : options) : Z :=
  match maxAttempts o with Some m => m | None => 5 end.
Definition interval_of (o : options) : Z :=
  match interval o with Some i => i | None => 2000 end.

Definition analyze_request (query : string) : request :=
  Request (MULTI_AGENT_BASE_URL ++ "/analyze") POST
          [("Content-Type", "application/json")]
          (Some (VObj [("query", VStr query)])).

Definition status_request (callId : string) : request :=
  Request (BACKEND_BASE_URL ++ "/status?call_id=" ++ encodeURIComponent callId)
          GET [] None.

Definition multi_agent_health_request : request :=
  Request (MULTI_AGENT_BASE_URL ++ "/health") GET [] None.

Definition backend_health_request : request :=
  Request (BACKEND_BASE_URL ++ "/") GET [] None.

Definition Timeout_data : string :=
  "Timeout: Data not available after maximum attempts".
Definition Timeout_failed : string :=
  "Timeout: Failed to get status after maximum attempts".

(** [typeof v === 'object' && v !== null] *)
Definition is_object (v : value) : bool :=
  String.eqb (typeof v) "object" && not_null v.

(** The test of [pollStatus] on a status value:
    [(typeof status.emergency_details === 'object' && ... !== null) ||
     (typeof status.medical_record_details === 'object' && ... !== null)];
    the second operand of [||] is read only when the first is false. *)
Definition has_data (status : value) : outcome bool :=
  match get status "emergency_details" with
  | Throw e => Throw e
  | Ret emergency_details =>
      if is_object emergency_details then Ret true
      else
        match get status "medical_record_details" with
        | Throw e => Throw e
        | Ret medical_record_details => Ret (is_object medical_record_details)
        end
  end.

Section Service.

(** The network: what the [n]-th request issued settles to. *)
Variable net : nat -> request -> fetch_result.

(** [await fetch(...)] *)
Definition fetch (req : request) : M response :=
  fun n =>
    match net n req with
    | Resolves resp => Run (Ret resp) (S n) [EFetch req]
    | Rejects e => Run (Throw e) (S n) [EFetch req]
    end.

(** [await response.json()] *)
Definition json (resp : response) : M value :=
  match json_body resp with
  | Some v => ret v
  | None => throw (SyntaxError "JSON Parse error")
  end.

Definition analyzeQuery (query : string) : M value :=
  try_catch
    (response <- fetch (analyze_request query) ;;
     if negb (ok response) then
       errorData <- json response ;;
       message <- lift (get errorData "message") ;;
       throw (new_Error (if truthy message then message
                         else VStr "Failed to analyze query"))
     else
       data <- json response ;;
       ret data)
    (fun error => throw error).

Definition getStatus (callId : string) : M value :=
  try_catch
    (response <- fetch (status_request callId) ;;
     if negb (ok response) then
       if status response =? 404 then
         throw (Error "No records found for this call ID")
       else
         throw (Error "Failed to fetch status")
     else
       data <- json response ;;
       ret data)
    (fun error => throw error).

(** The body of the [for] loop of [pollStatus] up to the delay: [Some
    status] when the loop returns [status], [None] when it goes on. *)
Definition attempt_body (callId : string) (o : options) (attempt : Z)
  : M (option value) :=
  try_catch
    ((if onProgress o then emit (EProgress attempt (maxAttempts_of o))
      else ret tt) ;;
     status <- getStatus callId ;;
     meaningful <- lift (has_data status) ;;
     if (meaningful : bool) then ret (Some status) else ret None)
    (fun error =>
       if attempt =? maxAttempts_of o then throw (Error Timeout_data)
       else ret None).

(** [for (let attempt = ...; attempt <= maxAttempts; attempt++) { ... }]
    followed by the final [throw]. *)
Equations? pollLoop (callId : string) (o : options) (attempt : Z)
  : M value by wf (Z.to_nat (maxAttempts_of o + 1 - attempt)) lt :=
  pollLoop callId o attempt with Z_le_gt_dec attempt (maxAttempts_of o) := {
    | left _ =>
        r <- attempt_body callId o attempt ;;
        match r with
        | Some status => ret status
        | None =>
            emit (EDelay (interval_of o)) ;;
            pollLoop callId o (attempt + 1)
        end
    | right _ => throw (Error Timeout_failed) }.
Proof. lia. Qed.

Definition pollStatus (callId : string) (o : options) : M value :=
  pollLoop callId o 1.

Definition checkMultiAgentHealth : M bool :=
  try_catch
    (response <- fetch multi_agent_health_request ;;
     ret (ok response))
    (fun error => ret false).

Definition checkBackendHealth : M bool :=
  try_catch
    (response <- fetch backend_health_request ;;
     ret (ok response))
    (fun error => ret false).

End Service.

(** *** What an attempt finds, and the shape of a run *)

(** "Meaningful data", in the words of the service: [emergency_details] is
    a non-null object or [medical_record_details] is a non-null object. *)
Definition non_null_object (v : value) : bool :=
  match v with
  | VObj _ | VArr _ => true
  | _ => false
  end.

Definition meaningful_data (status : value) : bool :=
  match status with
  | VObj props =>
      non_null_object (lookup "emergency_details" props)
      || non_null_object (lookup "medical_record_details" props)
  | _ => false
  end.

Definition is_fetch (ev : event) : bool :=
  match ev with EFetch _ => true | _ => false end.

Definition is_delay (ev : event) : bool :=
  match ev with EDelay _ => true | _ => false end.

(** Every [getStatus] call issues one request, so the calls of a run are
    counted by its requests. *)
Definition getStatus_calls (tr : list event) : nat :=
  List.length (filter is_fetch tr).

Definition requests (tr : list event) : list request :=
  flat_map (fun ev => match ev with EFetch r => [r] | _ => [] end) tr.

(** The events of one attempt: the progress notification when a callback
    was supplied, then the request of [getStatus]. *)
Definition attempt_events (callId : string) (o : options) (attempt : Z)
  : list event :=
  (if onProgress o then [EProgress attempt (maxAttempts_of o)] else [])
    ++ [EFetch (status_request callId)].

(** [count] attempts numbered from [attempt] on, one delay between each
    attempt and the next. *)
Fixpoint schedule (callId : string) (o : options) (attempt : Z) (count : nat)
  : list event :=
  match count with
  | O => []
  | S count' =>
      attempt_events callId o attempt ++
      match count' with
      | O => []
      | S _ => EDelay (interval_of o) :: schedule callId o (attempt + 1) count'
      end
  end.

(** The scheme of a request URL: clear-text HTTP, or HTTP over TLS. *)
Definition clear_text_http (u : string) : bool := String.prefix "http://" u.
Definition https (u : string) : bool := String.prefix "https://" u.

(** The characters that end the query value of a URL or split it. *)
Definition url_delimiter (c : ascii) : bool :=
  existsb (Ascii.eqb c) (list_ascii_of_string "/?#&= ").

(** The run ended in the [throw] that follows the loop. *)
Definition exhausted {A} (r : run A) : bool :=
  match result r with
  | Throw (Error message) => String.eqb message Timeout_failed
  | _ => false
  end.

(** The delay the loop still performs after its last attempt, when that
    attempt ended without returning or throwing. *)
Definition closing_delay {A} (o : options) (r : run A) : list event :=
  if exhausted r && (0 <? getStatus_calls (trace r))%nat
  then [EDelay (interval_of o)] else [].

(** How the attempt whose request is the [i]-th one ends. *)
Inductive attempt_end : Type :=
| Data (status : value)
| NoData
| Errored.

Section Attempts.

Variable net : nat -> request -> fetch_result.
Variable callId : string.

Definition classify (i : nat) : attempt_end :=
  match result (getStatus net callId i) with
  | Throw _ => Errored
  | Ret status =>
      match has_data status with
      | Ret true => Data status
      | Ret false => NoData
      | Throw _ => Errored
      end
  end.

Definition finds_data (i : nat) : bool :=
  match classify i with Data _ => true | _ => false end.

Definition errors (i : nat) : bool :=
  match classify i with Errored => true | _ => false end.

End Attempts.

(** *** Further observations of a run *)

(** The time a run spends in its delays, in milliseconds. *)
Definition total_delay (tr : list event) : Z :=
  fold_right (fun ev acc => match ev with EDelay ms => ms + acc | _ => acc end) 0 tr.

(** The arguments the progress callback was called with, in order. *)
Definition progress_calls (tr : list event) : list (Z * Z) :=
  flat_map (fun ev => match ev with EProgress a m => [(a, m)] | _ => [] end) tr.

End Api.

(** ** app/(tabs)/videocall.tsx *)

Module VideoCall.

Inductive TrackKind : Type := audio | video.

Definition same_kind (a b : TrackKind) : bool :=
  match a, b with
  | audio, audio | video, video => true
  | _, _ => false
  end.

(** A reference to a track object. Its [kind] never changes; the fields the
    screen writes ([enabled], and the ended state [stop()] puts it in) live
    in the store of the component, under [track_id]. *)
Record MediaStreamTrack : Type := Track {
  track_id : nat;
  kind : TrackKind
}.

Record TrackState : Type := Live {
  enabled : bool;
  ended : bool
}.

Record MediaStream : Type := Stream {
  getTracks : list MediaStreamTrack
}.

Definition getAudioTracks (s : MediaStream) : list MediaStreamTrack :=
  filter (fun t => same_kind (kind t) audio) (getTracks s).

Definition getVideoTracks (s : MediaStream) : list MediaStreamTrack :=
  filter (fun t => same_kind (kind t) video) (getTracks s).

(** [s.track] of an [RTCRtpSender] *)
Record RTCRtpSender : Type := Sender {
  sender_track : option MediaStreamTrack
}.

Inductive FacingMode : Type := user | environment.

(** The values of the [useState] hooks. A call of the component function
    binds them to constants ([const [localStream, ...] = useState(...)]);
    the handlers created by that call ([endCall], [toggleMute], ...) see
    those constants, not what the setters store later. *)
Record Hooks : Type := MkHooks {
  localStream : option MediaStream;
  remoteStream : option MediaStream;
  remotePeerId : string;
  isCalling : bool;
  isCallActive : bool;
  isMuted : bool;
  isVideoOff : bool;
  isSpeakerOn : bool;
  facingMode : FacingMode;
  peerReady : bool;
  isProcessing : bool
}.

(** A PeerJS media connection: the senders of its peer connection once it
    exists, its [open] flag, and the render whose handlers were registered
    with [call.on]. PeerJS is a dependency of the app ([import Peer, {
    MediaConnection } from 'peerjs']); of its [MediaConnection] the screen
    relies on this: [open] is set when the call is answered (in [answer()]
    on the answering side, on the arrival of the answer on the calling
    side), and [close()] clears it and emits ['close'] when it was set. *)
Record MediaConnection : Type := Call {
  peer : string;
  peerConnection : option (list RTCRtpSender);
  open : bool;
  listeners : option Hooks
}.

(** What the screen does to the outside: a [close()] on the call to [peer],
    an alert, the start of a call analysis. *)
Inductive Effect : Type :=
| CallClosed (peer : string)
| Alerted (title message : string)
| AnalysisStarted.

(** The component between two handler runs: what the hooks hold, the refs
    ([currentCall.current], [callStartTime.current], [peerInstance.current]
    present or not), the track objects, and what has been done to the
    outside. *)
Record World : Type := MkWorld {
  state : Hooks;
  currentCall : option MediaConnection;
  callStartTime : option Z;
  peerInstance : bool;
  track_state : nat -> TrackState;
  next_track : nat;
  effects : list Effect
}.

(** The constants the handlers of the latest render see. *)
Definition render (w : World) : Hooks := state w.

Definition with_state (f : Hooks -> Hooks) (w : World) : World :=
  MkWorld (f (state w)) (currentCall w) (callStartTime w) (peerInstance w)
          (track_state w) (next_track w) (effects w).

Definition setLocalStream (v : option MediaStream) : World -> World :=
  with_state (fun h =>
    MkHooks v (remoteStream h) (remotePeerId h) (isCalling h) (isCallActive h)
            (isMuted h) (isVideoOff h) (isSpeakerOn h) (facingMode h)
            (peerReady h) (isProcessing h)).

Definition setRemoteStream (v : option MediaStream) : World -> World :=
  with_state (fun h =>
    MkHooks (localStream h) v (remotePeerId h) (isCalling h) (isCallActive h)
            (isMuted h) (isVideoOff h) (isSpeakerOn h) (facingMode h)
            (peerReady h) (isProcessing h)).

Definition setIsCalling (v : bool) : World -> World :=
  with_state (fun h =>
    MkHooks (localStream h) (remoteStream h) (remotePeerId h) v (isCallActive h)
            (isMuted h) (isVideoOff h) (isSpeakerOn h) (facingMode h)
            (peerReady h) (isProcessing h)).

Definition setIsCallActive (v : bool) : World -> World :=
  with_state (fun h =>
    MkHooks (localStream h) (remoteStream h) (remotePeerId h) (isCalling h) v
            (isMuted h) (isVideoOff h) (isSpeakerOn h) (facingMode h)
            (peerReady h) (isProcessing h)).

Definition setIsMuted (v : bool) : World -> World :=
  with_state (fun h =>
    MkHooks (localStream h) (remoteStream h) (remotePeerId h) (isCalling h)
            (isCallActive h) v (isVideoOff h) (isSpeakerOn h) (facingMode h)
            (peerReady h) (isProcessing h)).

Definition setIsVideoOff (v : bool) : World -> World :=
  with_state (fun h =>
    MkHooks (localStream h) (remoteStream h) (remotePeerId h) (isCalling h)
            (isCallActive h) (isMuted h) v (isSpeakerOn h) (facingMode h)
            (peerReady h) (isProcessing h)).

Definition setFacingMode (v : FacingMode) : World -> World :=
  with_state (fun h =>
    MkHooks (localStream h) (remoteStream h) (remotePeerId h) (isCalling h)
            (isCallActive h) (isMuted h) (isVideoOff h) (isSpeakerOn h) v
            (peerReady h) (isProcessing h)).

Definition setIsProcessing (v : bool) : World -> World :=
  with_state (fun h =>
    MkHooks (localStream h) (remoteStream h) (remotePeerId h) (isCalling h)
            (isCallActive h) (isMuted h) (isVideoOff h) (isSpeakerOn h)
            (facingMode h) (peerReady h) v).

Definition set_currentCall (v : option MediaConnection) (w : World) : World :=
  MkWorld (state w) v (callStartTime w) (peerInstance w)
          (track_state w) (next_track w) (effects w).

Definition set_callStartTime (v : option Z) (w : World) : World :=
  MkWorld (state w) (currentCall w) v (peerInstance w)
          (track_state w) (next_track w) (effects w).

Definition perform (e : Effect) (w : World) : World :=
  MkWorld (state w) (currentCall w) (callStartTime w) (peerInstance w)
          (track_state w) (next_track w) (effects w ++ [e]).

(** Writing a field of the track object behind [t]. *)
Definition write_track (t : MediaStreamTrack) (s : TrackState) (w : World) : World :=
  MkWorld (state w) (currentCall w) (callStartTime w) (peerInstance w)
          (fun id => if Nat.eqb id (track_id t) then s else track_state w id)
          (next_track w) (effects w).

Definition read_track (w : World) (t : MediaStreamTrack) : TrackState :=
  track_state w (track_id t).

(** [track.stop()] *)
Definition stop (t : MediaStreamTrack) (w : World) : World :=
  write_track t (Live (enabled (read_track w t)) true) w.

(** [tracks.forEach((track) => track.stop())] *)
Definition stop_each (tracks : list MediaStreamTrack) (w : World) : World :=
  fold_left (fun w track => stop track w) tracks w.

(** [track.enabled = v] *)
Definition set_enabled (t : MediaStreamTrack) (v : bool) (w : World) : World :=
  write_track t (Live v (ended (read_track w t))) w.

(** [mediaDevices.getUserMedia({ audio: true, video: {...} })] when it
    resolves: a new stream with one new audio and one new video track, both
    enabled and live. *)
Definition new_stream (w : World) : MediaStream * World :=
  let a := Track (next_track w) audio in
  let v := Track (S (next_track w)) video in
  (Stream [a; v],
   MkWorld (state w) (currentCall w) (callStartTime w) (peerInstance w)
           (fun id => if Nat.eqb id (track_id a) || Nat.eqb id (track_id v)
                      then Live true false else track_state w id)
           (S (S (next_track w))) (effects w)).

(** The part of [handleCallAnalysis] that runs before its first [await];
    the rest runs after the caller has returned and writes [isProcessing]
    and [callStartTime.current] only. *)
Definition handleCallAnalysis (w : World) : World :=
  perform AnalysisStarted (setIsProcessing true w).

Definition set_open (v : bool) (call : MediaConnection) : MediaConnection :=
  Call (peer call) (peerConnection call) v (listeners call).

(** PeerJS clears [open] on the connection the ref holds. *)
Definition mark_closed (w : World) : World :=
  set_currentCall (option_map (set_open false) (currentCall w)) w.

(** The body of [endCall], as created by the render that saw [seen];
    [close call] is what [currentCall.current.close()] does. *)
Definition endCall_with (close : MediaConnection -> World -> World)
                        (seen : Hooks) (w : World) : World :=
  let shouldAnalyze := match callStartTime w with Some _ => true | None => false end in
  let w :=
    match currentCall w with
    | Some call => set_currentCall None (close call w)
    | None => w
    end in
  let w :=
    match localStream seen with
    | Some stream =>
        setLocalStream None (stop_each (getTracks stream) w)
    | None => w
    end in
  let w := setRemoteStream None w in
  let w := setIsCallActive false w in
  let w := setIsCalling false w in
  let w := setIsMuted false w in
  let w := setIsVideoOff false w in
  if shouldAnalyze then handleCallAnalysis w else w.

(** [close()] on a connection that is not open: PeerJS releases the
    connection and returns ([if (!this.open) return]); nothing is emitted. *)
Definition close_quietly (call : MediaConnection) (w : World) : World :=
  perform (CallClosed (peer call)) w.

(** [close()] of a PeerJS media connection, called on the connection the ref
    holds. On an open connection it clears [open] and then emits ['close'],
    which runs, before [close()] returns, the handler registered with
    [call.on('close', ...)]: the [endCall] of the render that registered it.
    The [close()] inside that [endCall] meets the same connection, no longer
    open. *)
Definition close (call : MediaConnection) (w : World) : World :=
  let w := perform (CallClosed (peer call)) w in
  if open call then
    match listeners call with
    | Some registered => endCall_with close_quietly registered (mark_closed w)
    | None => mark_closed w
    end
  else w.

(** [endCall], as created by the render that saw [seen]. *)
Definition endCall (seen : Hooks) (w : World) : World :=
  endCall_with close seen w.

Definition toggleMute (seen : Hooks) (w : World) : World :=
  match localStream seen with
  | Some stream =>
      match getAudioTracks stream with
      | audioTrack :: _ =>
          let w := set_enabled audioTrack (negb (enabled (read_track w audioTrack))) w in
          setIsMuted (negb (enabled (read_track w audioTrack))) w
      | [] => w
      end
  | None => w
  end.

Definition toggleVideo (seen : Hooks) (w : World) : World :=
  match localStream seen with
  | Some stream =>
      match getVideoTracks stream with
      | videoTrack :: _ =>
          let w := set_enabled videoTrack (negb (enabled (read_track w videoTrack))) w in
          setIsVideoOff (negb (enabled (read_track w videoTrack))) w
      | [] => w
      end
  | None => w
  end.

(** [s.track?.kind === 'video'] *)
Definition sends_video (s : RTCRtpSender) : bool :=
  match sender_track s with
  | Some t => same_kind (kind t) video
  | None => false
  end.

(** [getSenders().find(sends video)] followed by [sender.replaceTrack(t)]:
    the first sender that sends video gets the track [t]. *)
Fixpoint replace_video (t : option MediaStreamTrack) (senders : list RTCRtpSender)
  : list RTCRtpSender :=
  match senders with
  | [] => []
  | s :: rest =>
      if sends_video s then Sender t :: rest
      else s :: replace_video t rest
  end.

(** What the camera and the peer connection do during one [flipCamera]:
    whether [getUserMedia] resolves, and whether [replaceTrack] does. *)
Record Devices : Type := MkDevices {
  camera_opens : bool;
  replace_succeeds : bool
}.

Definition flip (m : FacingMode) : FacingMode :=
  match m with
  | user => environment
  | environment => user
  end.

Definition flip_failed (w : World) : World :=
  perform (Alerted "Error" "Could not flip camera") w.

Definition flipCamera (seen : Hooks) (dev : Devices) (w : World) : World :=
  match localStream seen with
  | None => w
  | Some stream =>
      let w :=
        match getVideoTracks stream with
        | videoTrack :: _ => stop videoTrack w
        | [] => w
        end in
      let newFacingMode := flip (facingMode seen) in
      if negb (camera_opens dev) then flip_failed w
      else
        let (newStream, w) := new_stream w in
        let replaced :=
          match currentCall w with
          | Some call =>
              match peerConnection call with
              | Some senders =>
                  if existsb sends_video senders then
                    if replace_succeeds dev then
                      Some (set_currentCall
                              (Some (Call (peer call)
                                          (Some (replace_video
                                                   (hd_error (getVideoTracks newStream))
                                                   senders))
                                          (open call) (listeners call))) w)
                    else None
                  else Some w
              | None => Some w
              end
          | None => Some w
          end in
        match replaced with
        | Some w => setFacingMode newFacingMode (setLocalStream (Some newStream) w)
        | None => flip_failed w
        end
  end.

(** [!remotePeerId.trim()]: the trimmed string is empty. *)
Definition blank (s : string) : bool := Js.trims_to_empty s.

(** What the outside does during one [startCall]: whether [getUserMedia]
    resolves and whether [peer.call] returns a connection. *)
Record Dialing : Type := MkDialing {
  media_granted : bool;
  call_placed : bool
}.

(** [startCall], as created by the render that saw [seen]. The connection
    returned by [peer.call(remotePeerId, stream)] sends the tracks of
    [stream] and is not open until the remote side answers; the three
    [call.on] handlers registered on it are closures of this same render. *)
Definition startCall (seen : Hooks) (dial : Dialing) (w : World) : World :=
  if blank (remotePeerId seen) then
    perform (Alerted "Error" "Please enter a peer ID to call") w
  else if negb (peerReady seen) || negb (peerInstance w) then
    perform (Alerted "Error" "Peer connection not ready") w
  else
    let w := setIsCalling true w in
    if negb (media_granted dial) then
      setIsCalling false
        (perform (Alerted "Error" "Failed to start call")
           (perform (Alerted "Error" "Could not access camera/microphone") w))
    else
      let (stream, w) := new_stream w in
      let w := setLocalStream (Some stream) w in
      if negb (call_placed dial) then
        setIsCalling false (perform (Alerted "Error" "Failed to start call") w)
      else
        set_currentCall
          (Some (Call (remotePeerId seen)
                      (Some (map (fun t => Sender (Some t)) (getTracks stream)))
                      false (Some seen))) w.

(** The answer of the remote side arrives: PeerJS sets [open] on the
    connection the ref holds. *)
Definition on_answer (w : World) : World :=
  set_currentCall (option_map (set_open true) (currentCall w)) w.

(** The ['stream'] handler registered by [startCall] and [answerCall]. *)
Definition on_stream (remote : MediaStream) (now : Z) (w : World) : World :=
  set_callStartTime (Some now)
    (setIsCalling false (setIsCallActive true (setRemoteStream (Some remote) w))).

(** The ['close'] event of [call], the connection the ref holds, as when the
    remote side hangs up: PeerJS emits it from [close()], after it has
    cleared [open], and the handler registered on [call] runs: the [endCall]
    of the render that registered it. *)
Definition on_close (call : MediaConnection) (w : World) : World :=
  match listeners call with
  | Some seen => endCall seen (mark_closed w)
  | None => mark_closed w
  end.

(** The component right after mounting, once the peer is open. *)
Definition mounted (contact : string) : World :=
  MkWorld (MkHooks None None contact false false false false true user true false)
          None None true (fun _ => Live true false) 0 [].

(** *** The rest of the screen's handlers *)

(** [n.toString()] for a whole number that is not negative *)
Definition toString (n : nat) : string := NilZero.string_of_uint (Nat.to_uint n).

(** The first [k] characters of [padString] repeated; [current] is what is
    left of the copy being written. *)
Fixpoint filler (k : nat) (padString current : string) : string :=
  match k with
  | O => EmptyString
  | S k' =>
      match current with
      | String c rest => String c (filler k' padString rest)
      | EmptyString =>
          match padString with
          | String c rest => String c (filler k' padString rest)
          | EmptyString => EmptyString
          end
      end
  end.

(** [s.padStart(targetLength, padString)] *)
Definition padStart (targetLength : nat) (padString s : string) : string :=
  (filler (targetLength - String.length s) padString padString ++ s)%string.

(** [formatCallDuration]; [callDuration] counts the seconds of the call up
    from 0. *)
Definition formatCallDuration (seconds : nat) : string :=
  let mins := (seconds / 60)%nat in
  let secs := (seconds mod 60)%nat in
  (padStart 2 "0" (toString mins) ++ ":" ++ padStart 2 "0" (toString secs))%string.

(** The decimal digit [k]. *)
Definition digit (k : nat) : ascii := ascii_of_nat (48 + k).

(** Minutes and seconds, two digits each: [MM:SS]. *)
Definition clock_face (seconds : nat) : string :=
  String (digit (seconds / 60 / 10)) (String (digit (seconds / 60 mod 10))
    (String ":" (String (digit (seconds mod 60 / 10))
      (String (digit (seconds mod 60 mod 10)) EmptyString)))).

Definition setIsSpeakerOn (v : bool) : World -> World :=
  with_state (fun h =>
    MkHooks (localStream h) (remoteStream h) (remotePeerId h) (isCalling h)
            (isCallActive h) (isMuted h) (isVideoOff h) v (facingMode h)
            (peerReady h) (isProcessing h)).

Definition toggleSpeaker (seen : Hooks) (w : World) : World :=
  setIsSpeakerOn (negb (isSpeakerOn seen)) w.

(** [answerCall], as created by the render that saw [seen], for an incoming
    [call]; [media_granted] tells whether [getUserMedia] resolves. After
    [call.answer(stream)] the connection sends the tracks of [stream] and is
    open. *)
Definition answerCall (seen : Hooks) (media_granted : bool) (call : MediaConnection)
                      (w : World) : World :=
  let w := setIsCalling true w in
  if negb media_granted then
    setIsCalling false
      (perform (Alerted "Error" "Failed to answer call")
         (perform (Alerted "Error" "Could not access camera/microphone") w))
  else
    let (stream, w) := new_stream w in
    let w := setLocalStream (Some stream) w in
    set_currentCall
      (Some (Call (peer call)
                  (Some (map (fun t => Sender (Some t)) (getTracks stream)))
                  true (Some seen))) w.

(** How often the analysis of a call has been started. *)
Definition analyses_started (w : World) : nat :=
  List.length (filter (fun e => match e with AnalysisStarted => true | _ => false end)
                      (effects w)).

(** The render whose ['close'] handler a [close()] on the call in the ref
    would run: the call is open and a handler is registered on it. *)
Definition close_handler (w : World) : option Hooks :=
  match currentCall w with
  | Some call => if open call then listeners call else None
  | None => None
  end.

End VideoCall.

(** ** app/(tabs)/firstscreen.tsx *)

Module FirstScreen.
Import Js.

Record Entry : Type := MkEntry {
  speaker : string;
  text : value
}.

(** The transcript as the screen keeps it twice: in [transcriptRef.current]
    and in the [transcript] state. *)
Record Screen : Type := MkScreen {
  transcriptRef : list Entry;
  transcript : list Entry
}.

(** [transcriptRef.current = [...transcriptRef.current, newMessage]] and
    [setTranscript(prev => [...prev, newMessage])] *)
Definition append (newMessage : Entry) (s : Screen) : Screen :=
  MkScreen (transcriptRef s ++ [newMessage]) (transcript s ++ [newMessage]).

(** The handler of the Vapi ['message'] event. *)
Definition on_message (message : value) (s : Screen) : outcome unit * Screen :=
  match get message "type" with
  | Throw e => (Throw e, s)
  | Ret type =>
      let final :=
        if strict_eq_str type "transcript" then
          match get message "transcriptType" with
          | Ret transcriptType => strict_eq_str transcriptType "final"
          | Throw _ => false
          end
        else false in
      if final then
        match get message "role", get message "transcript" with
        | Ret role, Ret text =>
            let newMessage :=
              MkEntry (if strict_eq_str role "assistant" then "doctor" else "patient")
                      text in
            (Ret tt, append newMessage s)
        | Throw e, _ => (Throw e, s)
        | _, Throw e => (Throw e, s)
        end
      else (Ret tt, s)
  end.

End FirstScreen.

(** ** Concrete networks, payloads and component states *)

Module Fixtures.
Import Js Api.

Definition not_found : fetch_result := Resolves (Response 404 None).

Definition offline : fetch_result := Rejects (TypeError "Network request failed").

Definition pending_status : value :=
  VObj [("call_id", VStr "CALL_1");
        ("emergency_details", VStr "No emergency data");
        ("medical_record_details", VStr "No medical record data")].

Definition report_status : value :=
  VObj [("call_id", VStr "CALL_1");
        ("emergency_details", VStr "No emergency data");
        ("medical_record_details",
           VObj [("call_id", VStr "CALL_1");
                 ("chief_complaint", VStr "mild headaches");
                 ("recommended_specialty", VStr "General Physician")])].

(** A backend that never has the record. *)
Definition net_never (n : nat) (r : request) : fetch_result := not_found.

(** A backend that answers 404, then the placeholders, then the report. *)
Definition net_third (n : nat) (r : request) : fetch_result :=
  match n with
  | 0%nat => not_found
  | 1%nat => Resolves (Response 200 (Some pending_status))
  | 2%nat => Resolves (Response 200 (Some report_status))
  | _ => offline
  end.

(** A contact id of white space only: a space, a no-break space (U+00A0)
    and an em space (U+2003). *)
Definition white_id : string :=
  String " " (String "194" (String "160"
    (String "226" (String "128" (String "131" EmptyString))))).

(** The video screen: a call placed from the set-up screen, answered by the
    remote side, and then closed by the remote side. *)
Definition remote_stream : VideoCall.MediaStream :=
  VideoCall.Stream [VideoCall.Track 100 VideoCall.audio;
                    VideoCall.Track 101 VideoCall.video].

Definition calling : VideoCall.World :=
  VideoCall.startCall (VideoCall.render (VideoCall.mounted "doctor-42"))
                      (VideoCall.MkDialing true true)
                      (VideoCall.mounted "doctor-42").

Definition in_call : VideoCall.World :=
  VideoCall.on_stream remote_stream 1700000000000 (VideoCall.on_answer calling).

Definition remote_hangup : VideoCall.World :=
  match VideoCall.currentCall in_call with
  | Some call => VideoCall.on_close call in_call
  | None => in_call
  end.

(** After the remote hang-up the analysis of the call runs to its end
    ([setIsProcessing(false)], [callStartTime.current = null]) and the
    set-up screen is back. *)
Definition analysed : VideoCall.World :=
  VideoCall.set_callStartTime None (VideoCall.setIsProcessing false remote_hangup).

(** A second call is placed from that screen, answered, and its remote
    stream arrives. *)
Definition second_call : VideoCall.World :=
  VideoCall.on_stream remote_stream 1700000600000
    (VideoCall.on_answer
       (VideoCall.startCall (VideoCall.render analysed)
                            (VideoCall.MkDialing true true) analysed)).

(** A final transcript message of the voice assistant. *)
Definition assistant_says : value :=
  VObj [("type", VStr "transcript");
        ("transcriptType", VStr "final");
        ("role", VStr "assistant");
        ("transcript", VStr "How long have you had the headache?")].

End Fixtures.

(** ** What happens to a finished call: [handleCallAnalysis] *)

Module CallAnalysis.
Import Js Api.

(** What the clock and [Math.random] give during one analysis: the time at
    which the duration is taken, the [Date.now()] put in the call id, the
    text of [Math.random().toString(36).substr(2, 9)], and whether
    [Math.random() > 0.5]. *)
Record Chance : Type := MkChance {
  now : Z;
  stamp : Z;
  suffix : string;
  isEmergencyTest : bool
}.

(** A whole number in a template literal. *)
Definition show (z : Z) : string := NilZero.string_of_int (Z.to_int z).

(** [`${minutes} minutes ${seconds} seconds`], from the recorded start of
    the call ([Math.floor] is the division of [Z], [%] its [rem]). *)
Definition durationStr (callStartTime : option Z) (now : Z) : string :=
  let duration :=
    match callStartTime with
    | Some started => (now - started) / 1000
    | None => 0
    end in
  let minutes := duration / 60 in
  let seconds := Z.rem duration 60 in
  (show minutes ++ " minutes " ++ show seconds ++ " seconds")%string.

(** [`CALL_${Date.now()}_${Math.random().toString(36).substr(2, 9)}`] *)
Definition new_callId (c : Chance) : string :=
  ("CALL_" ++ show (stamp c) ++ "_" ++ suffix c)%string.

(** An [Alert.alert] with one button; pressing it navigates to [pathname]
    with the route parameter [callId] when there is one. *)
Record Dialog : Type := MkDialog {
  title : string;
  message : string;
  button : string;
  pathname : string;
  params_callId : option string
}.

Definition emergency_dialog (callId : string) : Dialog :=
  MkDialog "Emergency Detected"
           "Emergency services have been notified. Redirecting to emergency tracking..."
           "OK" "/emergency" (Some callId).

Definition report_dialog (callId : string) : Dialog :=
  MkDialog "Consultation Complete"
           "Your consultation report is ready. Redirecting..."
           "View Report" "/report" (Some callId).

(** *** The video screen *)

(** The demo query of the video screen. *)
Definition video_query (callStartTime : option Z) (c : Chance) : string :=
  if isEmergencyTest c then
    ("Call ID: " ++ new_callId c
       ++ ". Patient name: Emergency Patient. Location: Patient Home. Patient had a video consultation lasting "
       ++ durationStr callStartTime (now c)
       ++ ". Patient is experiencing severe chest pain radiating to left arm with heavy sweating and shortness of breath.")%string
  else
    ("Call ID: " ++ new_callId c
       ++ ". Patient name: John Smith. Patient had a video consultation lasting "
       ++ durationStr callStartTime (now c)
       ++ ". Patient reported mild headaches and feeling tired for the past 3 days.")%string.

(** [{ maxAttempts: 5, interval: 2000, onProgress: ... }] *)
Definition video_polling : options := Options (Some 5) (Some 2000) true.

(** The two branches on [analyzeResult.classification]; each reads
    [analyzeResult.result] and a field of it before it shows its alert. *)
Definition video_dialog (callId : string) (analyzeResult : value) : outcome Dialog :=
  match get analyzeResult "classification" with
  | Throw e => Throw e
  | Ret classification =>
      match get analyzeResult "result" with
      | Throw e => Throw e
      | Ret result =>
          if strict_eq_str classification "emergency" then
            match get result "call_sid" with
            | Throw e => Throw e
            | Ret _ => Ret (emergency_dialog callId)
            end
          else
            match get result "call_id" with
            | Throw e => Throw e
            | Ret _ => Ret (report_dialog callId)
            end
      end
  end.

Local Open Scope api_scope.

Section Flows.

Variable net : nat -> request -> fetch_result.

(** The [try] block of the video screen's [handleCallAnalysis] with its
    [catch], which swallows every error: the alert it shows, if any. *)
Definition video_analysis (callStartTime : option Z) (c : Chance) : M (option Dialog) :=
  try_catch
    (analyzeResult <- analyzeQuery net (video_query callStartTime c) ;;
     statusResult <- pollStatus net (new_callId c) video_polling ;;
     dialog <- lift (video_dialog (new_callId c) analyzeResult) ;;
     ret (Some dialog))
    (fun error => ret None).

(** [handleCallAnalysis] of the video screen, run to its end with nothing
    else happening in between. *)
Definition handleCallAnalysis (c : Chance) (w : VideoCall.World) (n : nat)
  : VideoCall.World * run (option Dialog) :=
  let w := VideoCall.setIsProcessing true w in
  let r := video_analysis (VideoCall.callStartTime w) c n in
  let w :=
    match result r with
    | Ret (Some dialog) => VideoCall.perform (VideoCall.Alerted (title dialog) (message dialog)) w
    | _ => w
    end in
  (VideoCall.set_callStartTime None (VideoCall.setIsProcessing false w), r).

End Flows.

End CallAnalysis.

(** ** The voice-consultation screen as a whole *)

Module VoiceSession.
Import Js Api CallAnalysis FirstScreen.

(** The screen with its other hooks and refs, and the alerts it has shown
    (title and message). *)
Record Session : Type := MkSession {
  screen : Screen;
  isConnected : bool;
  isProcessing : bool;
  callStartTimeRef : option Z;
  alerts : list (string * string)
}.

Definition newline : string := String (ascii_of_nat 10) EmptyString.

(** [`${msg.speaker === 'doctor' ? 'Doctor' : 'Patient'}: ${msg.text}`] *)
Definition line (msg : Entry) : string :=
  ((if String.eqb (speaker msg) "doctor" then "Doctor" else "Patient")
     ++ ": " ++ to_string (text msg))%string.

(** [lines.join(separator)] *)
Fixpoint join (separator : string) (lines : list string) : string :=
  match lines with
  | [] => EmptyString
  | l :: rest =>
      match rest with
      | [] => l
      | _ :: _ => (l ++ separator ++ join separator rest)%string
      end
  end.

Definition fullTranscript (entries : list Entry) : string :=
  join newline (map line entries).

Definition voice_query (callStartTime : option Z) (c : Chance) (entries : list Entry)
  : string :=
  ("Call ID: " ++ new_callId c
     ++ ". Patient name: Patient. Patient had a voice consultation lasting "
     ++ durationStr callStartTime (now c) ++ "." ++ newline ++ newline
     ++ "Full conversation transcript:" ++ newline
     ++ fullTranscript entries)%string.

Definition processing_error_dialog : Dialog :=
  MkDialog "Processing Error"
           "Failed to process consultation. Showing report with default data."
           "View Report" "/report" None.

Definition voice_dialog (callId : string) (analyzeResult : value) : outcome Dialog :=
  match get analyzeResult "classification" with
  | Throw e => Throw e
  | Ret classification =>
      Ret (if strict_eq_str classification "emergency"
           then emergency_dialog callId else report_dialog callId)
  end.

Definition connected_entry : Entry :=
  MkEntry "doctor" (VStr "Connected! The Symptom Assistant is listening...").

Definition ended_entry : Entry :=
  MkEntry "doctor" (VStr "Call ended. Analyzing your consultation...").

Definition with_screen (f : Screen -> Screen) (s : Session) : Session :=
  MkSession (f (screen s)) (isConnected s) (isProcessing s) (callStartTimeRef s) (alerts s).

Definition setIsConnected (v : bool) (s : Session) : Session :=
  MkSession (screen s) v (isProcessing s) (callStartTimeRef s) (alerts s).

Definition setIsProcessing (v : bool) (s : Session) : Session :=
  MkSession (screen s) (isConnected s) v (callStartTimeRef s) (alerts s).

Definition set_callStartTimeRef (v : option Z) (s : Session) : Session :=
  MkSession (screen s) (isConnected s) (isProcessing s) v (alerts s).

Definition alert (title message : string) (s : Session) : Session :=
  MkSession (screen s) (isConnected s) (isProcessing s) (callStartTimeRef s)
            (alerts s ++ [(title, message)]).

Local Open Scope api_scope.

Section Handlers.

Variable net : nat -> request -> fetch_result.

(** The [try] block of the voice screen's [handleCallAnalysis] with its
    [catch]: the alert it shows. *)
Definition voice_analysis (callStartTime : option Z) (c : Chance) (entries : list Entry)
  : M Dialog :=
  try_catch
    (analyzeResult <- analyzeQuery net (voice_query callStartTime c entries) ;;
     dialog <- lift (voice_dialog (new_callId c) analyzeResult) ;;
     ret dialog)
    (fun error => ret processing_error_dialog).

(** [handleCallAnalysis] of the voice screen, run to its end. *)
Definition handleCallAnalysis (c : Chance) (s : Session) (n : nat)
  : Session * run Dialog :=
  let s := setIsProcessing true s in
  let r := voice_analysis (callStartTimeRef s) c (transcriptRef (screen s)) n in
  let s :=
    match result r with
    | Ret dialog => alert (title dialog) (message dialog) s
    | Throw _ => s
    end in
  (set_callStartTimeRef None (setIsProcessing false s), r).

(** The ['call-start'] handler. *)
Definition on_call_start (now : Z) (s : Session) : Session :=
  with_screen (append connected_entry) (set_callStartTimeRef (Some now) (setIsConnected true s)).

(** The ['call-end'] handler. *)
Definition on_call_end (c : Chance) (s : Session) (n : nat) : Session * run Dialog :=
  handleCallAnalysis c (with_screen (append ended_entry) (setIsConnected false s)) n.

(** The events the Vapi client sends to the screen. *)
Inductive VapiEvent : Type :=
| CallStart (now : Z)
| CallEnd (c : Chance)
| SpeechStart
| SpeechEnd
| Message (message : value)
| Failure.

(** One event: the screen after it, and the requests issued so far. *)
Definition handle (e : VapiEvent) (sn : Session * nat) : Session * nat :=
  let (s, n) := sn in
  match e with
  | CallStart now => (on_call_start now s, n)
  | CallEnd c => let (s', r) := on_call_end c s n in (s', fetched r)
  | SpeechStart | SpeechEnd => (s, n)
  | Message message => (with_screen (fun sc => snd (on_message message sc)) s, n)
  | Failure => (alert "Error" "Call connection failed" s, n)
  end.

Definition replay (events : list VapiEvent) (sn : Session * nat) : Session * nat :=
  fold_left (fun sn e => handle e sn) events sn.

End Handlers.

(** The entries an event adds to the transcript. *)
Definition adds_entry (e : VapiEvent) : bool :=
  match e with
  | CallStart _ | CallEnd _ => true
  | Message message =>
      match get message "type", get message "transcriptType" with
      | Ret type, Ret transcriptType =>
          strict_eq_str type "transcript" && strict_eq_str transcriptType "final"
      | _, _ => false
      end
  | _ => false
  end.

Definition ends_call (e : VapiEvent) : bool :=
  match e with CallEnd _ => true | _ => false end.

Definition shows_alert (e : VapiEvent) : bool :=
  match e with CallEnd _ | Failure => true | _ => false end.

(** How many of the events satisfy [f]. *)
Definition count (f : VapiEvent -> bool) (events : list VapiEvent) : nat :=
  List.length (filter f events).

(** The screen when it is mounted. *)
Definition mounted : Session := MkSession (MkScreen [] []) false false None [].

End VoiceSession.

(** ** The emergency and the report screen *)

Module StatusScreens.
Import Js Api.

(** The hooks of either screen, and the alerts it has shown. *)
Record Loader : Type := MkLoader {
  isLoading : bool;
  data : option value;
  error : option string;
  alerts : list (string * string)
}.

Definition mounted : Loader := MkLoader true None None [].

(** [{ maxAttempts: 20, interval: 3000, onProgress: ... }] *)
Definition screen_polling : options := Options (Some 20) (Some 3000) true.

(** [!params.callId], for a route parameter that is a string when present *)
Definition missing (callId : option string) : bool :=
  match callId with
  | None => true
  | Some s => String.eqb s ""
  end.

Section Loading.

Variable net : nat -> request -> fetch_result.

(** [fetchEmergencyData] of the emergency screen *)
Definition fetchEmergencyData (callId : option string) (l : Loader) (n : nat)
  : Loader * run unit :=
  match callId with
  | Some id =>
      if missing callId then
        (MkLoader false (data l) (error l) (alerts l), Run (Ret tt) n [])
      else
        let r := pollStatus net id screen_polling n in
        match result r with
        | Ret status =>
            (MkLoader false (Some status) None (alerts l),
             Run (Ret tt) (fetched r) (trace r))
        | Throw _ =>
            (MkLoader false (data l) (Some "Failed to load emergency details")
                      (alerts l ++ [("Error",
                                     "Could not load emergency details. Showing default data.")]),
             Run (Ret tt) (fetched r) (trace r))
        end
  | None => (MkLoader false (data l) (error l) (alerts l), Run (Ret tt) n [])
  end.

(** [fetchReportData] of the report screen *)
Definition fetchReportData (callId : option string) (l : Loader) (n : nat)
  : Loader * run unit :=
  match callId with
  | Some id =>
      if missing callId then
        (MkLoader false (data l) (error l) (alerts l), Run (Ret tt) n [])
      else
        let r := pollStatus net id screen_polling n in
        match result r with
        | Ret status =>
            (MkLoader false (Some status) None (alerts l),
             Run (Ret tt) (fetched r) (trace r))
        | Throw _ =>
            (MkLoader false (data l) (Some "Failed to load report details")
                      (alerts l ++ [("Error",
                                     "Could not load consultation report. Showing default data.")]),
             Run (Ret tt) (fetched r) (trace r))
        end
  | None => (MkLoader false (data l) (error l) (alerts l), Run (Ret tt) n [])
  end.

End Loading.

(** [data?.field && typeof data.field === 'object' ? data.field : null] *)
Definition object_field (data : option value) (field : string) : value :=
  let v := match data with Some d => opt_get d field | None => VUndefined end in
  if truthy v && String.eqb (typeof v) "object" then v else VNull.

(** Coordinates on the map: one of the two built-in points, or a pair of
    fields read from the status. *)
Inductive Coordinates : Type :=
| defaultPatientLocation
| defaultAmbulanceLocation
| At (latitude longitude : value).

(** What the emergency screen shows. *)
Record EmergencyView : Type := MkEmergencyView {
  driverName : value;
  driverStatus : value;
  patientLocation : value;
  ambulanceLocation : Coordinates;
  patientCoords : Coordinates
}.

Definition emergency_view (emergencyData : option value) : EmergencyView :=
  let emergencyDetails := object_field emergencyData "emergency_details" in
  let driver := opt_get emergencyDetails "driver" in
  let patient := opt_get emergencyDetails "patient" in
  MkEmergencyView
    (or_else (opt_get driver "name") (VStr "Manoj"))
    (or_else (opt_get driver "status") (VStr "On the way"))
    (or_else (opt_get patient "location") (VStr "Kalkaji"))
    (if truthy driver then At (opt_get driver "latitude") (opt_get driver "longitude")
     else defaultAmbulanceLocation)
    (if truthy patient then At (opt_get patient "latitude") (opt_get patient "longitude")
     else defaultPatientLocation).

Definition default_symptoms : value :=
  VArr [VStr "Headache (moderate intensity, frontal region)";
        VStr "Dizziness (intermittent)";
        VStr "Mild nausea";
        VStr "Light sensitivity"].

(** What the report screen shows. *)
Record ReportView : Type := MkReportView {
  patientName : value;
  consultationDate : value;
  duration : value;
  chiefComplaint : value;
  symptoms : value;
  aiAnalysis : value;
  recommendedSpecialty : value
}.

Definition report_view (reportData : option value) : ReportView :=
  let medicalRecord := object_field reportData "medical_record_details" in
  let patient_information := opt_get medicalRecord "patient_information" in
  MkReportView
    (or_else (opt_get patient_information "name") (VStr "John Doe"))
    (or_else (opt_get patient_information "date") (VStr "October 5, 2025"))
    (or_else (opt_get patient_information "duration") (VStr "5 minutes 32 seconds"))
    (or_else (opt_get medicalRecord "chief_complaint")
             (VStr "Patient reports persistent headache with occasional dizziness for the past 3 days."))
    (or_else (opt_get medicalRecord "reported_symptoms") default_symptoms)
    (or_else (opt_get medicalRecord "ai_analysis")
             (VStr "Based on the symptoms described, this appears to be consistent with tension-type headache or possible migraine. No red flag symptoms were identified. Recommend consultation with a primary care physician or neurologist for proper diagnosis."))
    (or_else (opt_get medicalRecord "recommended_specialty")
             (VStr "Neurologist or Primary Care Physician")).

(** [symptoms.map(...)]: the rows of the symptom card; only an array has
    [map]. *)
Definition symptom_rows (symptoms : value) : outcome (list value) :=
  match symptoms with
  | VArr items => Ret items
  | _ => Throw (TypeError "symptoms.map is not a function")
  end.

End StatusScreens.

(** * Properties of the API service *)

Module ApiProps.
Import Js Api.
Local Open Scope api_scope.

Lemma pollLoop_in net callId o attempt :
  attempt <= maxAttempts_of o ->
  pollLoop net callId o attempt =
    (r <- attempt_body net callId o attempt ;;
     match r with
     | Some status => ret status
     | None => emit (EDelay (interval_of o)) ;; pollLoop net callId o (attempt + 1)
     end).
Proof.
  intros H. rewrite pollLoop_equation_1.
  destruct (Z_le_gt_dec attempt (maxAttempts_of o)) as [H'|H']; [reflexivity | lia].
Qed.

Lemma pollLoop_out net callId o attempt :
  attempt > maxAttempts_of o ->
  pollLoop net callId o attempt = throw (Error Timeout_failed).
Proof.
  intros H. rewrite pollLoop_equation_1.
  destruct (Z_le_gt_dec attempt (maxAttempts_of o)) as [H'|H']; [lia | reflexivity].
Qed.

(** [getStatus] issues exactly one request, whatever the network does. *)
Lemma getStatus_run net callId n :
  fetched (getStatus net callId n) = S n /\
  trace (getStatus net callId n) = [EFetch (status_request callId)].
Proof.
  unfold getStatus, try_catch, bind, fetch, json, prepend.
  destruct (net n (status_request callId)) as [resp|e]; cbn.
  - destruct (ok resp); cbn.
    + destruct (json_body resp); cbn; auto.
    + destruct (status resp =? 404); cbn; auto.
  - auto.
Qed.

(** One attempt of [pollStatus], as a function of how it ends. *)
Lemma attempt_body_run net callId o attempt n :
  attempt_body net callId o attempt n =
    Run (match classify net callId n with
         | Data status => Ret (Some status)
         | NoData => Ret None
         | Errored =>
             if attempt =? maxAttempts_of o then Throw (Error Timeout_data)
             else Ret None
         end)
        (S n) (attempt_events callId o attempt).
Proof.
  destruct (getStatus_run net callId n) as [Hf Ht].
  unfold classify, attempt_events, attempt_body, try_catch, bind, lift, prepend.
  destruct (onProgress o); cbn;
    destruct (getStatus net callId n) as [res f tr]; cbn in *; subst f tr;
    (destruct res as [status|e]; cbn;
     [ destruct (has_data status) as [[|]|e]; cbn | ];
     try destruct (attempt =? maxAttempts_of o); cbn; reflexivity).
Qed.

(** One turn of the loop. *)
Lemma pollLoop_step net callId o attempt n :
  attempt <= maxAttempts_of o ->
  pollLoop net callId o attempt n =
    match classify net callId n with
    | Data status => Run (Ret status) (S n) (attempt_events callId o attempt)
    | NoData =>
        prepend (attempt_events callId o attempt ++ [EDelay (interval_of o)])
                (pollLoop net callId o (attempt + 1) (S n))
    | Errored =>
        if attempt =? maxAttempts_of o
        then Run (Throw (Error Timeout_data)) (S n) (attempt_events callId o attempt)
        else prepend (attempt_events callId o attempt ++ [EDelay (interval_of o)])
                     (pollLoop net callId o (attempt + 1) (S n))
    end.
Proof.
  intros H. rewrite (pollLoop_in net callId o H).
  unfold bind at 1. rewrite attempt_body_run. cbn.
  assert (Hgo : prepend (attempt_events callId o attempt)
                  ((emit (EDelay (interval_of o)) ;;
                    pollLoop net callId o (attempt + 1)) (S n))
                = prepend (attempt_events callId o attempt ++ [EDelay (interval_of o)])
                          (pollLoop net callId o (attempt + 1) (S n))).
  { unfold bind, emit, prepend. cbn. rewrite <- app_assoc. reflexivity. }
  destruct (classify net callId n).
  - unfold prepend, ret. cbn. rewrite app_nil_r. reflexivity.
  - exact Hgo.
  - destruct (attempt =? maxAttempts_of o); [reflexivity | exact Hgo].
Qed.

Lemma getStatus_calls_app tr1 tr2 :
  getStatus_calls (tr1 ++ tr2) = (getStatus_calls tr1 + getStatus_calls tr2)%nat.
Proof. unfold getStatus_calls. rewrite filter_app, length_app. reflexivity. Qed.

Lemma getStatus_calls_attempt callId o attempt :
  getStatus_calls (attempt_events callId o attempt) = 1%nat.
Proof. unfold attempt_events. destruct (onProgress o); reflexivity. Qed.

Lemma getStatus_calls_turn callId o attempt tr :
  getStatus_calls ((attempt_events callId o attempt ++ [EDelay (interval_of o)]) ++ tr)
  = S (getStatus_calls tr).
Proof.
  rewrite !getStatus_calls_app, getStatus_calls_attempt. reflexivity.
Qed.

(** Induction on the number of turns the loop has left. *)
Ltac loop_induction o attempt n :=
  let d := fresh "d" in
  let Hd := fresh "Hd" in
  remember (Z.to_nat (maxAttempts_of o + 1 - attempt)) as d eqn:Hd;
  revert attempt n Hd; induction d as [|d IHd]; intros attempt n Hd.

Ltac loop_exit net callId o attempt :=
  rewrite (@pollLoop_out net callId o attempt) by lia.

Ltac loop_turn net callId o attempt n :=
  rewrite (@pollLoop_step net callId o attempt n) by lia.

(** The loop makes at most as many [getStatus] calls as it has turns left,
    and each call is one request. *)
Lemma pollLoop_calls net callId o attempt n :
  let r := pollLoop net callId o attempt n in
  (getStatus_calls (trace r) <= Z.to_nat (maxAttempts_of o + 1 - attempt))%nat /\
  fetched r = (n + getStatus_calls (trace r))%nat.
Proof.
  loop_induction o attempt n.
  - loop_exit net callId o attempt. cbn. lia.
  - loop_turn net callId o attempt n.
    specialize (IHd (attempt + 1) (S n)).
    assert (Hnext : d = Z.to_nat (maxAttempts_of o + 1 - (attempt + 1))) by lia.
    specialize (IHd Hnext). cbn zeta in IHd. destruct IHd as [IH1 IH2].
    destruct (classify net callId n); [| |destruct (attempt =? maxAttempts_of o)];
      cbn [trace fetched prepend];
      rewrite ?getStatus_calls_turn, ?getStatus_calls_attempt; lia.
Qed.

(** When the loop has a turn left it makes at least one call. *)
Lemma pollLoop_calls_pos net callId o attempt n :
  attempt <= maxAttempts_of o ->
  (0 < getStatus_calls (trace (pollLoop net callId o attempt n)))%nat.
Proof.
  intros H. loop_turn net callId o attempt n.
  destruct (classify net callId n); [| |destruct (attempt =? maxAttempts_of o)];
    cbn [trace prepend];
    rewrite ?getStatus_calls_turn, ?getStatus_calls_attempt; lia.
Qed.

(** A failure of the loop is one of the two timeouts, and which one is
    decided by how the attempt numbered [maxAttempts] ends. *)
Lemma errors_classify net callId i :
  errors net callId i = match classify net callId i with Errored => true | _ => false end.
Proof. reflexivity. Qed.

Lemma pollLoop_failure net callId o attempt n e :
  result (pollLoop net callId o attempt n) = Throw e ->
  e = Error (if (attempt <=? maxAttempts_of o)
                && errors net callId (n + Z.to_nat (maxAttempts_of o - attempt))
             then Timeout_data else Timeout_failed).
Proof.
  loop_induction o attempt n.
  - loop_exit net callId o attempt. cbn. intros [= <-].
    replace (attempt <=? maxAttempts_of o) with false by (symmetry; apply Z.leb_gt; lia).
    reflexivity.
  - loop_turn net callId o attempt n.
    assert (Hle : (attempt <=? maxAttempts_of o) = true) by (apply Z.leb_le; lia).
    rewrite Hle. cbn [andb].
    assert (Hnext : d = Z.to_nat (maxAttempts_of o + 1 - (attempt + 1))) by lia.
    specialize (IHd (attempt + 1) (S n) Hnext).
    assert (Hgo : result (pollLoop net callId o (attempt + 1) (S n)) = Throw e ->
                  e = Error (if (attempt =? maxAttempts_of o) then Timeout_failed
                             else if errors net callId (n + Z.to_nat (maxAttempts_of o - attempt))
                                  then Timeout_data else Timeout_failed)).
    { intros Hr. rewrite (IHd Hr).
      destruct (Z.eqb_spec attempt (maxAttempts_of o)) as [Heq|Hne].
      - replace (attempt + 1 <=? maxAttempts_of o) with false
          by (symmetry; apply Z.leb_gt; lia).
        reflexivity.
      - replace (attempt + 1 <=? maxAttempts_of o) with true
          by (symmetry; apply Z.leb_le; lia).
        replace (S n + Z.to_nat (maxAttempts_of o - (attempt + 1)))%nat
          with (n + Z.to_nat (maxAttempts_of o - attempt))%nat by lia.
        reflexivity. }
    assert (Hlast : attempt = maxAttempts_of o ->
                    (n + Z.to_nat (maxAttempts_of o - attempt))%nat = n) by lia.
    destruct (classify net callId n) eqn:Hc.
    + discriminate.
    + cbn [result prepend]. intros Hr. rewrite (Hgo Hr).
      destruct (Z.eqb_spec attempt (maxAttempts_of o)) as [Heq|Hne]; [|reflexivity].
      rewrite (Hlast Heq), errors_classify, Hc. reflexivity.
    + destruct (Z.eqb_spec attempt (maxAttempts_of o)) as [Heq|Hne].
      * cbn. intros [= <-]. rewrite (Hlast Heq), errors_classify, Hc. reflexivity.
      * cbn [result prepend]. intros Hr. rewrite (Hgo Hr).
        destruct (Z.eqb_spec attempt (maxAttempts_of o)); [contradiction|reflexivity].
Qed.

(** The test of the loop is the service's notion of meaningful data. *)
Lemma is_object_non_null v : is_object v = non_null_object v.
Proof. destruct v; reflexivity. Qed.

Lemma has_data_spec status :
  has_data status =
    match status with
    | VUndefined => Throw (TypeError "Cannot read properties of undefined")
    | VNull => Throw (TypeError "Cannot read properties of null")
    | _ => Ret (meaningful_data status)
    end.
Proof.
  destruct status; try reflexivity.
  unfold has_data, meaningful_data. cbn [get].
  rewrite !is_object_non_null.
  destruct (non_null_object (lookup "emergency_details" props)); reflexivity.
Qed.

Lemma classify_Data net callId i status :
  classify net callId i = Data status <->
  result (getStatus net callId i) = Ret status /\ meaningful_data status = true.
Proof.
  unfold classify. destruct (result (getStatus net callId i)) as [s|e].
  - rewrite has_data_spec. split.
    + destruct s; try discriminate;
        (destruct (meaningful_data _) eqn:Hm; [intros [= <-]; auto | discriminate]).
    + intros [[= ->] Hm]. destruct status; try discriminate; rewrite Hm; reflexivity.
  - split; [discriminate | intros [? _]; discriminate].
Qed.

(** When the loop returns, it returns what its last call found. *)
Lemma pollLoop_returns net callId o attempt n status :
  let r := pollLoop net callId o attempt n in
  result r = Ret status ->
  (n < fetched r)%nat /\ classify net callId (fetched r - 1) = Data status.
Proof.
  loop_induction o attempt n.
  - loop_exit net callId o attempt. cbn. discriminate.
  - loop_turn net callId o attempt n.
    assert (Hnext : d = Z.to_nat (maxAttempts_of o + 1 - (attempt + 1))) by lia.
    specialize (IHd (attempt + 1) (S n) Hnext). cbn zeta in IHd.
    destruct (classify net callId n) eqn:Hc;
      [| |destruct (attempt =? maxAttempts_of o)]; cbn; try discriminate.
    + intros [= <-]. rewrite Nat.sub_0_r. auto.
    + intros Hr. destruct (IHd Hr). split; [lia | assumption].
    + intros Hr. destruct (IHd Hr). split; [lia | assumption].
Qed.

(** The first attempt that finds data ends the run. *)
Lemma pollLoop_first_data net callId o (k : nat) : forall attempt n status,
  attempt + Z.of_nat k <= maxAttempts_of o ->
  (forall j, (j < k)%nat -> finds_data net callId (n + j) = false) ->
  classify net callId (n + k) = Data status ->
  let r := pollLoop net callId o attempt n in
  result r = Ret status /\ fetched r = (n + k + 1)%nat.
Proof.
  induction k as [|k IHk]; intros attempt n status Hk Hnone Hdata.
  - loop_turn net callId o attempt n. rewrite Nat.add_0_r in Hdata.
    rewrite Hdata. cbn. split; [reflexivity | lia].
  - loop_turn net callId o attempt n.
    assert (H0 : finds_data net callId n = false).
    { rewrite <- (Nat.add_0_r n). apply Hnone. lia. }
    assert (IH : let r := pollLoop net callId o (attempt + 1) (S n) in
                 result r = Ret status /\ fetched r = (S n + k + 1)%nat).
    { apply IHk.
      - lia.
      - intros j Hj. replace (S n + j)%nat with (n + S j)%nat by lia.
        apply Hnone. lia.
      - replace (S n + k)%nat with (n + S k)%nat by lia. assumption. }
    cbn zeta in IH. destruct IH as [IH1 IH2].
    unfold finds_data in H0.
    destruct (classify net callId n); [discriminate| |].
    + cbn. split; [assumption | lia].
    + destruct (Z.eqb_spec attempt (maxAttempts_of o)); [lia|].
      cbn. split; [assumption | lia].
Qed.

Lemma schedule_more callId o attempt count :
  schedule callId o attempt (S (S count)) =
    (attempt_events callId o attempt
       ++ EDelay (interval_of o) :: schedule callId o (attempt + 1) (S count))%list.
Proof. reflexivity. Qed.

(** The trace of the loop: the attempts in order, one delay after each
    attempt that is followed by another turn of the loop. *)
Lemma pollLoop_schedule net callId o attempt n :
  let r := pollLoop net callId o attempt n in
  trace r = (schedule callId o attempt (getStatus_calls (trace r))
               ++ closing_delay o r)%list.
Proof.
  loop_induction o attempt n.
  - loop_exit net callId o attempt. reflexivity.
  - loop_turn net callId o attempt n.
    assert (Hnext : d = Z.to_nat (maxAttempts_of o + 1 - (attempt + 1))) by lia.
    specialize (IHd (attempt + 1) (S n) Hnext). cbn zeta in IHd.
    assert (Hstop : forall res : outcome value,
               exhausted (Run res (S n) (attempt_events callId o attempt)) = false ->
               let r := Run res (S n) (attempt_events callId o attempt) in
               trace r = (schedule callId o attempt (getStatus_calls (trace r))
                            ++ closing_delay o r)%list).
    { intros res Hex. cbn zeta. unfold closing_delay. rewrite Hex.
      cbn [trace andb]. rewrite getStatus_calls_attempt. cbn [schedule].
      rewrite !app_nil_r. reflexivity. }
    assert (Hgo : let r := prepend (attempt_events callId o attempt ++ [EDelay (interval_of o)])
                                   (pollLoop net callId o (attempt + 1) (S n)) in
                  trace r = (schedule callId o attempt (getStatus_calls (trace r))
                               ++ closing_delay o r)%list).
    { cbn zeta. unfold closing_delay, exhausted in *. cbn [trace result prepend] in *.
      rewrite getStatus_calls_turn.
      destruct (getStatus_calls (trace (pollLoop net callId o (attempt + 1) (S n))))
        as [|c] eqn:Hcalls.
      - destruct (Z_le_gt_dec (attempt + 1) (maxAttempts_of o)) as [Hle|Hgt].
        + pose proof (@pollLoop_calls_pos net callId o (attempt + 1) (S n) Hle). lia.
        + rewrite (@pollLoop_out net callId o (attempt + 1)) by lia.
          cbn. rewrite !app_nil_r. reflexivity.
      - rewrite IHd at 1. rewrite schedule_more.
        replace (0 <? S (S c))%nat with (0 <? S c)%nat by reflexivity.
        rewrite <- !app_assoc. reflexivity. }
    destruct (classify net callId n); [| |destruct (attempt =? maxAttempts_of o)].
    + apply Hstop. reflexivity.
    + exact Hgo.
    + apply Hstop. reflexivity.
    + exact Hgo.
Qed.

(** [count] attempts in a row are separated by [count - 1] delays, each of
    [interval] milliseconds. *)
Lemma delays_attempt callId o attempt :
  filter is_delay (attempt_events callId o attempt) = [].
Proof. unfold attempt_events. destruct (onProgress o); reflexivity. Qed.

Lemma delays_schedule callId o count : forall attempt,
  filter is_delay (schedule callId o attempt count)
  = repeat (EDelay (interval_of o)) (Nat.pred count).
Proof.
  induction count as [|count IH]; intros attempt; [reflexivity|].
  cbn [schedule]. rewrite filter_app, delays_attempt.
  destruct count as [|count]; [reflexivity|].
  cbn [app filter is_delay]. rewrite IH. reflexivity.
Qed.

Lemma delays_closing (A : Type) o (r : run A) :
  filter is_delay (closing_delay o r)
  = repeat (EDelay (interval_of o)) (List.length (closing_delay o r)).
Proof. unfold closing_delay. destruct (_ && _); reflexivity. Qed.

(** Every request of the loop is the status request for [callId]. *)
Lemma requests_app tr1 tr2 :
  requests (tr1 ++ tr2) = (requests tr1 ++ requests tr2)%list.
Proof. unfold requests. apply flat_map_app. Qed.

Lemma requests_attempt callId o attempt :
  requests (attempt_events callId o attempt) = [status_request callId].
Proof. unfold attempt_events. destruct (onProgress o); reflexivity. Qed.

Lemma pollLoop_requests net callId o attempt n :
  Forall (eq (status_request callId))
         (requests (trace (pollLoop net callId o attempt n))).
Proof.
  loop_induction o attempt n.
  - loop_exit net callId o attempt. constructor.
  - loop_turn net callId o attempt n.
    assert (Hnext : d = Z.to_nat (maxAttempts_of o + 1 - (attempt + 1))) by lia.
    specialize (IHd (attempt + 1) (S n) Hnext).
    assert (Hone : Forall (eq (status_request callId))
                          (requests (attempt_events callId o attempt))).
    { rewrite requests_attempt. repeat constructor. }
    destruct (classify net callId n); [| |destruct (attempt =? maxAttempts_of o)];
      cbn [trace prepend]; rewrite ?requests_app; cbn [requests flat_map app];
      repeat (apply Forall_app; split); auto.
Qed.

Lemma finds_data_false net callId i :
  (forall status, result (getStatus net callId i) = Ret status ->
                  meaningful_data status = false) ->
  finds_data net callId i = false.
Proof.
  intros H. unfold finds_data.
  destruct (classify net callId i) as [status| |] eqn:Hc; try reflexivity.
  apply classify_Data in Hc. destruct Hc as [Hr Hm].
  rewrite (H status Hr) in Hm. discriminate.
Qed.

(** C1. [pollStatus] polls a fixed number of times: it calls [getStatus] at
    most [maxAttempts] times (no call at all when [maxAttempts] is not
    positive), at most 5 times when [options.maxAttempts] is absent, and when
    none of the calls it makes returns a status with meaningful data it
    throws an [Error] whose message begins with [Timeout]. *)
Theorem pollStatus_fixed_count net callId o n :
  Z.of_nat (getStatus_calls (trace (pollStatus net callId o n)))
    <= Z.max 0 (maxAttempts_of o) /\
  (maxAttempts o = None ->
   (getStatus_calls (trace (pollStatus net callId o n)) <= 5)%nat) /\
  ((forall i status,
       (n <= i < fetched (pollStatus net callId o n))%nat ->
       result (getStatus net callId i) = Ret status ->
       meaningful_data status = false) ->
   exists message,
     result (pollStatus net callId o n) = Throw (Error message) /\
     String.prefix "Timeout" message = true).
Proof.
  unfold pollStatus.
  destruct (pollLoop_calls net callId o 1 n) as [Hcalls Hfetched].
  split; [lia|]. split.
  - intros Hnone. unfold maxAttempts_of in Hcalls. rewrite Hnone in Hcalls.
    exact Hcalls.
  - intros Hnodata.
    destruct (result (pollLoop net callId o 1 n)) as [status|e] eqn:Hr.
    + destruct (pollLoop_returns net callId o 1 n Hr) as [Hlt Hc].
      apply classify_Data in Hc. destruct Hc as [Hs Hm].
      assert (Hin : (n <= fetched (pollLoop net callId o 1 n) - 1
                       < fetched (pollLoop net callId o 1 n))%nat) by lia.
      rewrite (Hnodata _ status Hin Hs) in Hm. discriminate.
    + rewrite (pollLoop_failure net callId o 1 n Hr).
      match goal with |- context [if ?b then _ else _] => destruct b end;
        eexists; split; reflexivity.
Qed.

Lemma pollStatus_fixed_count_witness :
  exists message,
    result (pollStatus Fixtures.net_never "CALL_1" no_options 0%nat)
      = Throw (Error message) /\
    String.prefix "Timeout" message = true.
Proof.
  apply (proj2 (proj2 (pollStatus_fixed_count Fixtures.net_never "CALL_1"
                         no_options 0%nat))).
  intros i status _ Hr. vm_compute in Hr. discriminate.
Defined.

(** An attempt that neither returns nor is the failing last one is followed
    by the delay and the next attempt. *)
Lemma pollLoop_goes_on net callId o attempt i :
  attempt <= maxAttempts_of o ->
  (forall status, classify net callId i <> Data status) ->
  (classify net callId i = Errored -> attempt <> maxAttempts_of o) ->
  pollLoop net callId o attempt i =
    prepend (attempt_events callId o attempt ++ [EDelay (interval_of o)])
            (pollLoop net callId o (attempt + 1) (S i)).
Proof.
  intros Hle Hnodata Hlast. loop_turn net callId o attempt i.
  destruct (classify net callId i) as [status| |].
  - destruct (Hnodata status eq_refl).
  - reflexivity.
  - destruct (Z.eqb_spec attempt (maxAttempts_of o)) as [Heq|Hne];
      [destruct (Hlast eq_refl Heq) | reflexivity].
Qed.

(** C2. [pollStatus] returns the status of the first [getStatus] call whose
    result has meaningful data ([emergency_details] or
    [medical_record_details] a non-null object) and makes no call after it;
    an attempt whose status holds the two placeholder strings is followed by
    the delay and the next turn of the loop. *)
Theorem pollStatus_first_meaningful net callId o (n : nat) :
  (forall (k : nat) status,
      Z.of_nat k < maxAttempts_of o ->
      (forall j earlier, (j < k)%nat ->
                         result (getStatus net callId (n + j)%nat) = Ret earlier ->
                         meaningful_data earlier = false) ->
      result (getStatus net callId (n + k)%nat) = Ret status ->
      meaningful_data status = true ->
      result (pollStatus net callId o n) = Ret status /\
      getStatus_calls (trace (pollStatus net callId o n)) = S k) /\
  (forall attempt i status,
      attempt <= maxAttempts_of o ->
      result (getStatus net callId i) = Ret status ->
      get status "emergency_details" = Ret (VStr "No emergency data") ->
      get status "medical_record_details" = Ret (VStr "No medical record data") ->
      pollLoop net callId o attempt i =
        prepend (attempt_events callId o attempt ++ [EDelay (interval_of o)])
                (pollLoop net callId o (attempt + 1) (S i))).
Proof.
  split.
  - intros k status Hk Hearlier Hr Hm. unfold pollStatus.
    assert (Hfirst : result (pollLoop net callId o 1 n) = Ret status /\
                     fetched (pollLoop net callId o 1 n) = (n + k + 1)%nat).
    { apply pollLoop_first_data.
      - lia.
      - intros j Hj. apply finds_data_false. intros earlier. apply Hearlier. exact Hj.
      - apply classify_Data. auto. }
    destruct Hfirst as [Hres Hf]. split; [exact Hres|].
    destruct (pollLoop_calls net callId o 1 n) as [_ Hc]. lia.
  - intros attempt i status Hle Hr He Hmrd.
    assert (Hc : classify net callId i = NoData).
    { unfold classify, has_data. rewrite Hr, He. cbn. rewrite Hmrd. reflexivity. }
    apply pollLoop_goes_on; [exact Hle | | ]; rewrite Hc; discriminate.
Qed.

Lemma pollStatus_first_meaningful_witness :
  result (pollStatus Fixtures.net_third "CALL_1" no_options 0%nat)
    = Ret Fixtures.report_status /\
  getStatus_calls (trace (pollStatus Fixtures.net_third "CALL_1" no_options 0%nat))
    = 3%nat.
Proof.
  apply (proj1 (pollStatus_first_meaningful Fixtures.net_third "CALL_1"
                  no_options 0%nat) 2%nat Fixtures.report_status).
  - reflexivity.
  - intros j earlier Hj Hr.
    destruct j as [|[|j]]; [| |lia]; vm_compute in Hr.
    + discriminate.
    + injection Hr as <-. reflexivity.
  - reflexivity.
  - reflexivity.
Defined.

(** C3. The run of [pollStatus] is its attempts in the order 1, 2, ..., each
    one the progress callback (when supplied) called with [(attempt,
    maxAttempts)] and then the [getStatus] call, with exactly one delay of
    [interval] milliseconds between an attempt and the next (so the delays
    between [c] attempts are [c - 1], all of [interval] milliseconds);
    [interval] is 2000 when [options.interval] is absent. After the last
    attempt the loop delays once more when that attempt neither returned
    nor threw. *)
Theorem pollStatus_schedule net callId o n :
  trace (pollStatus net callId o n)
    = (schedule callId o 1 (getStatus_calls (trace (pollStatus net callId o n)))
         ++ closing_delay o (pollStatus net callId o n))%list /\
  filter is_delay (trace (pollStatus net callId o n))
    = repeat (EDelay (interval_of o))
             (Nat.pred (getStatus_calls (trace (pollStatus net callId o n)))
              + List.length (closing_delay o (pollStatus net callId o n))) /\
  interval_of (Options (maxAttempts o) None (onProgress o)) = 2000.
Proof.
  pose proof (pollLoop_schedule net callId o 1 n) as Hs. cbv zeta in Hs.
  fold (pollStatus net callId o n) in Hs.
  split; [exact Hs|]. split; [|reflexivity].
  rewrite Hs at 1. rewrite filter_app, delays_schedule, delays_closing.
  rewrite repeat_app. reflexivity.
Qed.

(** The run against a backend that has the report at the third request. *)
Example pollStatus_third_attempt :
  pollStatus Fixtures.net_third "CALL 1" (Options None None true) 0%nat
  = Run (Ret Fixtures.report_status) 3
        [EProgress 1 5; EFetch (status_request "CALL 1"); EDelay 2000;
         EProgress 2 5; EFetch (status_request "CALL 1"); EDelay 2000;
         EProgress 3 5; EFetch (status_request "CALL 1")].
Proof. reflexivity. Qed.

Example status_request_url :
  url (status_request "CALL 1/a")
  = "https://nokia-backend.vercel.app/status?call_id=CALL%201%2Fa".
Proof. reflexivity. Qed.

(** Two attempts that find only the placeholders: the loop delays after
    each of them and then gives up. *)
Example pollStatus_gives_up :
  pollStatus (fun _ _ => Resolves (Response 200 (Some Fixtures.pending_status)))
             "c" (Options (Some 2) (Some 10) false) 0%nat
  = Run (Throw (Error "Timeout: Failed to get status after maximum attempts")) 2
        [EFetch (status_request "c"); EDelay 10;
         EFetch (status_request "c"); EDelay 10].
Proof. reflexivity. Qed.

(** C8. Before the last attempt any error thrown by [getStatus] is swallowed
    and the loop goes on with the delay and the next attempt; and when
    [pollStatus] fails it throws ['Timeout: Data not available after maximum
    attempts'] if the attempt numbered [maxAttempts] ended in an error and
    ['Timeout: Failed to get status after maximum attempts'] otherwise. *)
Theorem pollStatus_error_handling net callId o (n : nat) :
  (forall attempt i e,
      attempt < maxAttempts_of o ->
      result (getStatus net callId i) = Throw e ->
      pollLoop net callId o attempt i =
        prepend (attempt_events callId o attempt ++ [EDelay (interval_of o)])
                (pollLoop net callId o (attempt + 1) (S i))) /\
  (forall e,
      result (pollStatus net callId o n) = Throw e ->
      e = Error (if (1 <=? maxAttempts_of o)
                    && errors net callId (n + Z.to_nat (maxAttempts_of o - 1))%nat
                 then "Timeout: Data not available after maximum attempts"
                 else "Timeout: Failed to get status after maximum attempts")).
Proof.
  split.
  - intros attempt i e Hlt Hr.
    assert (Hc : classify net callId i = Errored).
    { unfold classify. rewrite Hr. reflexivity. }
    apply pollLoop_goes_on; [lia | rewrite Hc; discriminate | lia].
  - intros e Hr. exact (pollLoop_failure net callId o 1 n Hr).
Qed.

Lemma pollStatus_error_handling_witness :
  pollLoop Fixtures.net_never "CALL_1" no_options 1 0%nat
  = prepend (attempt_events "CALL_1" no_options 1 ++ [EDelay (interval_of no_options)])
            (pollLoop Fixtures.net_never "CALL_1" no_options (1 + 1) 1%nat) /\
  Error "Timeout: Data not available after maximum attempts"
  = Error (if (1 <=? maxAttempts_of no_options)
              && errors Fixtures.net_never "CALL_1"
                        (0 + Z.to_nat (maxAttempts_of no_options - 1))
           then "Timeout: Data not available after maximum attempts"
           else "Timeout: Failed to get status after maximum attempts").
Proof.
  split.
  - apply (proj1 (pollStatus_error_handling Fixtures.net_never "CALL_1"
                    no_options 0%nat)
                 1 0%nat (Error "No records found for this call ID"));
      reflexivity.
  - apply (proj2 (pollStatus_error_handling Fixtures.net_never "CALL_1"
                    no_options 0%nat)).
    reflexivity.
Defined.

(** C9. The two health checks never throw: each returns [true] exactly when
    its request resolves with an ok response, and [false] when it resolves
    with another response or is rejected. *)
Theorem health_checks_total net n :
  result (checkMultiAgentHealth net n)
    = Ret (match net n multi_agent_health_request with
           | Resolves r => ok r
           | Rejects _ => false
           end) /\
  result (checkBackendHealth net n)
    = Ret (match net n backend_health_request with
           | Resolves r => ok r
           | Rejects _ => false
           end).
Proof.
  unfold checkMultiAgentHealth, checkBackendHealth, try_catch, bind, fetch.
  split.
  - destruct (net n multi_agent_health_request); reflexivity.
  - destruct (net n backend_health_request); reflexivity.
Qed.

Lemma analyzeQuery_run net query n :
  fetched (analyzeQuery net query n) = S n /\
  trace (analyzeQuery net query n) = [EFetch (analyze_request query)].
Proof.
  unfold analyzeQuery, try_catch, bind, fetch, json, lift, prepend.
  destruct (net n (analyze_request query)) as [r|e]; cbn; [|auto].
  destruct (ok r); cbn; destruct (json_body r) as [v|]; cbn; auto.
  destruct (get v "message"); cbn; auto.
Qed.

Lemma requests_length tr : List.length (requests tr) = getStatus_calls tr.
Proof.
  unfold getStatus_calls, requests. induction tr as [|ev tr IH]; [reflexivity|].
  destruct ev; cbn; rewrite ?IH; reflexivity.
Qed.

(** Each of the single-request functions issues its one request whatever
    the network answers. *)
Lemma analyzeQuery_requests net query n :
  requests (trace (analyzeQuery net query n)) = [analyze_request query].
Proof.
  unfold analyzeQuery, try_catch, bind, fetch, json, lift, prepend.
  destruct (net n (analyze_request query)) as [resp|e]; cbn; [|reflexivity].
  destruct (ok resp); cbn; destruct (json_body resp) as [v|]; cbn; try reflexivity.
  destruct (get v "message"); reflexivity.
Qed.

Lemma getStatus_requests net callId n :
  requests (trace (getStatus net callId n)) = [status_request callId].
Proof. destruct (getStatus_run net callId n) as [_ ->]. reflexivity. Qed.

Lemma checkMultiAgentHealth_requests net n :
  requests (trace (checkMultiAgentHealth net n)) = [multi_agent_health_request].
Proof.
  unfold checkMultiAgentHealth, try_catch, bind, fetch.
  destruct (net n multi_agent_health_request); reflexivity.
Qed.

Lemma checkBackendHealth_requests net n :
  requests (trace (checkBackendHealth net n)) = [backend_health_request].
Proof.
  unfold checkBackendHealth, try_catch, bind, fetch.
  destruct (net n backend_health_request); reflexivity.
Qed.

(** An encoded call id cannot leave the query value it is put in. *)
Lemma unreserved_not_delimiter c : unreserved c = true -> url_delimiter c = false.
Proof.
  destruct c as [[] [] [] [] [] [] [] []]; vm_compute; congruence.
Qed.

Lemma escape_not_delimiter c :
  url_delimiter "%"%char = false /\
  url_delimiter (hex_digit (nat_of_ascii c / 16)) = false /\
  url_delimiter (hex_digit (nat_of_ascii c mod 16)) = false.
Proof.
  destruct c as [[] [] [] [] [] [] [] []]; vm_compute; auto.
Qed.

Lemma encodeURIComponent_no_delimiter s :
  forallb (fun c => negb (url_delimiter c))
          (list_ascii_of_string (encodeURIComponent s)) = true.
Proof.
  induction s as [|c s IH]; [reflexivity|].
  cbn [encodeURIComponent]. destruct (unreserved c) eqn:Hc.
  - cbn [list_ascii_of_string forallb].
    rewrite (unreserved_not_delimiter c Hc), IH. reflexivity.
  - destruct (escape_not_delimiter c) as (H1 & H2 & H3).
    cbn [list_ascii_of_string forallb]. cbv zeta.
    rewrite H1, H2, H3, IH. reflexivity.
Qed.

(** C7. Every network request of the service is an HTTP request made with
    [fetch] to a URL under one of the two fixed base URLs: [/analyze] and
    [/health] on the multi-agent host, [/status] (with the encoded call id
    as its query value) and [/] on the backend host; [pollStatus] issues
    status requests only. Both base URLs have the scheme [https], HTTP over
    TLS; the network is reached through these requests and in no other way:
    what each function takes from it is as many answers as it has made
    requests. *)
Theorem requests_over_https net :
  (forall query n,
      map url (requests (trace (analyzeQuery net query n)))
      = ["https://nokia-multi-agent.vercel.app/analyze"]) /\
  (forall n,
      map url (requests (trace (checkMultiAgentHealth net n)))
      = ["https://nokia-multi-agent.vercel.app/health"]) /\
  (forall callId n,
      map url (requests (trace (getStatus net callId n)))
      = ["https://nokia-backend.vercel.app/status?call_id="
           ++ encodeURIComponent callId]) /\
  (forall callId o n,
      Forall (fun r => url r = "https://nokia-backend.vercel.app/status?call_id="
                                 ++ encodeURIComponent callId)
             (requests (trace (pollStatus net callId o n)))) /\
  (forall n,
      map url (requests (trace (checkBackendHealth net n)))
      = ["https://nokia-backend.vercel.app/"]) /\
  (forall callId,
      forallb (fun c => negb (url_delimiter c))
              (list_ascii_of_string (encodeURIComponent callId)) = true) /\
  https MULTI_AGENT_BASE_URL = true /\ https BACKEND_BASE_URL = true /\
  clear_text_http MULTI_AGENT_BASE_URL = false /\ clear_text_http BACKEND_BASE_URL = false /\
  (forall query n,
      fetched (analyzeQuery net query n)
      = (n + List.length (requests (trace (analyzeQuery net query n))))%nat) /\
  (forall n,
      fetched (checkMultiAgentHealth net n)
      = (n + List.length (requests (trace (checkMultiAgentHealth net n))))%nat) /\
  (forall callId n,
      fetched (getStatus net callId n)
      = (n + List.length (requests (trace (getStatus net callId n))))%nat) /\
  (forall callId o n,
      fetched (pollStatus net callId o n)
      = (n + List.length (requests (trace (pollStatus net callId o n))))%nat) /\
  (forall n,
      fetched (checkBackendHealth net n)
      = (n + List.length (requests (trace (checkBackendHealth net n))))%nat).
Proof.
  repeat split.
  - intros. rewrite analyzeQuery_requests. reflexivity.
  - intros. rewrite checkMultiAgentHealth_requests. reflexivity.
  - intros. rewrite getStatus_requests. reflexivity.
  - intros callId o n.
    eapply Forall_impl; [|apply pollLoop_requests].
    intros r <-. reflexivity.
  - intros. rewrite checkBackendHealth_requests. reflexivity.
  - apply encodeURIComponent_no_delimiter.
  - intros. rewrite analyzeQuery_requests.
    destruct (analyzeQuery_run net query n) as [-> _]. cbn. lia.
  - intros. rewrite checkMultiAgentHealth_requests.
    unfold checkMultiAgentHealth, try_catch, bind, fetch.
    destruct (net n multi_agent_health_request); cbn; lia.
  - intros. rewrite getStatus_requests.
    destruct (getStatus_run net callId n) as [-> _]. cbn. lia.
  - intros callId o n. rewrite requests_length. apply pollLoop_calls.
  - intros. rewrite checkBackendHealth_requests.
    unfold checkBackendHealth, try_catch, bind, fetch.
    destruct (net n backend_health_request); cbn; lia.
Qed.

End ApiProps.

(** * Properties of the video-call screen *)

Module VideoCallProps.
Import VideoCall.

Lemma read_write_same t s w : read_track (write_track t s w) t = s.
Proof. unfold read_track, write_track. cbn. rewrite Nat.eqb_refl. reflexivity. Qed.

Lemma ended_after_stop t u w :
  ended (read_track (stop t w) u)
  = Nat.eqb (track_id u) (track_id t) || ended (read_track w u).
Proof.
  unfold stop, read_track, write_track. cbn.
  destruct (Nat.eqb_spec (track_id u) (track_id t)) as [->|]; reflexivity.
Qed.

Lemma stop_each_cons t tracks w :
  stop_each (t :: tracks) w = stop_each tracks (stop t w).
Proof. reflexivity. Qed.

Lemma stop_each_keeps_ended tracks : forall w u,
  ended (read_track w u) = true -> ended (read_track (stop_each tracks w) u) = true.
Proof.
  induction tracks as [|t tracks IH]; intros w u Hu; [exact Hu|].
  rewrite stop_each_cons. apply IH. rewrite ended_after_stop, Hu. apply orb_true_r.
Qed.

Lemma stop_each_ends tracks : forall w u,
  In u tracks -> ended (read_track (stop_each tracks w) u) = true.
Proof.
  induction tracks as [|t tracks IH]; intros w u Hin; [destruct Hin|].
  rewrite stop_each_cons. destruct Hin as [->|Hin].
  - apply stop_each_keeps_ended. rewrite ended_after_stop, Nat.eqb_refl. reflexivity.
  - apply IH. exact Hin.
Qed.

Lemma state_stop_each tracks : forall w, state (stop_each tracks w) = state w.
Proof.
  induction tracks as [|t tracks IH]; intros w; [reflexivity|].
  rewrite stop_each_cons, IH. reflexivity.
Qed.

Lemma currentCall_stop_each tracks : forall w,
  currentCall (stop_each tracks w) = currentCall w.
Proof.
  induction tracks as [|t tracks IH]; intros w; [reflexivity|].
  rewrite stop_each_cons, IH. reflexivity.
Qed.

Lemma callStartTime_stop_each tracks : forall w,
  callStartTime (stop_each tracks w) = callStartTime w.
Proof.
  induction tracks as [|t tracks IH]; intros w; [reflexivity|].
  rewrite stop_each_cons, IH. reflexivity.
Qed.

(** *** [endCall] when its [close()] emits nothing *)

Lemma quiet_any_render seen w :
  currentCall (endCall_with close_quietly seen w) = None /\
  remoteStream (state (endCall_with close_quietly seen w)) = None /\
  isCallActive (state (endCall_with close_quietly seen w)) = false /\
  isCalling (state (endCall_with close_quietly seen w)) = false /\
  isMuted (state (endCall_with close_quietly seen w)) = false /\
  isVideoOff (state (endCall_with close_quietly seen w)) = false.
Proof.
  unfold endCall_with, close_quietly.
  destruct (callStartTime w), (currentCall w) eqn:Hc, (localStream seen); cbn;
    rewrite ?currentCall_stop_each, ?state_stop_each, ?Hc; repeat split; reflexivity.
Qed.

Lemma quiet_localStream seen w :
  localStream (state (endCall_with close_quietly seen w))
  = match localStream seen with
    | Some _ => None
    | None => localStream (state w)
    end.
Proof.
  unfold endCall_with, close_quietly.
  destruct (callStartTime w), (currentCall w), (localStream seen); reflexivity.
Qed.

Lemma quiet_ends_seen seen w stream track :
  localStream seen = Some stream ->
  In track (getTracks stream) ->
  ended (read_track (endCall_with close_quietly seen w) track) = true.
Proof.
  intros Hs Hin. unfold endCall_with, close_quietly. rewrite Hs.
  assert (Hst : forall w0,
             ended (read_track (stop_each (getTracks stream) w0) track) = true)
    by (intros; apply stop_each_ends; exact Hin).
  destruct (callStartTime w), (currentCall w); cbn; apply Hst.
Qed.

Lemma quiet_keeps_ended seen w track :
  ended (read_track w track) = true ->
  ended (read_track (endCall_with close_quietly seen w) track) = true.
Proof.
  intros He. unfold endCall_with, close_quietly.
  assert (Hst : forall tracks w0,
             ended (read_track w0 track) = true ->
             ended (read_track (stop_each tracks w0) track) = true)
    by (intros; apply stop_each_keeps_ended; assumption).
  destruct (callStartTime w), (currentCall w), (localStream seen); cbn;
    try apply Hst; exact He.
Qed.

Lemma quiet_stale_render seen w :
  localStream seen = None ->
  localStream (state (endCall_with close_quietly seen w)) = localStream (state w) /\
  (forall track,
      read_track (endCall_with close_quietly seen w) track = read_track w track).
Proof.
  intros Hseen. unfold endCall_with, close_quietly. rewrite Hseen.
  destruct (callStartTime w), (currentCall w); cbn; split; reflexivity.
Qed.

Lemma callStartTime_quiet seen w :
  callStartTime (endCall_with close_quietly seen w) = callStartTime w.
Proof.
  unfold endCall_with, close_quietly.
  destruct (callStartTime w) eqn:Ht, (currentCall w), (localStream seen); cbn;
    rewrite ?callStartTime_stop_each; cbn; rewrite ?Ht; reflexivity.
Qed.

(** *** [endCall] in terms of runs whose [close()] emits nothing *)

Lemma set_currentCall_None w : currentCall w = None -> set_currentCall None w = w.
Proof. destruct w; cbn; intros ->; reflexivity. Qed.

Lemma close_handler_Some w registered :
  close_handler w = Some registered ->
  exists call,
    currentCall w = Some call /\ open call = true /\ listeners call = Some registered.
Proof.
  unfold close_handler. destruct (currentCall w) as [call|]; [|discriminate].
  destruct (open call) eqn:Ho; [|discriminate].
  intros Hl. exists call. auto.
Qed.

(** On a call that is not open, or has no handler, [close()] emits nothing. *)
Lemma endCall_quiet seen w :
  close_handler w = None ->
  endCall seen w = endCall_with close_quietly seen w.
Proof.
  unfold close_handler, endCall, endCall_with, close, close_quietly, mark_closed.
  destruct (currentCall w) as [[p pc [] [l|]]|]; cbn; intros H;
    try discriminate; reflexivity.
Qed.

(** On an open call [close()] runs the registered [endCall] first; what is
    left of the pressed [endCall] then meets a cleared call ref. *)
Lemma endCall_emits seen w call registered :
  currentCall w = Some call ->
  open call = true ->
  listeners call = Some registered ->
  endCall seen w
  = endCall_with close_quietly seen
      (endCall_with close_quietly registered
         (mark_closed (perform (CallClosed (peer call)) w))).
Proof.
  intros Hc Ho Hl.
  remember (endCall_with close_quietly registered
              (mark_closed (perform (CallClosed (peer call)) w))) as inner eqn:Hinner.
  assert (Hcall : currentCall inner = None)
    by (rewrite Hinner; apply quiet_any_render).
  assert (Htime : callStartTime inner = callStartTime w)
    by (rewrite Hinner, callStartTime_quiet; reflexivity).
  unfold endCall, endCall_with. rewrite Hc, Hcall, Htime.
  unfold close. rewrite Ho, Hl. fold (endCall_with close_quietly registered).
  rewrite <- Hinner, (@set_currentCall_None inner Hcall). reflexivity.
Qed.

(** The handler a [close()] would run is gone once [open] is cleared. *)
Lemma close_handler_mark_closed w : close_handler (mark_closed w) = None.
Proof.
  unfold close_handler, mark_closed. cbn. destruct (currentCall w); reflexivity.
Qed.

(** What [endCall] does whichever render created it: the call ref is
    cleared, the remote stream is cleared and the four flags are false. *)
Lemma endCall_any_render seen w :
  currentCall (endCall seen w) = None /\
  remoteStream (state (endCall seen w)) = None /\
  isCallActive (state (endCall seen w)) = false /\
  isCalling (state (endCall seen w)) = false /\
  isMuted (state (endCall seen w)) = false /\
  isVideoOff (state (endCall seen w)) = false.
Proof.
  destruct (close_handler w) as [registered|] eqn:Hh.
  - destruct (@close_handler_Some w _ Hh) as (call & Hc & Ho & Hl).
    rewrite (@endCall_emits seen w _ _ Hc Ho Hl). apply quiet_any_render.
  - rewrite (@endCall_quiet seen w Hh). apply quiet_any_render.
Qed.

(** [endCall] of the render that is current: the local stream that render
    saw is the stream the component holds, its tracks are stopped and it is
    cleared. *)
Lemma endCall_current_render w :
  localStream (state (endCall (render w) w)) = None /\
  (forall stream track,
      localStream (state w) = Some stream ->
      In track (getTracks stream) ->
      ended (read_track (endCall (render w) w) track) = true).
Proof.
  destruct (close_handler w) as [registered|] eqn:Hh.
  - destruct (@close_handler_Some w _ Hh) as (call & Hc & Ho & Hl).
    rewrite (@endCall_emits (render w) w _ _ Hc Ho Hl). split.
    + rewrite !quiet_localStream. unfold render, mark_closed. cbn.
      destruct (localStream (state w)), (localStream registered); reflexivity.
    + intros stream track Hs Hin.
      apply quiet_ends_seen with (stream := stream); assumption.
  - rewrite (@endCall_quiet (render w) w Hh). split.
    + rewrite quiet_localStream. unfold render.
      destruct (localStream (state w)); reflexivity.
    + intros stream track Hs Hin.
      apply quiet_ends_seen with (stream := stream); assumption.
Qed.

(** [endCall] of a render that saw no local stream, on a call whose
    [close()] runs no handler: the stream the component holds stays in
    place, with its tracks as they were. *)
Lemma endCall_stale_render seen w :
  localStream seen = None ->
  close_handler w = None ->
  localStream (state (endCall seen w)) = localStream (state w) /\
  (forall track, read_track (endCall seen w) track = read_track w track).
Proof.
  intros Hseen Hh. rewrite (@endCall_quiet seen w Hh).
  apply quiet_stale_render. exact Hseen.
Qed.

(** C4, on the path where the remote side closes the call. [startCall]
    registers, as the ['close'] handler of the call, the [endCall] of the
    render it was pressed in; that render saw [localStream] as [null], while
    the component by then holds the stream [startCall] opened. When the
    handler runs, the call ref, the remote stream and the four flags are
    reset, but the local stream stays in the state and none of its tracks
    is stopped. *)
Theorem endCall_on_remote_close_keeps_local_stream :
  (exists call, currentCall Fixtures.in_call = Some call /\
                option_map localStream (listeners call) = Some None) /\
  localStream (state Fixtures.in_call) = Some (Stream [Track 0 audio; Track 1 video]) /\
  localStream (state Fixtures.remote_hangup)
    = Some (Stream [Track 0 audio; Track 1 video]) /\
  ended (read_track Fixtures.remote_hangup (Track 0 audio)) = false /\
  ended (read_track Fixtures.remote_hangup (Track 1 video)) = false /\
  currentCall Fixtures.remote_hangup = None /\
  remoteStream (state Fixtures.remote_hangup) = None /\
  isCallActive (state Fixtures.remote_hangup) = false /\
  isCalling (state Fixtures.remote_hangup) = false.
Proof.
  split; [eexists; split; reflexivity|].
  repeat split; reflexivity.
Qed.




Lemma replace_video_none t senders :
  existsb sends_video senders = false -> replace_video t senders = senders.
Proof.
  induction senders as [|s senders IH]; [reflexivity|].
  cbn. destruct (sends_video s); cbn; [discriminate|].
  intros H. rewrite (IH H). reflexivity.
Qed.

(** A successful [flipCamera], field by field. *)
Lemma flipCamera_done w dev stream :
  localStream (state w) = Some stream ->
  camera_opens dev = true ->
  replace_succeeds dev = true ->
  currentCall (flipCamera (render w) dev w)
    = option_map
        (fun call =>
           Call (peer call)
                (option_map (replace_video (Some (Track (S (next_track w)) video)))
                            (peerConnection call))
                (open call) (listeners call))
        (currentCall w) /\
  state (flipCamera (render w) dev w)
    = state (setFacingMode (flip (facingMode (state w)))
               (setLocalStream
                  (Some (Stream [Track (next_track w) audio;
                                 Track (S (next_track w)) video])) w)).
Proof.
  intros Hs Hcam Hrep. unfold flipCamera, render.
  rewrite Hs, Hcam, Hrep. cbn [negb].
  destruct (currentCall w) as [[p [senders|] o l]|] eqn:Hcall.
  - destruct (existsb sends_video senders) eqn:Hv;
      destruct (getVideoTracks stream); cbn; rewrite Hcall; cbn; rewrite Hv; cbn;
      try rewrite (replace_video_none _ senders Hv); auto.
  - destruct (getVideoTracks stream); cbn; rewrite Hcall; cbn; auto.
  - destruct (getVideoTracks stream); cbn; rewrite Hcall; cbn; auto.
Qed.





(** [toggleMute] of any render that saw a stream with an audio track. *)
Lemma toggleMute_seen seen w stream audioTrack rest :
  localStream seen = Some stream ->
  getAudioTracks stream = audioTrack :: rest ->
  enabled (read_track (toggleMute seen w) audioTrack)
    = negb (enabled (read_track w audioTrack)) /\
  isMuted (state (toggleMute seen w)) = enabled (read_track w audioTrack) /\
  localStream (state (toggleMute seen w)) = localStream (state w).
Proof.
  intros Hs Ha. unfold toggleMute. rewrite Hs, Ha.
  unfold read_track, set_enabled, write_track. cbn.
  rewrite Nat.eqb_refl. cbn. rewrite negb_involutive. auto.
Qed.

(** C10. [toggleMute], pressed while the component holds a local stream with
    an audio track, negates [enabled] on the first audio track and sets
    [isMuted] to the negation of the new value; pressed twice it gives
    [enabled] its first value back. With no local stream, or a stream with no
    audio track, it changes nothing. *)
Theorem toggleMute_negates w :
  (forall stream audioTrack rest,
      localStream (state w) = Some stream ->
      getAudioTracks stream = audioTrack :: rest ->
      enabled (read_track (toggleMute (render w) w) audioTrack)
        = negb (enabled (read_track w audioTrack)) /\
      isMuted (state (toggleMute (render w) w))
        = negb (enabled (read_track (toggleMute (render w) w) audioTrack)) /\
      enabled (read_track
                 (toggleMute (render (toggleMute (render w) w))
                             (toggleMute (render w) w)) audioTrack)
        = enabled (read_track w audioTrack)) /\
  (localStream (state w) = None -> toggleMute (render w) w = w) /\
  (forall stream,
      localStream (state w) = Some stream ->
      getAudioTracks stream = [] ->
      toggleMute (render w) w = w).
Proof.
  split; [|split].
  - intros stream audioTrack rest Hs Ha.
    destruct (toggleMute_seen (render w) w Hs Ha) as (Hen & Hm & Hl).
    assert (Hs' : localStream (render (toggleMute (render w) w)) = Some stream).
    { unfold render at 1. rewrite Hl. exact Hs. }
    destruct (toggleMute_seen _ (toggleMute (render w) w) Hs' Ha) as (Hen' & _ & _).
    rewrite Hen', Hm, Hen, negb_involutive. auto.
  - intros Hs. unfold toggleMute, render. rewrite Hs. reflexivity.
  - intros stream Hs Ha. unfold toggleMute, render. rewrite Hs, Ha. reflexivity.
Qed.

Lemma toggleMute_negates_witness :
  (enabled (read_track (toggleMute (render Fixtures.in_call) Fixtures.in_call)
                       (Track 0 audio)) = false /\
   isMuted (state (toggleMute (render Fixtures.in_call) Fixtures.in_call)) = true) /\
  toggleMute (render (mounted "doctor-42")) (mounted "doctor-42") = mounted "doctor-42".
Proof.
  split.
  - destruct (proj1 (toggleMute_negates Fixtures.in_call)
                    (Stream [Track 0 audio; Track 1 video]) (Track 0 audio)
                    [] eq_refl eq_refl) as (Hen & Hm & _).
    split; [exact Hen | rewrite Hm, Hen; reflexivity].
  - apply (proj1 (proj2 (toggleMute_negates (mounted "doctor-42")))). reflexivity.
Defined.

End VideoCallProps.

(** * Properties of the voice-consultation screen *)

Module FirstScreenProps.
Import Js FirstScreen.

Lemma strict_eq_str_true v literal :
  strict_eq_str v literal = true <-> v = VStr literal.
Proof.
  destruct v; cbn; try (split; [discriminate | intros [=]]).
  rewrite String.eqb_eq. split; [intros ->; reflexivity | intros [= ->]; reflexivity].
Qed.

Lemma get_string_object message name s :
  get message name = Ret (VStr s) -> exists props, message = VObj props.
Proof. destruct message; cbn; try discriminate. eauto. Qed.

(** C6. The ['message'] handler appends an entry to the transcript, in the
    ref and in the state alike, if and only if the message has [type]
    ['transcript'] and [transcriptType] ['final']; the entry has speaker
    ['doctor'] exactly when the [role] of the message is ['assistant'] and
    ['patient'] otherwise, and its text is the [transcript] field of the
    message; any other message leaves the transcript as it is. *)
Theorem on_message_appends_final_transcripts message s :
  (get message "type" = Ret (VStr "transcript") ->
   get message "transcriptType" = Ret (VStr "final") ->
   exists entry,
     snd (on_message message s)
       = MkScreen (transcriptRef s ++ [entry]) (transcript s ++ [entry]) /\
     (speaker entry = "doctor" <-> get message "role" = Ret (VStr "assistant")) /\
     (speaker entry = "patient" <-> get message "role" <> Ret (VStr "assistant")) /\
     get message "transcript" = Ret (text entry)) /\
  (~ (get message "type" = Ret (VStr "transcript") /\
      get message "transcriptType" = Ret (VStr "final")) ->
   snd (on_message message s) = s).
Proof.
  split.
  - intros Ht Hf. destruct (get_string_object _ _ Ht) as [props ->].
    unfold on_message. rewrite Ht. cbn [strict_eq_str].
    rewrite String.eqb_refl, Hf. cbn [strict_eq_str]. rewrite String.eqb_refl.
    cbn [get]. eexists. split; [reflexivity|]. cbn [speaker text].
    destruct (strict_eq_str (lookup "role" props) "assistant") eqn:Hrole.
    + apply strict_eq_str_true in Hrole. rewrite Hrole.
      repeat split; try reflexivity; try discriminate. intros H. destruct (H eq_refl).
    + assert (Hne : Ret (lookup "role" props) <> Ret (VStr "assistant")).
      { intros [= H]. apply strict_eq_str_true in H. congruence. }
      repeat split; try reflexivity; try discriminate; auto.
      intros H. destruct (Hne H).
  - intros Hnot. unfold on_message.
    destruct (get message "type") as [type|e] eqn:Ht; [|reflexivity].
    destruct (strict_eq_str type "transcript") eqn:Htype; [|reflexivity].
    apply strict_eq_str_true in Htype. subst type.
    destruct (get message "transcriptType") as [tt|e] eqn:Hf; [|reflexivity].
    destruct (strict_eq_str tt "final") eqn:Hfinal; [|reflexivity].
    apply strict_eq_str_true in Hfinal. subst tt.
    destruct (Hnot (conj eq_refl eq_refl)).
Qed.

Lemma on_message_appends_final_transcripts_witness :
  (exists entry,
      snd (on_message Fixtures.assistant_says (MkScreen [] []))
        = MkScreen ([] ++ [entry]) ([] ++ [entry]) /\
      (speaker entry = "doctor"
       <-> get Fixtures.assistant_says "role" = Ret (VStr "assistant")) /\
      (speaker entry = "patient"
       <-> get Fixtures.assistant_says "role" <> Ret (VStr "assistant")) /\
      get Fixtures.assistant_says "transcript" = Ret (text entry)) /\
  snd (on_message (VObj [("type", VStr "conversation-update")]) (MkScreen [] []))
    = MkScreen [] [].
Proof.
  split.
  - apply (proj1 (on_message_appends_final_transcripts Fixtures.assistant_says
                    (MkScreen [] []))); reflexivity.
  - apply (proj2 (on_message_appends_final_transcripts
                    (VObj [("type", VStr "conversation-update")]) (MkScreen [] []))).
    intros [H _]. discriminate H.
Defined.

End FirstScreenProps.

(** * Further properties of the API service *)

Module ApiMore.
Import Js Api ApiProps.
Local Open Scope api_scope.

(** What [getStatus] settles to, as a function of what the request does. *)
Lemma getStatus_result net callId n :
  result (getStatus net callId n) =
    match net n (status_request callId) with
    | Rejects e => Throw e
    | Resolves r =>
        if ok r then
          match json_body r with
          | Some v => Ret v
          | None => Throw (SyntaxError "JSON Parse error")
          end
        else if status r =? 404 then Throw (Error "No records found for this call ID")
        else Throw (Error "Failed to fetch status")
    end.
Proof.
  unfold getStatus, try_catch, bind, fetch, json, prepend.
  destruct (net n (status_request callId)) as [r|e]; cbn; [|reflexivity].
  destruct (ok r); cbn.
  - destruct (json_body r); reflexivity.
  - destruct (status r =? 404); reflexivity.
Qed.

(** X1. [getStatus] returns a value exactly when its request resolves with
    a 2xx status and a JSON body, and the value is that body; a network
    failure is rethrown as it is, a 404 becomes ['No records found for this
    call ID'] and any other status outside 2xx ['Failed to fetch status']. *)
Theorem getStatus_outcomes net callId n :
  (forall v,
      result (getStatus net callId n) = Ret v <->
      exists r, net n (status_request callId) = Resolves r /\
                200 <= status r <= 299 /\ json_body r = Some v) /\
  (forall e,
      net n (status_request callId) = Rejects e ->
      result (getStatus net callId n) = Throw e) /\
  (forall r,
      net n (status_request callId) = Resolves r ->
      ~ (200 <= status r <= 299) ->
      result (getStatus net callId n)
      = Throw (Error (if status r =? 404 then "No records found for this call ID"
                      else "Failed to fetch status"))).
Proof.
  rewrite getStatus_result. unfold ok.
  split; [|split].
  - intros v. split.
    + destruct (net n (status_request callId)) as [r|e]; [|discriminate].
      destruct ((200 <=? status r) && (status r <=? 299)) eqn:Hok.
      * destruct (json_body r) as [v'|] eqn:Hb; [|discriminate].
        intros [= <-]. exists r. apply andb_true_iff in Hok. destruct Hok.
        repeat split; auto; lia.
      * destruct (status r =? 404); discriminate.
    + intros (r & -> & Hs & ->).
      replace ((200 <=? status r) && (status r <=? 299)) with true; [reflexivity|].
      symmetry. apply andb_true_iff. split; lia.
  - intros e ->. reflexivity.
  - intros r -> Hs.
    replace ((200 <=? status r) && (status r <=? 299)) with false.
    + destruct (status r =? 404); reflexivity.
    + symmetry. apply andb_false_iff.
      destruct (Z.leb_spec 200 (status r)); [|auto].
      destruct (Z.leb_spec (status r) 299); [|auto]. lia.
Qed.

Lemma getStatus_outcomes_witness :
  result (getStatus Fixtures.net_never "CALL_1" 0%nat)
  = Throw (Error "No records found for this call ID") /\
  result (getStatus (fun _ _ => Fixtures.offline) "CALL_1" 0%nat)
  = Throw (TypeError "Network request failed").
Proof.
  split.
  - apply (proj2 (proj2 (getStatus_outcomes Fixtures.net_never "CALL_1" 0%nat))
                 (Response 404 None)); [reflexivity | cbn; lia].
  - apply (proj1 (proj2 (getStatus_outcomes (fun _ _ => Fixtures.offline)
                           "CALL_1" 0%nat))).
    reflexivity.
Defined.

Lemma analyzeQuery_result net query n :
  result (analyzeQuery net query n) =
    match net n (analyze_request query) with
    | Rejects e => Throw e
    | Resolves r =>
        match json_body r with
        | None => Throw (SyntaxError "JSON Parse error")
        | Some v =>
            if ok r then Ret v
            else
              match get v "message" with
              | Throw e => Throw e
              | Ret message =>
                  Throw (new_Error (if truthy message then message
                                    else VStr "Failed to analyze query"))
              end
        end
    end.
Proof.
  unfold analyzeQuery, try_catch, bind, fetch, json, lift, prepend.
  destruct (net n (analyze_request query)) as [r|e]; cbn; [|reflexivity].
  destruct (ok r); cbn; destruct (json_body r) as [v|]; cbn; try reflexivity.
  destruct (get v "message"); reflexivity.
Qed.

(** X2. [analyzeQuery] returns exactly the JSON body of a 2xx response. On
    another status it throws an [Error] carrying the [message] of the JSON
    error body when that is a non-empty string, and ['Failed to analyze
    query'] when the message is missing or falsy; when the error body is
    not JSON at all the parse error is thrown instead, and a network failure
    is rethrown as it is. *)
Theorem analyzeQuery_outcomes net query n :
  (forall v,
      result (analyzeQuery net query n) = Ret v <->
      exists r, net n (analyze_request query) = Resolves r /\
                ok r = true /\ json_body r = Some v) /\
  (forall r props message,
      net n (analyze_request query) = Resolves r ->
      ok r = false ->
      json_body r = Some (VObj props) ->
      lookup "message" props = VStr message ->
      message <> "" ->
      result (analyzeQuery net query n) = Throw (Error message)) /\
  (forall r errorData message,
      net n (analyze_request query) = Resolves r ->
      ok r = false ->
      json_body r = Some errorData ->
      get errorData "message" = Ret message ->
      truthy message = false ->
      result (analyzeQuery net query n) = Throw (Error "Failed to analyze query")) /\
  (forall r,
      net n (analyze_request query) = Resolves r ->
      json_body r = None ->
      result (analyzeQuery net query n) = Throw (SyntaxError "JSON Parse error")) /\
  (forall e,
      net n (analyze_request query) = Rejects e ->
      result (analyzeQuery net query n) = Throw e).
Proof.
  rewrite analyzeQuery_result.
  split; [|split; [|split; [|split]]].
  - intros v. split.
    + destruct (net n (analyze_request query)) as [r|e]; [|discriminate].
      destruct (json_body r) as [v'|] eqn:Hb; [|discriminate].
      destruct (ok r) eqn:Hok.
      * intros [= <-]. eauto.
      * destruct (get v' "message"); discriminate.
    + intros (r & -> & -> & ->). reflexivity.
  - intros r props message -> -> -> Hm Hne. cbn. rewrite Hm. cbn.
    destruct (String.eqb_spec message ""); [contradiction | reflexivity].
  - intros r errorData message -> -> -> -> ->. reflexivity.
  - intros r -> ->. reflexivity.
  - intros e ->. reflexivity.
Qed.

Lemma analyzeQuery_outcomes_witness :
  result (analyzeQuery
            (fun _ _ => Resolves (Response 500 (Some (VObj [("message", VStr "LLM quota exceeded")]))))
            "chest pain" 0%nat)
  = Throw (Error "LLM quota exceeded") /\
  result (analyzeQuery (fun _ _ => Resolves (Response 502 None)) "chest pain" 0%nat)
  = Throw (SyntaxError "JSON Parse error") /\
  result (analyzeQuery (fun _ _ => Resolves (Response 500 (Some (VObj []))))
                       "chest pain" 0%nat)
  = Throw (Error "Failed to analyze query").
Proof.
  split; [|split].
  - eapply (proj1 (proj2 (analyzeQuery_outcomes _ "chest pain" 0%nat)));
      try reflexivity. discriminate.
  - eapply (proj1 (proj2 (proj2 (proj2 (analyzeQuery_outcomes _ "chest pain" 0%nat)))));
      reflexivity.
  - eapply (proj1 (proj2 (proj2 (analyzeQuery_outcomes _ "chest pain" 0%nat))));
      reflexivity.
Defined.

(** When no call finds data the loop uses every turn it has. *)
Lemma pollLoop_uses_every_turn net callId o attempt n :
  (forall i, (n <= i < n + Z.to_nat (maxAttempts_of o + 1 - attempt))%nat ->
             finds_data net callId i = false) ->
  getStatus_calls (trace (pollLoop net callId o attempt n))
  = Z.to_nat (maxAttempts_of o + 1 - attempt).
Proof.
  loop_induction o attempt n; intros Hnone.
  - loop_exit net callId o attempt. reflexivity.
  - loop_turn net callId o attempt n.
    assert (Hnext : d = Z.to_nat (maxAttempts_of o + 1 - (attempt + 1))) by lia.
    assert (IH : getStatus_calls (trace (pollLoop net callId o (attempt + 1) (S n))) = d).
    { apply IHd; [exact Hnext|]. intros i Hi. apply Hnone. lia. }
    assert (H0 : finds_data net callId n = false) by (apply Hnone; lia).
    unfold finds_data in H0.
    destruct (classify net callId n); [discriminate| |].
    + cbn [trace prepend]. rewrite getStatus_calls_turn, IH. reflexivity.
    + destruct (Z.eqb_spec attempt (maxAttempts_of o)) as [Heq|Hne].
      * cbn [trace]. rewrite getStatus_calls_attempt. lia.
      * cbn [trace prepend]. rewrite getStatus_calls_turn, IH. reflexivity.
Qed.

(** X3. When none of the first [maxAttempts] answers holds meaningful data,
    [pollStatus] calls [getStatus] exactly [maxAttempts] times before it
    gives up; with a [maxAttempts] of zero or less it issues no request at
    all and fails at once. *)
Theorem pollStatus_exhausts_attempts net callId o n :
  ((forall i status,
       (n <= i < n + Z.to_nat (maxAttempts_of o))%nat ->
       result (getStatus net callId i) = Ret status ->
       meaningful_data status = false) ->
   getStatus_calls (trace (pollStatus net callId o n)) = Z.to_nat (maxAttempts_of o) /\
   exists message, result (pollStatus net callId o n) = Throw (Error message)) /\
  (maxAttempts_of o <= 0 ->
   pollStatus net callId o n
   = Run (Throw (Error "Timeout: Failed to get status after maximum attempts")) n []).
Proof.
  unfold pollStatus. split.
  - intros Hnone.
    assert (Hcalls : getStatus_calls (trace (pollLoop net callId o 1 n))
                     = Z.to_nat (maxAttempts_of o)).
    { rewrite pollLoop_uses_every_turn.
      - f_equal. lia.
      - intros i Hi. apply finds_data_false. intros status. apply Hnone. lia. }
    split; [exact Hcalls|].
    destruct (result (pollLoop net callId o 1 n)) as [status|e] eqn:Hr.
    + destruct (pollLoop_returns net callId o 1 n Hr) as [Hlt Hc].
      destruct (pollLoop_calls net callId o 1 n) as [_ Hf].
      apply classify_Data in Hc. destruct Hc as [Hs Hm].
      rewrite (Hnone (fetched (pollLoop net callId o 1 n) - 1)%nat status) in Hm;
        [discriminate | lia | exact Hs].
    + rewrite (pollLoop_failure net callId o 1 n Hr). eauto.
  - intros Hle. loop_exit net callId o 1. reflexivity.
Qed.

Lemma pollStatus_exhausts_attempts_witness :
  getStatus_calls (trace (pollStatus Fixtures.net_never "CALL_1"
                                     (Options (Some 20) (Some 3000) true) 0%nat))
  = 20%nat /\
  pollStatus Fixtures.net_third "CALL_1" (Options (Some 0) None true) 7%nat
  = Run (Throw (Error "Timeout: Failed to get status after maximum attempts")) 7 [].
Proof.
  split.
  - apply (proj1 (pollStatus_exhausts_attempts Fixtures.net_never "CALL_1"
                    (Options (Some 20) (Some 3000) true) 0%nat)).
    intros i status _ Hr. vm_compute in Hr. discriminate.
  - apply (proj2 (pollStatus_exhausts_attempts Fixtures.net_third "CALL_1"
                    (Options (Some 0) None true) 7%nat)).
    cbn. lia.
Defined.

Lemma closing_delay_returned (A : Type) o (r : run A) (a : A) :
  result r = Ret a -> closing_delay o r = [].
Proof. intros Hr. unfold closing_delay, exhausted. rewrite Hr. reflexivity. Qed.

Lemma schedule_ends_with_request callId o count : forall attempt,
  exists before,
    schedule callId o attempt (S count)
    = (before ++ [EFetch (status_request callId)])%list.
Proof.
  induction count as [|count IH]; intros attempt.
  - cbn [schedule]. unfold attempt_events. rewrite app_nil_r. eauto.
  - rewrite schedule_more. destruct (IH (attempt + 1)) as [before ->].
    exists (attempt_events callId o attempt ++ EDelay (interval_of o) :: before)%list.
    rewrite <- app_assoc. reflexivity.
Qed.

(** X4. A status returned by [pollStatus] always holds meaningful data, it
    is what the last request of the run was answered with, and that request
    is the last event of the run: nothing is awaited after a success. *)
Theorem pollStatus_returns_last_answer net callId o n status :
  result (pollStatus net callId o n) = Ret status ->
  meaningful_data status = true /\
  (n < fetched (pollStatus net callId o n))%nat /\
  result (getStatus net callId (fetched (pollStatus net callId o n) - 1)%nat)
  = Ret status /\
  exists before,
    trace (pollStatus net callId o n)
    = (before ++ [EFetch (status_request callId)])%list.
Proof.
  intros Hr. unfold pollStatus in *.
  destruct (pollLoop_returns net callId o 1 n Hr) as [Hlt Hc].
  apply classify_Data in Hc. destruct Hc as [Hs Hm].
  repeat split; auto.
  pose proof (pollLoop_schedule net callId o 1 n) as Hsch. cbv zeta in Hsch.
  rewrite (closing_delay_returned o _ Hr), app_nil_r in Hsch.
  destruct (pollLoop_calls net callId o 1 n) as [_ Hf].
  destruct (getStatus_calls (trace (pollLoop net callId o 1 n))) as [|c]; [lia|].
  rewrite Hsch. apply schedule_ends_with_request.
Qed.

Lemma pollStatus_returns_last_answer_witness :
  meaningful_data Fixtures.report_status = true /\
  (0 < fetched (pollStatus Fixtures.net_third "CALL_1" no_options 0%nat))%nat /\
  result (getStatus Fixtures.net_third "CALL_1"
            (fetched (pollStatus Fixtures.net_third "CALL_1" no_options 0%nat) - 1)%nat)
  = Ret Fixtures.report_status /\
  exists before,
    trace (pollStatus Fixtures.net_third "CALL_1" no_options 0%nat)
    = (before ++ [EFetch (status_request "CALL_1")])%list.
Proof.
  apply (pollStatus_returns_last_answer Fixtures.net_third "CALL_1" no_options 0%nat).
  reflexivity.
Defined.

Lemma total_delay_app tr1 tr2 :
  total_delay (tr1 ++ tr2) = total_delay tr1 + total_delay tr2.
Proof.
  induction tr1 as [|ev tr1 IH]; [reflexivity|].
  unfold total_delay in *. cbn [app fold_right]. rewrite IH. destruct ev; lia.
Qed.

Lemma total_delay_attempt callId o attempt :
  total_delay (attempt_events callId o attempt) = 0.
Proof. unfold attempt_events. destruct (onProgress o); reflexivity. Qed.

Lemma total_delay_schedule callId o count : forall attempt,
  total_delay (schedule callId o attempt count)
  = interval_of o * Z.of_nat (Nat.pred count).
Proof.
  induction count as [|count IH]; intros attempt; [cbn; lia|].
  cbn [schedule]. rewrite total_delay_app, total_delay_attempt.
  destruct count as [|count]; [cbn; lia|].
  change (total_delay (EDelay (interval_of o)
                         :: schedule callId o (attempt + 1) (S count)))
    with (interval_of o + total_delay (schedule callId o (attempt + 1) (S count))).
  rewrite IH. cbn [Nat.pred]. lia.
Qed.

(** X5. The time [pollStatus] spends waiting is [interval] times the number
    of its delays: one delay less than its calls when it returns or fails in
    its last attempt, as many as its calls when it gives up after the loop.
    For a non-negative [interval] it never waits longer than [maxAttempts]
    times [interval] in all (10 seconds with the defaults). *)
Theorem pollStatus_waiting_time net callId o n :
  total_delay (trace (pollStatus net callId o n))
  = interval_of o
    * Z.of_nat (Nat.pred (getStatus_calls (trace (pollStatus net callId o n)))
                + List.length (closing_delay o (pollStatus net callId o n))) /\
  (0 <= interval_of o ->
   total_delay (trace (pollStatus net callId o n))
   <= interval_of o * Z.max 0 (maxAttempts_of o)) /\
  (forall status,
      result (pollStatus net callId o n) = Ret status ->
      total_delay (trace (pollStatus net callId o n))
      = interval_of o
        * (Z.of_nat (getStatus_calls (trace (pollStatus net callId o n))) - 1)).
Proof.
  unfold pollStatus.
  pose proof (pollLoop_schedule net callId o 1 n) as Hsch. cbv zeta in Hsch.
  destruct (pollLoop_calls net callId o 1 n) as [Hle Hf].
  set (r := pollLoop net callId o 1 n) in *.
  assert (Htotal : total_delay (trace r)
                   = interval_of o
                     * Z.of_nat (Nat.pred (getStatus_calls (trace r))
                                 + List.length (closing_delay o r))).
  { rewrite Hsch at 1. rewrite total_delay_app, total_delay_schedule.
    unfold closing_delay. destruct (_ && _); cbn; lia. }
  split; [exact Htotal|]. split.
  - intros Hi. rewrite Htotal. apply Z.mul_le_mono_nonneg_l; [exact Hi|].
    unfold closing_delay.
    destruct (exhausted r && (0 <? getStatus_calls (trace r))%nat) eqn:Hc; cbn [List.length].
    + apply andb_true_iff in Hc. destruct Hc as [_ Hpos].
      apply Nat.ltb_lt in Hpos. lia.
    + lia.
  - intros status Hr. rewrite Htotal, (closing_delay_returned o r Hr).
    destruct (pollLoop_returns net callId o 1 n Hr) as [Hlt _]. fold r in Hlt.
    cbn [List.length]. f_equal. lia.
Qed.

Lemma pollStatus_waiting_time_witness :
  total_delay (trace (pollStatus Fixtures.net_never "CALL_1" no_options 0%nat))
  <= 2000 * 5 /\
  total_delay (trace (pollStatus Fixtures.net_third "CALL_1" no_options 0%nat))
  = 2000 * (3 - 1).
Proof.
  split.
  - apply (proj1 (proj2 (pollStatus_waiting_time Fixtures.net_never "CALL_1"
                           no_options 0%nat))).
    cbn. lia.
  - apply (proj2 (proj2 (pollStatus_waiting_time Fixtures.net_third "CALL_1"
                           no_options 0%nat)) Fixtures.report_status).
    reflexivity.
Defined.

Lemma progress_calls_app tr1 tr2 :
  progress_calls (tr1 ++ tr2) = (progress_calls tr1 ++ progress_calls tr2)%list.
Proof. unfold progress_calls. apply flat_map_app. Qed.

Lemma progress_calls_schedule callId o count : forall attempt,
  progress_calls (schedule callId o attempt count)
  = if onProgress o
    then map (fun k => (attempt + Z.of_nat k, maxAttempts_of o)) (seq 0 count)
    else [].
Proof.
  induction count as [|count IH]; intros attempt.
  - destruct (onProgress o); reflexivity.
  - cbn [schedule]. rewrite progress_calls_app.
    assert (Hrest : progress_calls
                      match count with
                      | O => []
                      | S _ => EDelay (interval_of o)
                                 :: schedule callId o (attempt + 1) count
                      end
                    = progress_calls (schedule callId o (attempt + 1) count)).
    { destruct count; reflexivity. }
    rewrite Hrest, IH. unfold attempt_events.
    destruct (onProgress o); [|reflexivity].
    cbn [progress_calls flat_map app seq map].
    rewrite Z.add_0_r. f_equal.
    rewrite <- seq_shift, map_map. apply map_ext. intros k. f_equal. lia.
Qed.

(** X6. [pollStatus] calls the progress callback once per [getStatus] call
    and never otherwise: the calls are [(1, maxAttempts)], [(2,
    maxAttempts)], ... up to the number of attempts made, and none at all
    when no callback was supplied. *)
Theorem pollStatus_progress_calls net callId o n :
  progress_calls (trace (pollStatus net callId o n))
  = if onProgress o
    then map (fun k => (1 + Z.of_nat k, maxAttempts_of o))
             (seq 0 (getStatus_calls (trace (pollStatus net callId o n))))
    else [].
Proof.
  unfold pollStatus.
  pose proof (pollLoop_schedule net callId o 1 n) as Hsch. cbv zeta in Hsch.
  rewrite Hsch at 1. rewrite progress_calls_app, progress_calls_schedule.
  assert (Hc : progress_calls (closing_delay o (pollLoop net callId o 1 n)) = []).
  { unfold closing_delay. destruct (_ && _); reflexivity. }
  rewrite Hc, app_nil_r. reflexivity.
Qed.

Lemma hex_digit_inj a b :
  (a < 16)%nat -> (b < 16)%nat -> hex_digit a = hex_digit b -> a = b.
Proof.
  intros Ha Hb.
  do 16 (destruct a as [|a];
         [do 16 (destruct b as [|b]; [vm_compute; congruence|]); lia|]).
  lia.
Qed.

Lemma escape_inj c c' :
  hex_digit (nat_of_ascii c / 16) = hex_digit (nat_of_ascii c' / 16) ->
  hex_digit (nat_of_ascii c mod 16) = hex_digit (nat_of_ascii c' mod 16) ->
  c = c'.
Proof.
  intros Hhi Hlo.
  pose proof (nat_ascii_bounded c) as Hc. pose proof (nat_ascii_bounded c') as Hc'.
  apply hex_digit_inj in Hhi;
    [| apply Nat.Div0.div_lt_upper_bound; lia | apply Nat.Div0.div_lt_upper_bound; lia].
  apply hex_digit_inj in Hlo; [| apply Nat.mod_upper_bound; lia | apply Nat.mod_upper_bound; lia].
  rewrite <- (ascii_nat_embedding c), <- (ascii_nat_embedding c'). f_equal.
  rewrite (Nat.div_mod_eq (nat_of_ascii c) 16), (Nat.div_mod_eq (nat_of_ascii c') 16).
  rewrite Hhi, Hlo. reflexivity.
Qed.

Lemma percent_reserved : unreserved "%"%char = false.
Proof. reflexivity. Qed.

Lemma encodeURIComponent_inj s : forall s',
  encodeURIComponent s = encodeURIComponent s' -> s = s'.
Proof.
  induction s as [|c s IH]; intros [|c' s'] H; cbn [encodeURIComponent] in H.
  - reflexivity.
  - destruct (unreserved c'); discriminate.
  - destruct (unreserved c); discriminate.
  - destruct (unreserved c) eqn:Hc, (unreserved c') eqn:Hc'; cbv zeta in H.
    + injection H as -> H. f_equal. apply IH. exact H.
    + injection H as -> _. rewrite percent_reserved in Hc. discriminate.
    + injection H as <- _. rewrite percent_reserved in Hc'. discriminate.
    + injection H as Hhi Hlo H. rewrite (escape_inj c c' Hhi Hlo).
      f_equal. apply IH. exact H.
Qed.

Lemma encodeURIComponent_unreserved s :
  forallb unreserved (list_ascii_of_string s) = true -> encodeURIComponent s = s.
Proof.
  induction s as [|c s IH]; [reflexivity|].
  cbn [list_ascii_of_string forallb encodeURIComponent].
  intros H. apply andb_true_iff in H. destruct H as [Hc Hs].
  rewrite Hc, (IH Hs). reflexivity.
Qed.

Lemma append_inv_head (p a b : string) : (p ++ a = p ++ b)%string -> a = b.
Proof.
  induction p as [|c p IH]; cbn; [auto|]. intros [= H]. apply IH. exact H.
Qed.

(** X7. The status URL identifies the call: two call ids with the same
    status URL are the same id, and an id made only of letters, digits and
    [- _ . ! ~ * ' ( )] (as the ids the screens generate are) is put in the
    URL as it is. *)
Theorem status_url_identifies_call :
  (forall callId callId',
      url (status_request callId) = url (status_request callId') ->
      callId = callId') /\
  (forall callId,
      forallb unreserved (list_ascii_of_string callId) = true ->
      url (status_request callId)
      = ("https://nokia-backend.vercel.app/status?call_id=" ++ callId)%string).
Proof.
  split.
  - intros callId callId' H. cbn [url status_request] in H.
    apply append_inv_head in H. apply append_inv_head in H.
    apply encodeURIComponent_inj. exact H.
  - intros callId H. cbn [url status_request].
    rewrite (encodeURIComponent_unreserved callId H). reflexivity.
Qed.

Lemma status_url_identifies_call_witness :
  "CALL 1" = "CALL 1" /\
  url (status_request "CALL_1759645200000_k3j9x0q2a")
  = ("https://nokia-backend.vercel.app/status?call_id="
       ++ "CALL_1759645200000_k3j9x0q2a")%string.
Proof.
  split.
  - apply (proj1 status_url_identifies_call). reflexivity.
  - apply (proj2 status_url_identifies_call). reflexivity.
Defined.

End ApiMore.

(** * Further properties of the video-call screen *)

Module VideoCallMore.
Import VideoCall VideoCallProps.

Lemma padStart_two_digits n :
  (n < 100)%nat ->
  padStart 2 "0" (toString n) = String (digit (n / 10)) (String (digit (n mod 10)) EmptyString).
Proof.
  intros Hn.
  assert (Hall : forallb (fun n => String.eqb (padStart 2 "0" (toString n))
                                     (String (digit (n / 10))
                                        (String (digit (n mod 10)) EmptyString)))
                         (seq 0 100) = true) by (vm_compute; reflexivity).
  rewrite forallb_forall in Hall. apply String.eqb_eq. apply Hall.
  apply in_seq. lia.
Qed.

Lemma String_eq a b s t : String a s = String b t -> a = b /\ s = t.
Proof. intros [= -> ->]. auto. Qed.

(** X8. For a call shorter than 100 minutes [formatCallDuration] shows the
    minutes and the seconds with two digits each, zero-padded, around a
    colon: five characters, and different durations show differently. *)
Theorem formatCallDuration_clock seconds :
  (seconds < 100 * 60)%nat ->
  formatCallDuration seconds = clock_face seconds /\
  String.length (formatCallDuration seconds) = 5%nat /\
  (forall other, (other < 100 * 60)%nat ->
                 formatCallDuration other = formatCallDuration seconds ->
                 other = seconds).
Proof.
  assert (Hface : forall s, (s < 100 * 60)%nat -> formatCallDuration s = clock_face s).
  { intros s Hs. unfold formatCallDuration, clock_face. cbv zeta.
    rewrite !padStart_two_digits.
    - reflexivity.
    - pose proof (Nat.mod_upper_bound s 60). lia.
    - apply Nat.Div0.div_lt_upper_bound. lia. }
  assert (Hdigit : forall a b, (a < 10)%nat -> (b < 10)%nat -> digit a = digit b -> a = b).
  { intros a b Ha Hb H. unfold digit in H.
    apply (f_equal nat_of_ascii) in H.
    rewrite !nat_ascii_embedding in H by lia. lia. }
  intros Hs. split; [apply Hface; exact Hs|]. split.
  - rewrite (Hface seconds Hs). reflexivity.
  - intros other Ho H. rewrite (Hface other Ho), (Hface seconds Hs) in H.
    unfold clock_face in H.
    apply String_eq in H. destruct H as [H1 H].
    apply String_eq in H. destruct H as [H2 H].
    apply String_eq in H. destruct H as [_ H].
    apply String_eq in H. destruct H as [H3 H].
    apply String_eq in H. destruct H as [H4 _].
    assert (Hm : (other / 60 < 100)%nat) by (apply Nat.Div0.div_lt_upper_bound; lia).
    assert (Hm' : (seconds / 60 < 100)%nat) by (apply Nat.Div0.div_lt_upper_bound; lia).
    pose proof (Nat.mod_upper_bound other 60 ltac:(lia)) as Hr.
    pose proof (Nat.mod_upper_bound seconds 60 ltac:(lia)) as Hr'.
    apply Hdigit in H1; [| apply Nat.Div0.div_lt_upper_bound; lia
                          | apply Nat.Div0.div_lt_upper_bound; lia].
    apply Hdigit in H2; [| apply Nat.mod_upper_bound; lia | apply Nat.mod_upper_bound; lia].
    apply Hdigit in H3; [| apply Nat.Div0.div_lt_upper_bound; lia
                          | apply Nat.Div0.div_lt_upper_bound; lia].
    apply Hdigit in H4; [| apply Nat.mod_upper_bound; lia | apply Nat.mod_upper_bound; lia].
    rewrite (Nat.div_mod_eq other 60), (Nat.div_mod_eq seconds 60).
    rewrite (Nat.div_mod_eq (other / 60) 10), (Nat.div_mod_eq (seconds / 60) 10).
    rewrite (Nat.div_mod_eq (other mod 60) 10), (Nat.div_mod_eq (seconds mod 60) 10).
    rewrite H1, H2, H3, H4. reflexivity.
Qed.

Lemma formatCallDuration_clock_witness :
  formatCallDuration 754 = "12:34"%string /\
  String.length (formatCallDuration 754) = 5%nat.
Proof.
  destruct (@formatCallDuration_clock 754%nat) as (Hf & Hl & _); [lia|].
  split; [rewrite Hf; reflexivity | exact Hl].
Defined.

(** A call of a hundred minutes or more gets a wider minutes field. *)
Example formatCallDuration_long : formatCallDuration (100 * 60 + 5) = "100:05"%string.
Proof. reflexivity. Qed.

(** X9. [startCall] ends with a call in place exactly when the contact id
    is not blank ([trim] leaves something of it), the peer is ready, the
    camera opens and [peer.call]
    returns a connection. When the id is blank or the peer is not ready it
    only shows an alert: no camera is opened and nothing else changes. When
    the camera opens but [peer.call] returns nothing, the screen goes back to
    not calling while the stream just opened stays the local stream, with
    both tracks live. *)
Theorem startCall_outcomes seen dial w :
  (currentCall w = None ->
   (currentCall (startCall seen dial w) <> None <->
    blank (remotePeerId seen) = false /\ peerReady seen = true /\
    peerInstance w = true /\ media_granted dial = true /\ call_placed dial = true)) /\
  (blank (remotePeerId seen) = true \/ peerReady seen = false \/ peerInstance w = false ->
   state (startCall seen dial w) = state w /\
   next_track (startCall seen dial w) = next_track w /\
   currentCall (startCall seen dial w) = currentCall w /\
   exists title message,
     effects (startCall seen dial w) = (effects w ++ [Alerted title message])%list) /\
  (blank (remotePeerId seen) = false -> peerReady seen = true -> peerInstance w = true ->
   media_granted dial = true -> call_placed dial = false ->
   isCalling (state (startCall seen dial w)) = false /\
   currentCall (startCall seen dial w) = currentCall w /\
   exists a v,
     localStream (state (startCall seen dial w)) = Some (Stream [a; v]) /\
     read_track (startCall seen dial w) a = Live true false /\
     read_track (startCall seen dial w) v = Live true false).
Proof.
  unfold startCall. split; [|split].
  - intros Hnone.
    destruct (blank (remotePeerId seen)), (peerReady seen), (peerInstance w),
             (media_granted dial), (call_placed dial); cbn; rewrite ?Hnone;
      (split; [intros H; try (destruct (H eq_refl)); repeat split; try reflexivity;
               try discriminate
              | intros (H1 & H2 & H3 & H4 & H5); try discriminate]).
  - intros [Hb|[Hr|Hi]].
    + rewrite Hb. cbn. repeat split; eauto.
    + rewrite Hr. destruct (blank (remotePeerId seen)); cbn; repeat split; eauto.
    + rewrite Hi. destruct (blank (remotePeerId seen)), (peerReady seen); cbn;
        repeat split; eauto.
  - intros -> -> -> -> ->. cbn. repeat split.
    exists (Track (next_track w) audio), (Track (S (next_track w)) video).
    unfold read_track. cbn. rewrite !Nat.eqb_refl, ?orb_true_r. auto.
Qed.

Lemma startCall_outcomes_witness :
  (currentCall (startCall (render (mounted "doctor-42")) (MkDialing true true)
                          (mounted "doctor-42")) <> None) /\
  state (startCall (render (mounted "  ")) (MkDialing true true) (mounted "  "))
  = state (mounted "  ") /\
  isCalling (state (startCall (render (mounted "doctor-42")) (MkDialing true false)
                              (mounted "doctor-42"))) = false /\
  currentCall (startCall (render (mounted Fixtures.white_id)) (MkDialing true true)
                         (mounted Fixtures.white_id)) = None.
Proof.
  split; [|split; [|split]].
  - apply (proj1 (startCall_outcomes (render (mounted "doctor-42"))
                    (MkDialing true true) (mounted "doctor-42")) eq_refl).
    repeat split; reflexivity.
  - apply (proj1 (proj2 (startCall_outcomes (render (mounted "  "))
                           (MkDialing true true) (mounted "  ")))).
    left. reflexivity.
  - apply (proj2 (proj2 (startCall_outcomes (render (mounted "doctor-42"))
                           (MkDialing true false) (mounted "doctor-42"))));
      reflexivity.
  - apply (proj1 (proj2 (startCall_outcomes (render (mounted Fixtures.white_id))
                           (MkDialing true true) (mounted Fixtures.white_id)))).
    left. reflexivity.
Defined.

Lemma effects_stop_each tracks : forall w, effects (stop_each tracks w) = effects w.
Proof.
  induction tracks as [|t tracks IH]; intros w; [reflexivity|].
  rewrite stop_each_cons, IH. reflexivity.
Qed.

Lemma peerInstance_stop_each tracks : forall w,
  peerInstance (stop_each tracks w) = peerInstance w.
Proof.
  induction tracks as [|t tracks IH]; intros w; [reflexivity|].
  rewrite stop_each_cons, IH. reflexivity.
Qed.

Lemma effects_quiet seen w :
  effects (endCall_with close_quietly seen w)
  = (effects w
       ++ match currentCall w with Some call => [CallClosed (peer call)] | None => [] end
       ++ match callStartTime w with Some _ => [AnalysisStarted] | None => [] end)%list.
Proof.
  unfold endCall_with, close_quietly.
  destruct (callStartTime w), (currentCall w), (localStream seen); cbn;
    rewrite ?effects_stop_each; cbn; rewrite <- ?app_assoc, ?app_nil_r; reflexivity.
Qed.

Lemma analyses_quiet seen w :
  analyses_started (endCall_with close_quietly seen w)
  = (analyses_started w + match callStartTime w with Some _ => 1 | None => 0 end)%nat.
Proof.
  unfold analyses_started. rewrite effects_quiet.
  rewrite !filter_app, !length_app.
  destruct (currentCall w), (callStartTime w); cbn; lia.
Qed.

Lemma analyses_mark_closed w : analyses_started (mark_closed w) = analyses_started w.
Proof. reflexivity. Qed.

Lemma analyses_CallClosed p w :
  analyses_started (perform (CallClosed p) w) = analyses_started w.
Proof.
  unfold analyses_started, perform. cbn.
  rewrite filter_app, length_app. cbn. lia.
Qed.

Lemma callStartTime_endCall seen w : callStartTime (endCall seen w) = callStartTime w.
Proof.
  destruct (close_handler w) as [registered|] eqn:Hh.
  - destruct (@close_handler_Some w _ Hh) as (call & Hc & Ho & Hl).
    rewrite (@endCall_emits seen w _ _ Hc Ho Hl), !callStartTime_quiet. reflexivity.
  - rewrite (@endCall_quiet seen w Hh). apply callStartTime_quiet.
Qed.

Lemma currentCall_endCall seen w : currentCall (endCall seen w) = None.
Proof. apply endCall_any_render. Qed.

Lemma analyses_endCall seen w :
  analyses_started (endCall seen w)
  = (analyses_started w
     + match callStartTime w, close_handler w with
       | Some _, Some _ => 2
       | Some _, None => 1
       | None, _ => 0
       end)%nat.
Proof.
  destruct (close_handler w) as [registered|] eqn:Hh.
  - destruct (@close_handler_Some w _ Hh) as (call & Hc & Ho & Hl).
    rewrite (@endCall_emits seen w _ _ Hc Ho Hl), !analyses_quiet, callStartTime_quiet.
    rewrite analyses_mark_closed, analyses_CallClosed.
    change (callStartTime (mark_closed (perform (CallClosed (peer call)) w)))
      with (callStartTime w).
    destruct (callStartTime w); lia.
  - rewrite (@endCall_quiet seen w Hh), analyses_quiet.
    destruct (callStartTime w); reflexivity.
Qed.

(** X10. [endCall] leaves the recorded call start time in place (it is
    cleared only when an analysis has finished) and starts the analysis of
    the call when one is recorded: once when its [close()] emits nothing,
    twice when the call is open with a ['close'] handler, because [close()]
    then runs the registered [endCall] inside the pressed one and each of
    the two starts an analysis. The ['close'] event of a remote hang-up
    starts one analysis; any [endCall] that runs later, before an analysis
    has finished, starts one more. *)
Theorem endCall_starts_analysis seen w :
  callStartTime (endCall seen w) = callStartTime w /\
  analyses_started (endCall seen w)
  = (analyses_started w
     + match callStartTime w, close_handler w with
       | Some _, Some _ => 2
       | Some _, None => 1
       | None, _ => 0
       end)%nat /\
  (forall call,
      analyses_started (on_close call w)
      = (analyses_started w
         + match callStartTime w, listeners call with
           | Some _, Some _ => 1
           | _, _ => 0
           end)%nat) /\
  (forall seen',
      analyses_started (endCall seen' (endCall seen w))
      = (analyses_started (endCall seen w)
         + match callStartTime w with Some _ => 1 | None => 0 end)%nat).
Proof.
  split; [apply callStartTime_endCall|]. split; [apply analyses_endCall|]. split.
  - intros call. unfold on_close. destruct (listeners call) as [registered|].
    + rewrite (@endCall_quiet registered (mark_closed w) (close_handler_mark_closed w)).
      rewrite analyses_quiet, analyses_mark_closed.
      change (callStartTime (mark_closed w)) with (callStartTime w).
      destruct (callStartTime w); reflexivity.
    + rewrite analyses_mark_closed. destruct (callStartTime w); lia.
  - intros seen'.
    assert (Hh : close_handler (endCall seen w) = None)
      by (unfold close_handler; rewrite currentCall_endCall; reflexivity).
    rewrite (analyses_endCall seen' (endCall seen w)), Hh, callStartTime_endCall.
    destruct (callStartTime w); reflexivity.
Qed.

Lemma endCall_starts_analysis_witness :
  analyses_started (endCall (render Fixtures.in_call) Fixtures.in_call) = 2%nat /\
  analyses_started Fixtures.remote_hangup = 1%nat.
Proof.
  destruct (endCall_starts_analysis (render Fixtures.in_call) Fixtures.in_call)
    as (_ & Hpressed & Hremote & _).
  split.
  - rewrite Hpressed. reflexivity.
  - exact (Hremote (Call "doctor-42"
                         (Some [Sender (Some (Track 0 audio));
                                Sender (Some (Track 1 video))])
                         true (Some (render (mounted "doctor-42"))))).
Defined.

(** [stop()] leaves [enabled] alone, and touches no other track object. *)
Lemma enabled_stop_each tracks : forall w t,
  enabled (read_track (stop_each tracks w) t) = enabled (read_track w t).
Proof.
  induction tracks as [|u tracks IH]; intros w t; [reflexivity|].
  rewrite stop_each_cons, IH. unfold stop, read_track, write_track. cbn.
  destruct (Nat.eqb_spec (track_id t) (track_id u)) as [->|]; reflexivity.
Qed.

Lemma read_stop_each_other tracks : forall w t,
  (forall u, In u tracks -> track_id u <> track_id t) ->
  read_track (stop_each tracks w) t = read_track w t.
Proof.
  induction tracks as [|u tracks IH]; intros w t Hother; [reflexivity|].
  rewrite stop_each_cons, IH by (intros u' Hu'; apply Hother; right; exact Hu').
  unfold stop, read_track, write_track. cbn.
  destruct (Nat.eqb_spec (track_id t) (track_id u)) as [Heq|]; [|reflexivity].
  destruct (Hother u (or_introl eq_refl)). symmetry. exact Heq.
Qed.

Lemma quiet_frame seen w :
  facingMode (state (endCall_with close_quietly seen w)) = facingMode (state w) /\
  isSpeakerOn (state (endCall_with close_quietly seen w)) = isSpeakerOn (state w) /\
  remotePeerId (state (endCall_with close_quietly seen w)) = remotePeerId (state w) /\
  peerReady (state (endCall_with close_quietly seen w)) = peerReady (state w) /\
  peerInstance (endCall_with close_quietly seen w) = peerInstance w /\
  (forall t, enabled (read_track (endCall_with close_quietly seen w) t)
             = enabled (read_track w t)) /\
  (forall t,
      (forall stream u, localStream seen = Some stream ->
                        In u (getTracks stream) -> track_id u <> track_id t) ->
      read_track (endCall_with close_quietly seen w) t = read_track w t).
Proof.
  unfold endCall_with, close_quietly, read_track.
  destruct (localStream seen) as [stream|].
  - assert (He : forall w0 t, enabled (track_state (stop_each (getTracks stream) w0)
                                                   (track_id t))
                              = enabled (track_state w0 (track_id t)))
      by (intros; apply enabled_stop_each).
    assert (Ho : forall w0 t,
               (forall stream0 u, Some stream = Some stream0 ->
                                  In u (getTracks stream0) -> track_id u <> track_id t) ->
               track_state (stop_each (getTracks stream) w0) (track_id t)
               = track_state w0 (track_id t)).
    { intros w0 t H. apply read_stop_each_other. intros u Hu. exact (H stream u eq_refl Hu). }
    destruct (callStartTime w), (currentCall w); cbn;
      rewrite ?state_stop_each, ?peerInstance_stop_each; cbn;
      (repeat split; try reflexivity;
       [intros t; rewrite He; reflexivity | intros t H; rewrite (Ho _ t H); reflexivity]).
  - destruct (callStartTime w), (currentCall w); cbn; repeat split; reflexivity.
Qed.

(** X11. [endCall] never changes [facingMode], [isSpeakerOn], the contact
    id, [peerReady] or the peer itself, and never changes [enabled] on any
    track. It leaves a track object as it was when the track belongs
    neither to the stream its own render saw nor, on an open call, to the
    stream seen by the render whose ['close'] handler its [close()] runs;
    the tracks of that second stream are ended as well. *)
Theorem endCall_frame seen w :
  facingMode (state (endCall seen w)) = facingMode (state w) /\
  isSpeakerOn (state (endCall seen w)) = isSpeakerOn (state w) /\
  remotePeerId (state (endCall seen w)) = remotePeerId (state w) /\
  peerReady (state (endCall seen w)) = peerReady (state w) /\
  peerInstance (endCall seen w) = peerInstance w /\
  (forall t, enabled (read_track (endCall seen w) t) = enabled (read_track w t)) /\
  (forall t,
      (forall stream u, localStream seen = Some stream ->
                        In u (getTracks stream) -> track_id u <> track_id t) ->
      (forall registered stream u,
          close_handler w = Some registered ->
          localStream registered = Some stream ->
          In u (getTracks stream) -> track_id u <> track_id t) ->
      read_track (endCall seen w) t = read_track w t) /\
  (forall registered stream u,
      close_handler w = Some registered ->
      localStream registered = Some stream ->
      In u (getTracks stream) ->
      ended (read_track (endCall seen w) u) = true).
Proof.
  destruct (close_handler w) as [registered|] eqn:Hh.
  - destruct (@close_handler_Some w _ Hh) as (call & Hc & Ho & Hl).
    rewrite (@endCall_emits seen w _ _ Hc Ho Hl).
    set (w0 := mark_closed (perform (CallClosed (peer call)) w)).
    destruct (quiet_frame registered w0) as (F1 & F2 & F3 & F4 & F5 & F6 & F7).
    destruct (quiet_frame seen (endCall_with close_quietly registered w0))
      as (G1 & G2 & G3 & G4 & G5 & G6 & G7).
    rewrite G1, G2, G3, G4, G5, F1, F2, F3, F4, F5.
    repeat split; try reflexivity.
    + intros t. rewrite G6, F6. reflexivity.
    + intros t Hseen Hreg. rewrite (G7 t Hseen), (F7 t); [reflexivity|].
      intros stream u Hs Hu. exact (Hreg registered stream u eq_refl Hs Hu).
    + intros registered' stream u [= <-] Hs Hu.
      apply quiet_keeps_ended.
      apply quiet_ends_seen with (stream := stream); assumption.
  - rewrite (@endCall_quiet seen w Hh).
    destruct (quiet_frame seen w) as (F1 & F2 & F3 & F4 & F5 & F6 & F7).
    repeat split; try assumption.
    + intros t Hseen _. apply F7. exact Hseen.
    + intros registered stream u [=].
Qed.

Lemma endCall_frame_witness :
  read_track (endCall (render Fixtures.in_call) Fixtures.in_call) (Track 100 audio)
  = read_track Fixtures.in_call (Track 100 audio) /\
  ended (read_track Fixtures.second_call (Track 0 audio)) = false /\
  ended (read_track (endCall (render Fixtures.second_call) Fixtures.second_call)
                    (Track 0 audio)) = true.
Proof.
  split; [|split; [vm_compute; reflexivity|]].
  - apply (proj1 (proj2 (proj2 (proj2 (proj2 (proj2 (proj2
             (endCall_frame (render Fixtures.in_call) Fixtures.in_call)))))))).
    + intros stream u [= <-] [<-|[<-|[]]]; cbn; lia.
    + intros registered stream u [= <-] [=].
  - apply (proj2 (proj2 (proj2 (proj2 (proj2 (proj2 (proj2
             (endCall_frame (render Fixtures.second_call) Fixtures.second_call))))))))
      with (registered := render Fixtures.analysed)
           (stream := Stream [Track 0 audio; Track 1 video]).
    + vm_compute. reflexivity.
    + vm_compute. reflexivity.
    + left. reflexivity.
Defined.

(** [toggleVideo] of any render that saw a stream with a video track. *)
Lemma toggleVideo_seen seen w stream videoTrack rest :
  localStream seen = Some stream ->
  getVideoTracks stream = videoTrack :: rest ->
  toggleVideo seen w
  = setIsVideoOff (enabled (read_track w videoTrack))
      (set_enabled videoTrack (negb (enabled (read_track w videoTrack))) w).
Proof.
  intros Hs Hv. unfold toggleVideo. rewrite Hs, Hv. cbv zeta.
  unfold set_enabled at 1. rewrite read_write_same. cbn [enabled].
  rewrite negb_involutive. reflexivity.
Qed.

Lemma toggleMute_seen_eq seen w stream audioTrack rest :
  localStream seen = Some stream ->
  getAudioTracks stream = audioTrack :: rest ->
  toggleMute seen w
  = setIsMuted (enabled (read_track w audioTrack))
      (set_enabled audioTrack (negb (enabled (read_track w audioTrack))) w).
Proof.
  intros Hs Ha. unfold toggleMute. rewrite Hs, Ha. cbv zeta.
  unfold set_enabled at 1. rewrite read_write_same. cbn [enabled].
  rewrite negb_involutive. reflexivity.
Qed.

(** X12. The mute and the video button do not interfere: on a stream whose
    first audio and first video track are different objects, pressing both,
    in either order, negates [enabled] on each of the two tracks, sets
    [isMuted] and [isVideoOff] from the track each belongs to, and leaves
    every other track object and every other hook as it was. *)
Theorem toggleMute_toggleVideo_commute w stream audioTrack videoTrack restA restV :
  localStream (state w) = Some stream ->
  getAudioTracks stream = audioTrack :: restA ->
  getVideoTracks stream = videoTrack :: restV ->
  track_id audioTrack <> track_id videoTrack ->
  state (toggleVideo (render (toggleMute (render w) w)) (toggleMute (render w) w))
  = state (toggleMute (render (toggleVideo (render w) w)) (toggleVideo (render w) w)) /\
  (forall t,
      read_track (toggleVideo (render (toggleMute (render w) w)) (toggleMute (render w) w)) t
      = read_track (toggleMute (render (toggleVideo (render w) w))
                               (toggleVideo (render w) w)) t) /\
  state (toggleVideo (render (toggleMute (render w) w)) (toggleMute (render w) w))
  = state (setIsVideoOff (enabled (read_track w videoTrack))
             (setIsMuted (enabled (read_track w audioTrack)) w)) /\
  (forall t,
      read_track (toggleVideo (render (toggleMute (render w) w)) (toggleMute (render w) w)) t
      = if Nat.eqb (track_id t) (track_id videoTrack)
        then Live (negb (enabled (read_track w videoTrack))) (ended (read_track w videoTrack))
        else if Nat.eqb (track_id t) (track_id audioTrack)
             then Live (negb (enabled (read_track w audioTrack)))
                       (ended (read_track w audioTrack))
             else read_track w t).
Proof.
  intros Hs Ha Hv Hne.
  assert (Hs1 : localStream (render (toggleMute (render w) w)) = Some stream).
  { rewrite (toggleMute_seen_eq (render w) w Hs Ha). exact Hs. }
  assert (Hs2 : localStream (render (toggleVideo (render w) w)) = Some stream).
  { rewrite (toggleVideo_seen (render w) w Hs Hv). exact Hs. }
  rewrite (toggleVideo_seen _ (toggleMute (render w) w) Hs1 Hv).
  rewrite (toggleMute_seen_eq _ (toggleVideo (render w) w) Hs2 Ha).
  rewrite (toggleMute_seen_eq (render w) w Hs Ha).
  rewrite (toggleVideo_seen (render w) w Hs Hv).
  assert (Hav : Nat.eqb (track_id audioTrack) (track_id videoTrack) = false)
    by (apply Nat.eqb_neq; exact Hne).
  assert (Hva : Nat.eqb (track_id videoTrack) (track_id audioTrack) = false)
    by (apply Nat.eqb_neq; auto).
  unfold read_track, set_enabled, write_track, read_track. cbn.
  rewrite ?Hav, ?Hva, ?Nat.eqb_refl. cbn.
  repeat split.
  all: intros t.
  all: destruct (Nat.eqb_spec (track_id t) (track_id videoTrack)) as [Hv'|];
         destruct (Nat.eqb_spec (track_id t) (track_id audioTrack)) as [Ha'|];
         try reflexivity.
  all: congruence.
Qed.

Lemma toggleMute_toggleVideo_commute_witness :
  state (toggleVideo (render (toggleMute (render Fixtures.in_call) Fixtures.in_call))
                     (toggleMute (render Fixtures.in_call) Fixtures.in_call))
  = state (toggleMute (render (toggleVideo (render Fixtures.in_call) Fixtures.in_call))
                      (toggleVideo (render Fixtures.in_call) Fixtures.in_call)).
Proof.
  apply (@toggleMute_toggleVideo_commute Fixtures.in_call
           (Stream [Track 0 audio; Track 1 video]) (Track 0 audio) (Track 1 video)
           [] []); try reflexivity.
  cbn. lia.
Defined.

(** The track objects after a successful [flipCamera]: the two new tracks
    are enabled and live, and the tracks that existed keep [enabled]. *)
Lemma flipCamera_tracks w dev stream :
  localStream (state w) = Some stream ->
  camera_opens dev = true ->
  replace_succeeds dev = true ->
  read_track (flipCamera (render w) dev w) (Track (next_track w) audio) = Live true false /\
  (forall t, (track_id t < next_track w)%nat ->
             enabled (read_track (flipCamera (render w) dev w) t)
             = enabled (read_track w t)).
Proof.
  intros Hs Hcam Hrep. unfold flipCamera, render.
  rewrite Hs, Hcam, Hrep. cbn [negb].
  assert (Hold : forall t, (track_id t < next_track w)%nat ->
                 Nat.eqb (track_id t) (next_track w) = false /\
                 Nat.eqb (track_id t) (S (next_track w)) = false).
  { intros t Ht. split; apply Nat.eqb_neq; lia. }
  destruct (currentCall w) as [[p [senders|] o l]|] eqn:Hcall;
    [destruct (existsb sends_video senders) eqn:Hv| |];
    destruct (getVideoTracks stream) as [|v others];
    unfold read_track; cbn; rewrite ?Hcall; cbn; rewrite ?Hv; cbn;
    rewrite ?Nat.eqb_refl; (split; [reflexivity|]);
    intros t Ht; destruct (Hold t Ht) as [-> ->]; cbn; try reflexivity;
    destruct (Nat.eqb_spec (track_id t) (track_id v)) as [Heq|]; try reflexivity;
    unfold read_track; rewrite Heq; reflexivity.
Qed.

Lemma replace_video_In t senders s :
  In s senders -> sends_video s = false -> In s (replace_video t senders).
Proof.
  induction senders as [|s0 senders IH]; intros Hin Hs; [destruct Hin|].
  cbn. destruct Hin as [->|Hin].
  - rewrite Hs. left. reflexivity.
  - destruct (sends_video s0); right; [exact Hin | apply IH; assumption].
Qed.

(** X13. After a successful [flipCamera] during a call the mute button no
    longer reaches the audio that is sent: the call keeps sending the audio
    track of the old stream, pressing mute disables the audio track of the
    new stream and shows the call as muted, and [enabled] on the track that
    is sent stays as it was. *)
Theorem mute_after_flip_misses_sent_audio w dev stream call senders sent :
  localStream (state w) = Some stream ->
  currentCall w = Some call ->
  peerConnection call = Some senders ->
  In (Sender (Some sent)) senders ->
  kind sent = audio ->
  (track_id sent < next_track w)%nat ->
  camera_opens dev = true ->
  replace_succeeds dev = true ->
  exists senders',
    currentCall (toggleMute (render (flipCamera (render w) dev w))
                            (flipCamera (render w) dev w))
    = Some (Call (peer call) (Some senders') (open call) (listeners call)) /\
    In (Sender (Some sent)) senders' /\
    isMuted (state (toggleMute (render (flipCamera (render w) dev w))
                               (flipCamera (render w) dev w))) = true /\
    enabled (read_track (toggleMute (render (flipCamera (render w) dev w))
                                    (flipCamera (render w) dev w)) sent)
    = enabled (read_track w sent) /\
    localStream (state (toggleMute (render (flipCamera (render w) dev w))
                                   (flipCamera (render w) dev w)))
    = Some (Stream [Track (next_track w) audio; Track (S (next_track w)) video]) /\
    enabled (read_track (toggleMute (render (flipCamera (render w) dev w))
                                    (flipCamera (render w) dev w))
                        (Track (next_track w) audio))
    = false.
Proof.
  intros Hs Hcall Hpc Hin Hkind Hold Hcam Hrep.
  destruct (flipCamera_done w dev Hs Hcam Hrep) as [Hcall1 Hstate1].
  destruct (flipCamera_tracks w dev Hs Hcam Hrep) as [Hnew Hkeep].
  set (w1 := flipCamera (render w) dev w) in *.
  assert (Hs1 : localStream (render w1)
                = Some (Stream [Track (next_track w) audio;
                                Track (S (next_track w)) video])).
  { unfold render. rewrite Hstate1. reflexivity. }
  rewrite (toggleMute_seen_eq (render w1) w1 Hs1 (rest := []) eq_refl).
  rewrite Hnew. cbn [enabled negb].
  exists (replace_video (Some (Track (S (next_track w)) video)) senders).
  repeat split.
  - cbn. rewrite Hcall1, Hcall. cbn. rewrite Hpc. reflexivity.
  - apply replace_video_In; [exact Hin|].
    unfold sends_video. cbn. rewrite Hkind. reflexivity.
  - unfold read_track, set_enabled, write_track. cbn.
    replace (Nat.eqb (track_id sent) (next_track w)) with false
      by (symmetry; apply Nat.eqb_neq; lia).
    apply Hkeep. exact Hold.
  - cbn. rewrite Hstate1. reflexivity.
  - unfold read_track, set_enabled, write_track. cbn.
    rewrite Nat.eqb_refl. reflexivity.
Qed.

Lemma mute_after_flip_misses_sent_audio_witness :
  exists senders',
    currentCall (toggleMute (render (flipCamera (render Fixtures.in_call)
                                                (MkDevices true true) Fixtures.in_call))
                            (flipCamera (render Fixtures.in_call)
                                        (MkDevices true true) Fixtures.in_call))
    = Some (Call "doctor-42" (Some senders') true
                 (Some (render (mounted "doctor-42")))) /\
    In (Sender (Some (Track 0 audio))) senders' /\
    isMuted (state (toggleMute (render (flipCamera (render Fixtures.in_call)
                                                   (MkDevices true true) Fixtures.in_call))
                               (flipCamera (render Fixtures.in_call)
                                           (MkDevices true true) Fixtures.in_call))) = true /\
    enabled (read_track (toggleMute (render (flipCamera (render Fixtures.in_call)
                                                        (MkDevices true true)
                                                        Fixtures.in_call))
                                    (flipCamera (render Fixtures.in_call)
                                                (MkDevices true true) Fixtures.in_call))
                        (Track 0 audio))
    = enabled (read_track Fixtures.in_call (Track 0 audio)) /\
    localStream (state (toggleMute (render (flipCamera (render Fixtures.in_call)
                                                       (MkDevices true true)
                                                       Fixtures.in_call))
                                   (flipCamera (render Fixtures.in_call)
                                               (MkDevices true true) Fixtures.in_call)))
    = Some (Stream [Track 2 audio; Track 3 video]) /\
    enabled (read_track (toggleMute (render (flipCamera (render Fixtures.in_call)
                                                        (MkDevices true true)
                                                        Fixtures.in_call))
                                    (flipCamera (render Fixtures.in_call)
                                                (MkDevices true true) Fixtures.in_call))
                        (Track 2 audio))
    = false.
Proof.
  apply (@mute_after_flip_misses_sent_audio Fixtures.in_call (MkDevices true true)
           (Stream [Track 0 audio; Track 1 video])
           (Call "doctor-42"
                 (Some [Sender (Some (Track 0 audio)); Sender (Some (Track 1 video))])
                 true (Some (render (mounted "doctor-42"))))
           [Sender (Some (Track 0 audio)); Sender (Some (Track 1 video))]
           (Track 0 audio)); try reflexivity.
  - left. reflexivity.
  - vm_compute. lia.
Defined.

(** X14. A [flipCamera] that fails has already stopped the video track of
    the local stream. When the camera does not open, the hooks and the call
    are as before (the stopped track is still in the local stream) and one
    alert is shown; when the camera opens but [replaceTrack] fails, the same
    holds and the tracks of the stream just opened stay live although no
    hook holds that stream. *)
Theorem flipCamera_failure w dev stream videoTrack rest :
  localStream (state w) = Some stream ->
  getVideoTracks stream = videoTrack :: rest ->
  (camera_opens dev = false ->
   ended (read_track (flipCamera (render w) dev w) videoTrack) = true /\
   state (flipCamera (render w) dev w) = state w /\
   currentCall (flipCamera (render w) dev w) = currentCall w /\
   next_track (flipCamera (render w) dev w) = next_track w /\
   effects (flipCamera (render w) dev w)
   = (effects w ++ [Alerted "Error" "Could not flip camera"])%list) /\
  (forall call senders,
      camera_opens dev = true ->
      replace_succeeds dev = false ->
      currentCall w = Some call ->
      peerConnection call = Some senders ->
      existsb sends_video senders = true ->
      (track_id videoTrack < next_track w)%nat ->
      ended (read_track (flipCamera (render w) dev w) videoTrack) = true /\
      state (flipCamera (render w) dev w) = state w /\
      currentCall (flipCamera (render w) dev w) = currentCall w /\
      read_track (flipCamera (render w) dev w) (Track (next_track w) audio)
      = Live true false /\
      read_track (flipCamera (render w) dev w) (Track (S (next_track w)) video)
      = Live true false /\
      effects (flipCamera (render w) dev w)
      = (effects w ++ [Alerted "Error" "Could not flip camera"])%list).
Proof.
  intros Hs Hv. unfold flipCamera, render. rewrite Hs, Hv. split.
  - intros ->. unfold read_track. cbn. rewrite Nat.eqb_refl. auto.
  - intros call senders -> -> Hcall Hpc Hvideo Hold.
    unfold read_track. cbn. rewrite Hcall. cbn. rewrite Hpc, Hvideo. cbn.
    rewrite !Nat.eqb_refl, ?orb_true_r.
    replace (Nat.eqb (track_id videoTrack) (next_track w)) with false
      by (symmetry; apply Nat.eqb_neq; lia).
    replace (Nat.eqb (track_id videoTrack) (S (next_track w))) with false
      by (symmetry; apply Nat.eqb_neq; lia).
    cbn. repeat split; auto.
Qed.

Lemma flipCamera_failure_witness :
  ended (read_track (flipCamera (render Fixtures.in_call) (MkDevices false true)
                                Fixtures.in_call) (Track 1 video)) = true /\
  state (flipCamera (render Fixtures.in_call) (MkDevices true false) Fixtures.in_call)
  = state Fixtures.in_call.
Proof.
  split.
  - apply (proj1 (@flipCamera_failure Fixtures.in_call (MkDevices false true)
                    (Stream [Track 0 audio; Track 1 video]) (Track 1 video) []
                    eq_refl eq_refl)).
    reflexivity.
  - eapply (proj2 (@flipCamera_failure Fixtures.in_call (MkDevices true false)
                     (Stream [Track 0 audio; Track 1 video]) (Track 1 video) []
                     eq_refl eq_refl)); try reflexivity.
    vm_compute. lia.
Defined.

(** X15. An incoming call that is answered from a render that saw no local
    stream, and is then closed by the remote side, ends like the outgoing
    one: the call ref is cleared, but the stream [answerCall] opened is still
    the local stream and both of its tracks are still live. *)
Theorem answered_call_closed_by_remote seen call w :
  localStream seen = None ->
  exists answered a v,
    currentCall (answerCall seen true call w) = Some answered /\
    currentCall (on_close answered (answerCall seen true call w)) = None /\
    localStream (state (on_close answered (answerCall seen true call w)))
    = Some (Stream [a; v]) /\
    read_track (on_close answered (answerCall seen true call w)) a = Live true false /\
    read_track (on_close answered (answerCall seen true call w)) v = Live true false.
Proof.
  intros Hseen.
  exists (Call (peer call)
               (Some [Sender (Some (Track (next_track w) audio));
                      Sender (Some (Track (S (next_track w)) video))])
               true (Some seen)),
         (Track (next_track w) audio), (Track (S (next_track w)) video).
  split; [reflexivity|].
  unfold on_close. cbn [listeners].
  destruct (@endCall_stale_render seen (mark_closed (answerCall seen true call w)) Hseen
              (close_handler_mark_closed _)) as [Hl Ht].
  rewrite currentCall_endCall, Hl, !Ht.
  unfold read_track. cbn. rewrite !Nat.eqb_refl, ?orb_true_r. auto.
Qed.

Lemma answered_call_closed_by_remote_witness :
  exists answered a v,
    currentCall (answerCall (render (mounted "")) true (Call "patient-7" None false None)
                            (mounted "")) = Some answered /\
    currentCall (on_close answered
                   (answerCall (render (mounted "")) true (Call "patient-7" None false None)
                               (mounted ""))) = None /\
    localStream (state (on_close answered
                          (answerCall (render (mounted "")) true
                                      (Call "patient-7" None false None) (mounted ""))))
    = Some (Stream [a; v]) /\
    read_track (on_close answered
                  (answerCall (render (mounted "")) true (Call "patient-7" None false None)
                              (mounted ""))) a = Live true false /\
    read_track (on_close answered
                  (answerCall (render (mounted "")) true (Call "patient-7" None false None)
                              (mounted ""))) v = Live true false.
Proof.
  apply (@answered_call_closed_by_remote (render (mounted ""))
           (Call "patient-7" None false None) (mounted "")).
  reflexivity.
Defined.

End VideoCallMore.

(** * Properties of the analysis of a finished call *)

Module CallAnalysisProps.
Import Js Api ApiProps CallAnalysis.
Local Open Scope api_scope.

Lemma requests_fetch_cons r tr : requests (EFetch r :: tr) = r :: requests tr.
Proof. reflexivity. Qed.

Lemma Forall_eq_repeat (A : Type) (x : A) l :
  Forall (eq x) l -> l = repeat x (List.length l).
Proof.
  induction 1 as [|y l <- _ IH]; [reflexivity|]. cbn. rewrite <- IH. reflexivity.
Qed.

(** The requests of a poll: the status request, as often as it calls. *)
Lemma pollStatus_requests net callId o n :
  requests (trace (pollStatus net callId o n))
  = repeat (status_request callId)
           (getStatus_calls (trace (pollStatus net callId o n))) /\
  (getStatus_calls (trace (pollStatus net callId o n)) <= Z.to_nat (maxAttempts_of o))%nat.
Proof.
  unfold pollStatus. split.
  - rewrite <- requests_length. apply Forall_eq_repeat. apply pollLoop_requests.
  - destruct (pollLoop_calls net callId o 1 n) as [H _].
    replace (maxAttempts_of o + 1 - 1) with (maxAttempts_of o) in H by lia. exact H.
Qed.

(** Analysing and then polling, as a function of the two calls. *)
Lemma analyze_then_poll net query (poll : M value) (decide : value -> outcome Dialog) n :
  try_catch
    (analyzeResult <- analyzeQuery net query ;;
     statusResult <- poll ;;
     dialog <- lift (decide analyzeResult) ;;
     ret (Some dialog))
    (fun error => ret None) n
  = match result (analyzeQuery net query n) with
    | Throw _ => Run (Ret None) (S n) [EFetch (analyze_request query)]
    | Ret analyzeResult =>
        Run (Ret match result (poll (S n)) with
                 | Throw _ => None
                 | Ret _ =>
                     match decide analyzeResult with
                     | Ret dialog => Some dialog
                     | Throw _ => None
                     end
                 end)
            (fetched (poll (S n)))
            (EFetch (analyze_request query) :: trace (poll (S n)))
    end.
Proof.
  destruct (analyzeQuery_run net query n) as [Hf Ht].
  unfold try_catch, bind, lift, ret, prepend.
  destruct (analyzeQuery net query n) as [res f tr].
  cbn in Hf, Ht. subst f tr. cbn.
  destruct res as [analyzeResult|e]; cbn; [|reflexivity].
  destruct (poll (S n)) as [pres pf ptr]. cbn.
  destruct pres as [status|e]; cbn; [|rewrite app_nil_r; reflexivity].
  destruct (decide analyzeResult); cbn; rewrite ?app_nil_r; reflexivity.
Qed.

Lemma video_analysis_run net start c n :
  video_analysis net start c n =
    match result (analyzeQuery net (video_query start c) n) with
    | Throw _ => Run (Ret None) (S n) [EFetch (analyze_request (video_query start c))]
    | Ret analyzeResult =>
        Run (Ret match result (pollStatus net (new_callId c) video_polling (S n)) with
                 | Throw _ => None
                 | Ret _ =>
                     match video_dialog (new_callId c) analyzeResult with
                     | Ret dialog => Some dialog
                     | Throw _ => None
                     end
                 end)
            (fetched (pollStatus net (new_callId c) video_polling (S n)))
            (EFetch (analyze_request (video_query start c))
               :: trace (pollStatus net (new_callId c) video_polling (S n)))
    end.
Proof.
  exact (analyze_then_poll net (video_query start c)
           (pollStatus net (new_callId c) video_polling)
           (video_dialog (new_callId c)) n).
Qed.

Lemma video_dialog_route callId analyzeResult dialog :
  video_dialog callId analyzeResult = Ret dialog ->
  params_callId dialog = Some callId /\
  (pathname dialog = "/emergency" \/ pathname dialog = "/report") /\
  (pathname dialog = "/emergency"
   <-> get analyzeResult "classification" = Ret (VStr "emergency")).
Proof.
  unfold video_dialog.
  destruct (get analyzeResult "classification") as [cls|e]; [|discriminate].
  destruct (get analyzeResult "result") as [res|e]; [|discriminate].
  destruct (strict_eq_str cls "emergency") eqn:Hcls.
  - destruct (get res "call_sid"); [|discriminate]. intros [= <-]. cbn.
    repeat split; auto.
    intros _. destruct cls; try discriminate. cbn in Hcls.
    apply String.eqb_eq in Hcls. subst. reflexivity.
  - destruct (get res "call_id"); [|discriminate]. intros [= <-]. cbn.
    repeat split; auto; try discriminate.
    intros [= ->]. discriminate.
Qed.

(** X16. The analysis the video screen runs when a call ends always leaves
    [isProcessing] false and the recorded start time cleared, and never
    throws. It sends one [/analyze] request and then at most five status
    requests for the call id it generated itself. It shows an alert only
    when both the analysis and the polling succeed; the alert then leads to
    [/emergency] exactly when the classification is ['emergency'], to
    [/report] otherwise, with the generated call id as parameter. When the
    polling fails the analysis ends without any alert. *)
Theorem video_analysis_feedback net c w n :
  VideoCall.isProcessing (VideoCall.state (fst (handleCallAnalysis net c w n))) = false /\
  VideoCall.callStartTime (fst (handleCallAnalysis net c w n)) = None /\
  (exists shown, result (snd (handleCallAnalysis net c w n)) = Ret shown) /\
  (exists k, (k <= 5)%nat /\
             requests (trace (snd (handleCallAnalysis net c w n)))
             = analyze_request (video_query (VideoCall.callStartTime w) c)
                 :: repeat (status_request (new_callId c)) k) /\
  (forall dialog,
      result (snd (handleCallAnalysis net c w n)) = Ret (Some dialog) ->
      params_callId dialog = Some (new_callId c) /\
      (pathname dialog = "/emergency" \/ pathname dialog = "/report") /\
      exists analyzeResult status,
        result (analyzeQuery net (video_query (VideoCall.callStartTime w) c) n)
        = Ret analyzeResult /\
        result (pollStatus net (new_callId c) video_polling (S n)) = Ret status /\
        (pathname dialog = "/emergency"
         <-> get analyzeResult "classification" = Ret (VStr "emergency"))) /\
  (forall e,
      result (pollStatus net (new_callId c) video_polling (S n)) = Throw e ->
      result (snd (handleCallAnalysis net c w n)) = Ret None /\
      VideoCall.effects (fst (handleCallAnalysis net c w n)) = VideoCall.effects w).
Proof.
  unfold handleCallAnalysis. cbv zeta.
  change (VideoCall.callStartTime (VideoCall.setIsProcessing true w))
    with (VideoCall.callStartTime w).
  rewrite video_analysis_run.
  generalize (new_callId c) as callId,
             (video_query (VideoCall.callStartTime w) c) as query.
  intros callId query.
  destruct (pollStatus_requests net callId video_polling (S n)) as [Hreq Hk].
  change (Z.to_nat (maxAttempts_of video_polling)) with 5%nat in Hk.
  split; [reflexivity|]. split; [reflexivity|].
  destruct (result (analyzeQuery net query n)) as [analyzeResult|e0] eqn:Ha;
    [destruct (result (pollStatus net callId video_polling (S n)))
       as [status|e1] eqn:Hp;
     [destruct (video_dialog callId analyzeResult) as [dialog|e2] eqn:Hd|]|];
    cbn [fst snd result trace].
  - split; [eauto|]. split; [|split].
    + eexists. split; [exact Hk|]. rewrite requests_fetch_cons, Hreq. reflexivity.
    + intros d [= <-]. destruct (video_dialog_route _ _ Hd) as (H1 & H2 & H3).
      split; [exact H1|]. split; [exact H2|]. exists analyzeResult, status. auto.
    + discriminate.
  - split; [eauto|]. split; [|split].
    + eexists. split; [exact Hk|]. rewrite requests_fetch_cons, Hreq. reflexivity.
    + discriminate.
    + discriminate.
  - split; [eauto|]. split; [|split].
    + eexists. split; [exact Hk|]. rewrite requests_fetch_cons, Hreq. reflexivity.
    + discriminate.
    + intros e _. split; reflexivity.
  - split; [eauto|]. split; [|split].
    + exists 0%nat. split; [lia | reflexivity].
    + discriminate.
    + intros e _. split; reflexivity.
Qed.

Lemma unreserved_app a b :
  forallb unreserved (list_ascii_of_string a) = true ->
  forallb unreserved (list_ascii_of_string b) = true ->
  forallb unreserved (list_ascii_of_string (a ++ b)) = true.
Proof.
  induction a as [|ch a IH]; cbn; [auto|].
  intros Ha Hb. apply andb_true_iff in Ha. destruct Ha as [Hch Ha].
  rewrite Hch. cbn. apply IH; assumption.
Qed.

Lemma unreserved_digits d :
  forallb unreserved (list_ascii_of_string (NilEmpty.string_of_uint d)) = true.
Proof. induction d; cbn; auto. Qed.

Lemma unreserved_show z :
  forallb unreserved (list_ascii_of_string (show z)) = true.
Proof.
  unfold show, NilZero.string_of_int, NilZero.string_of_uint.
  destruct (Z.to_int z) as [d|d]; destruct d; cbn; auto; apply unreserved_digits.
Qed.

(** X22. The call id the screens generate needs no escaping: when the
    random part is made of letters and digits, as base-36 text is, the
    status requests that follow the analysis ask for
    [/status?call_id=] followed by the id exactly as it was put in the
    query. *)
Theorem generated_callId_sent_verbatim c :
  forallb unreserved (list_ascii_of_string (suffix c)) = true ->
  url (status_request (new_callId c))
  = ("https://nokia-backend.vercel.app/status?call_id=" ++ new_callId c)%string.
Proof.
  intros Hs. cbn [url status_request].
  rewrite ApiMore.encodeURIComponent_unreserved; [reflexivity|].
  unfold new_callId.
  apply (unreserved_app "CALL_"); [reflexivity|].
  apply unreserved_app; [apply unreserved_show|].
  apply (unreserved_app "_"); [reflexivity | exact Hs].
Qed.

Lemma generated_callId_sent_verbatim_witness :
  url (status_request (new_callId (MkChance 1759645260000 1759645260001 "k3j9x0q2a" true)))
  = "https://nokia-backend.vercel.app/status?call_id=CALL_1759645260001_k3j9x0q2a"%string.
Proof.
  rewrite (@generated_callId_sent_verbatim
             (MkChance 1759645260000 1759645260001 "k3j9x0q2a" true)) by reflexivity.
  reflexivity.
Defined.

Lemma video_analysis_feedback_witness :
  result (snd (handleCallAnalysis
                 (fun n _ => match n with
                             | 0%nat => Resolves (Response 200
                                          (Some (VObj [("classification", VStr "emergency");
                                                       ("result", VObj [("call_sid", VStr "CA1")])])))
                             | _ => Fixtures.not_found
                             end)
                 (MkChance 1759645260000 1759645260001 "k3j9x0q2a" true)
                 Fixtures.in_call 0%nat))
  = Ret None.
Proof.
  eapply (proj2 (proj2 (proj2 (proj2 (proj2
            (video_analysis_feedback _ (MkChance 1759645260000 1759645260001 "k3j9x0q2a" true)
                                     Fixtures.in_call 0%nat)))))).
  vm_compute. reflexivity.
Defined.

End CallAnalysisProps.

(** * Properties of the voice-consultation screen as a whole *)

Module VoiceSessionProps.
Import Js Api ApiProps CallAnalysis CallAnalysisProps FirstScreen VoiceSession.
Local Open Scope api_scope.

Lemma analyze_then_show net query (decide : value -> outcome Dialog) n :
  try_catch
    (analyzeResult <- analyzeQuery net query ;;
     dialog <- lift (decide analyzeResult) ;;
     ret dialog)
    (fun error => ret processing_error_dialog) n
  = Run (Ret match result (analyzeQuery net query n) with
             | Throw _ => processing_error_dialog
             | Ret analyzeResult =>
                 match decide analyzeResult with
                 | Ret dialog => dialog
                 | Throw _ => processing_error_dialog
                 end
             end)
        (S n) [EFetch (analyze_request query)].
Proof.
  destruct (analyzeQuery_run net query n) as [Hf Ht].
  unfold try_catch, bind, lift, ret, prepend.
  destruct (analyzeQuery net query n) as [res f tr].
  cbn in Hf, Ht. subst f tr. cbn.
  destruct res as [analyzeResult|e]; cbn; [|reflexivity].
  destruct (decide analyzeResult); reflexivity.
Qed.

Lemma voice_analysis_run net start c entries n :
  voice_analysis net start c entries n
  = Run (Ret match result (analyzeQuery net (voice_query start c entries) n) with
             | Throw _ => processing_error_dialog
             | Ret analyzeResult =>
                 match voice_dialog (new_callId c) analyzeResult with
                 | Ret dialog => dialog
                 | Throw _ => processing_error_dialog
                 end
             end)
        (S n) [EFetch (analyze_request (voice_query start c entries))].
Proof.
  exact (analyze_then_show net (voice_query start c entries)
           (voice_dialog (new_callId c)) n).
Qed.

(** X17. The analysis the voice screen runs when a call ends sends exactly
    one request, the [/analyze] one, and does not poll. It always ends with
    [isProcessing] false, the start time cleared and the transcript
    untouched, and it always shows exactly one alert: the emergency or the
    report alert, chosen by the classification and carrying the generated
    call id, when the analysis returns an object, and the ['Processing
    Error'] alert, which leads to [/report] without a call id, when the
    request fails or returns [null]. *)
Theorem voice_analysis_feedback net c s n :
  VoiceSession.isProcessing (fst (handleCallAnalysis net c s n)) = false /\
  callStartTimeRef (fst (handleCallAnalysis net c s n)) = None /\
  screen (fst (handleCallAnalysis net c s n)) = screen s /\
  trace (snd (handleCallAnalysis net c s n))
  = [EFetch (analyze_request
               (voice_query (callStartTimeRef s) c (transcriptRef (screen s))))] /\
  (exists dialog,
      result (snd (handleCallAnalysis net c s n)) = Ret dialog /\
      alerts (fst (handleCallAnalysis net c s n))
      = (alerts s ++ [(title dialog, message dialog)])%list /\
      (forall analyzeResult classification,
          result (analyzeQuery net
                    (voice_query (callStartTimeRef s) c (transcriptRef (screen s))) n)
          = Ret analyzeResult ->
          get analyzeResult "classification" = Ret classification ->
          dialog = if strict_eq_str classification "emergency"
                   then emergency_dialog (new_callId c)
                   else report_dialog (new_callId c)) /\
      (forall e,
          result (analyzeQuery net
                    (voice_query (callStartTimeRef s) c (transcriptRef (screen s))) n)
          = Throw e ->
          dialog = processing_error_dialog) /\
      (result (analyzeQuery net
                 (voice_query (callStartTimeRef s) c (transcriptRef (screen s))) n)
       = Ret VNull ->
       dialog = processing_error_dialog)).
Proof.
  unfold handleCallAnalysis. cbv zeta.
  change (callStartTimeRef (VoiceSession.setIsProcessing true s)) with (callStartTimeRef s).
  change (screen (VoiceSession.setIsProcessing true s)) with (screen s).
  rewrite voice_analysis_run.
  generalize (voice_query (callStartTimeRef s) c (transcriptRef (screen s))) as query.
  intros query. cbn [fst snd result trace].
  split; [reflexivity|]. split; [reflexivity|]. split; [reflexivity|].
  split; [reflexivity|].
  eexists. split; [reflexivity|]. split; [reflexivity|].
  destruct (result (analyzeQuery net query n)) as [analyzeResult|e0].
  - split; [|split].
    + intros a cls [= <-] Hc. unfold voice_dialog. rewrite Hc. reflexivity.
    + discriminate.
    + intros [= ->]. reflexivity.
  - split; [|split].
    + discriminate.
    + reflexivity.
    + discriminate.
Qed.

Lemma voice_analysis_feedback_witness :
  exists dialog,
    result (snd (handleCallAnalysis (fun _ _ => Fixtures.offline)
                   (MkChance 1759645260000 1759645260001 "k3j9x0q2a" false)
                   VoiceSession.mounted 0%nat)) = Ret dialog /\
    dialog = processing_error_dialog.
Proof.
  destruct (proj2 (proj2 (proj2 (proj2
             (voice_analysis_feedback (fun _ _ => Fixtures.offline)
                (MkChance 1759645260000 1759645260001 "k3j9x0q2a" false)
                VoiceSession.mounted 0%nat)))))
    as (dialog & Hr & _ & _ & Hfail & _).
  exists dialog. split; [exact Hr|].
  apply (Hfail (TypeError "Network request failed")). reflexivity.
Defined.

Lemma on_message_adds message sc :
  exists added,
    transcriptRef (snd (on_message message sc)) = (transcriptRef sc ++ added)%list /\
    transcript (snd (on_message message sc)) = (transcript sc ++ added)%list /\
    List.length added = if adds_entry (Message message) then 1%nat else 0%nat.
Proof.
  assert (Hnone : exists added,
             transcriptRef sc = (transcriptRef sc ++ added)%list /\
             transcript sc = (transcript sc ++ added)%list /\
             List.length added = 0%nat).
  { exists []. rewrite !app_nil_r. auto. }
  unfold on_message, adds_entry.
  destruct message; cbn [get]; try exact Hnone.
  destruct (strict_eq_str (lookup "type" props) "transcript"); cbn [andb];
    [|exact Hnone].
  destruct (strict_eq_str (lookup "transcriptType" props) "final"); [|exact Hnone].
  cbn [snd append transcriptRef transcript].
  eexists. split; [reflexivity|]. split; reflexivity.
Qed.

(** One event: what it adds to the transcript, to the requests and to the
    alerts. *)
Lemma handle_adds net e s n :
  exists added,
    transcriptRef (screen (fst (handle net e (s, n))))
    = (transcriptRef (screen s) ++ added)%list /\
    transcript (screen (fst (handle net e (s, n))))
    = (transcript (screen s) ++ added)%list /\
    List.length added = (if adds_entry e then 1 else 0)%nat /\
    snd (handle net e (s, n)) = (n + if ends_call e then 1 else 0)%nat /\
    List.length (alerts (fst (handle net e (s, n))))
    = (List.length (alerts s) + if shows_alert e then 1 else 0)%nat.
Proof.
  assert (Hnone : forall s0 : Session, exists added : list Entry,
             transcriptRef (screen s0) = (transcriptRef (screen s0) ++ added)%list /\
             transcript (screen s0) = (transcript (screen s0) ++ added)%list /\
             List.length added = 0%nat).
  { intros s0. exists []. rewrite !app_nil_r. auto. }
  destruct e as [now|c| | |message|]; unfold handle.
  - exists [connected_entry]. cbn. repeat split; auto.
  - unfold on_call_end, handleCallAnalysis. cbv zeta.
    rewrite voice_analysis_run. cbn [fst snd result fetched].
    exists [ended_entry]. cbn. rewrite length_app. cbn. repeat split; lia.
  - destruct (Hnone s) as (added & H1 & H2 & H3). exists added. cbn.
    repeat split; auto.
  - destruct (Hnone s) as (added & H1 & H2 & H3). exists added. cbn.
    repeat split; auto.
  - destruct (on_message_adds message (screen s)) as (added & H1 & H2 & H3).
    exists added. cbn [fst snd with_screen screen alerts ends_call shows_alert].
    repeat split; auto.
  - destruct (Hnone s) as (added & H1 & H2 & H3). exists added. cbn.
    rewrite length_app. cbn. repeat split; auto; lia.
Qed.

Lemma replay_adds net events : forall s n,
  exists added,
    transcriptRef (screen (fst (replay net events (s, n))))
    = (transcriptRef (screen s) ++ added)%list /\
    transcript (screen (fst (replay net events (s, n))))
    = (transcript (screen s) ++ added)%list /\
    List.length added = count adds_entry events /\
    snd (replay net events (s, n)) = (n + count ends_call events)%nat /\
    List.length (alerts (fst (replay net events (s, n))))
    = (List.length (alerts s) + count shows_alert events)%nat.
Proof.
  induction events as [|e events IH]; intros s n.
  - exists []. cbn. rewrite !app_nil_r. repeat split; auto.
  - change (replay net (e :: events) (s, n))
      with (replay net events (handle net e (s, n))).
    destruct (handle_adds net e s n) as (a1 & H1 & H2 & H3 & H4 & H5).
    destruct (handle net e (s, n)) as [s1 n1]. cbn [fst snd] in *.
    destruct (IH s1 n1) as (a2 & G1 & G2 & G3 & G4 & G5).
    exists (a1 ++ a2)%list.
    rewrite G1, G2, G4, G5, H1, H2, H4, H5, length_app, G3, H3, <- !app_assoc.
    unfold count. cbn [filter].
    destruct (adds_entry e), (ends_call e), (shows_alert e); cbn [List.length];
      repeat split; lia.
Qed.

(** X18. Whatever events the voice client sends, in whatever order, the
    transcript is only ever extended: what the screen held before stays in
    front, and the ref and the state get the same new entries, one for each
    call start, each call end and each final transcript message (so they
    stay equal if they were, and a later call continues the transcript of
    the earlier one). Each call end sends exactly one request and shows
    exactly one alert; nothing else sends a request. *)
Theorem transcript_only_grows net events s n :
  (exists added,
      transcriptRef (screen (fst (replay net events (s, n))))
      = (transcriptRef (screen s) ++ added)%list /\
      transcript (screen (fst (replay net events (s, n))))
      = (transcript (screen s) ++ added)%list /\
      List.length added = count adds_entry events) /\
  (transcriptRef (screen s) = transcript (screen s) ->
   transcriptRef (screen (fst (replay net events (s, n))))
   = transcript (screen (fst (replay net events (s, n))))) /\
  snd (replay net events (s, n)) = (n + count ends_call events)%nat /\
  List.length (alerts (fst (replay net events (s, n))))
  = (List.length (alerts s) + count shows_alert events)%nat.
Proof.
  destruct (replay_adds net events s n) as (added & H1 & H2 & H3 & H4 & H5).
  split; [eauto|]. split; [|auto].
  intros Heq. rewrite H1, H2, Heq. reflexivity.
Qed.

Lemma transcript_only_grows_witness :
  transcriptRef (screen (fst (replay (fun _ _ => Fixtures.offline)
                                [CallStart 1759645200000;
                                 Message Fixtures.assistant_says;
                                 Message (VObj [("type", VStr "speech-update")]);
                                 CallEnd (MkChance 1759645260000 1759645260001
                                                   "k3j9x0q2a" false)]
                                (VoiceSession.mounted, 0%nat))))
  = transcript (screen (fst (replay (fun _ _ => Fixtures.offline)
                               [CallStart 1759645200000;
                                Message Fixtures.assistant_says;
                                Message (VObj [("type", VStr "speech-update")]);
                                CallEnd (MkChance 1759645260000 1759645260001
                                                  "k3j9x0q2a" false)]
                               (VoiceSession.mounted, 0%nat)))).
Proof.
  apply (proj1 (proj2 (transcript_only_grows (fun _ _ => Fixtures.offline) _
                         VoiceSession.mounted 0%nat))).
  reflexivity.
Defined.

End VoiceSessionProps.

(** * Properties of the emergency and the report screen *)

Module StatusScreensProps.
Import Js Api ApiProps CallAnalysisProps StatusScreens.

Lemma pollStatus_returns_meaningful net callId o n status :
  result (pollStatus net callId o n) = Ret status -> meaningful_data status = true.
Proof.
  intros Hr. unfold pollStatus in Hr.
  destruct (pollLoop_returns net callId o 1 n Hr) as [_ Hc].
  apply classify_Data in Hc. apply Hc.
Qed.

Lemma missing_false id : id <> "" -> missing (Some id) = false.
Proof. intros H. cbn. apply String.eqb_neq. exact H. Qed.

Ltac loading id Hid :=
  cbv zeta; rewrite (missing_false Hid);
  match goal with
  | |- context [pollStatus ?net id screen_polling ?n] =>
      let Hreq := fresh "Hreq" in
      let Hk := fresh "Hk" in
      let Hr := fresh "Hr" in
      destruct (pollStatus_requests net id screen_polling n) as [Hreq Hk];
      change (Z.to_nat (maxAttempts_of screen_polling)) with 20%nat in Hk;
      pose proof (@pollStatus_returns_meaningful net id screen_polling n) as Hm;
      destruct (result (pollStatus net id screen_polling n)) as [status|e] eqn:Hr;
      cbn [fst snd result trace isLoading data error alerts];
      (split; [reflexivity|]); (split; [reflexivity|]);
      (split; [discriminate|]);
      intros id' [= <-] _;
      eexists; (split; [exact Hk|]); (split; [exact Hreq|]);
      [left; exists status; auto | right; exists e; auto]
  end.

(** X19. Loading on the emergency and on the report screen always ends with
    [isLoading] false and never throws. Without a call id in the route no
    request is sent and nothing else changes. With one, at most twenty
    status requests for that id are sent; on success the status, which holds
    meaningful data, becomes the screen's data and the error is cleared; on
    failure the data stays as it was, the error text is set and one alert is
    shown. *)
Theorem status_screens_loading net callId l n :
  (isLoading (fst (fetchEmergencyData net callId l n)) = false /\
   result (snd (fetchEmergencyData net callId l n)) = Ret tt /\
   (missing callId = true ->
    fst (fetchEmergencyData net callId l n)
    = MkLoader false (data l) (error l) (alerts l) /\
    trace (snd (fetchEmergencyData net callId l n)) = []) /\
   (forall id,
       callId = Some id -> id <> "" ->
       exists k, (k <= 20)%nat /\
         requests (trace (snd (fetchEmergencyData net callId l n)))
         = repeat (status_request id) k /\
         ((exists status,
              result (pollStatus net id screen_polling n) = Ret status /\
              meaningful_data status = true /\
              fst (fetchEmergencyData net callId l n)
              = MkLoader false (Some status) None (alerts l)) \/
          (exists e,
              result (pollStatus net id screen_polling n) = Throw e /\
              fst (fetchEmergencyData net callId l n)
              = MkLoader false (data l) (Some "Failed to load emergency details")
                  (alerts l ++ [("Error",
                                 "Could not load emergency details. Showing default data.")]))))) /\
  (isLoading (fst (fetchReportData net callId l n)) = false /\
   result (snd (fetchReportData net callId l n)) = Ret tt /\
   (missing callId = true ->
    fst (fetchReportData net callId l n)
    = MkLoader false (data l) (error l) (alerts l) /\
    trace (snd (fetchReportData net callId l n)) = []) /\
   (forall id,
       callId = Some id -> id <> "" ->
       exists k, (k <= 20)%nat /\
         requests (trace (snd (fetchReportData net callId l n)))
         = repeat (status_request id) k /\
         ((exists status,
              result (pollStatus net id screen_polling n) = Ret status /\
              meaningful_data status = true /\
              fst (fetchReportData net callId l n)
              = MkLoader false (Some status) None (alerts l)) \/
          (exists e,
              result (pollStatus net id screen_polling n) = Throw e /\
              fst (fetchReportData net callId l n)
              = MkLoader false (data l) (Some "Failed to load report details")
                  (alerts l ++ [("Error",
                                 "Could not load consultation report. Showing default data.")]))))).
Proof.
  split.
  - unfold fetchEmergencyData. destruct callId as [id|].
    + destruct (String.eqb_spec id "") as [->|Hid].
      * cbn. repeat split; auto. intros id' [= <-] H. destruct (H eq_refl).
      * loading id Hid.
    + cbn. repeat split; auto. discriminate.
  - unfold fetchReportData. destruct callId as [id|].
    + destruct (String.eqb_spec id "") as [->|Hid].
      * cbn. repeat split; auto. intros id' [= <-] H. destruct (H eq_refl).
      * loading id Hid.
    + cbn. repeat split; auto. discriminate.
Qed.

Lemma status_screens_loading_witness :
  (fst (fetchEmergencyData Fixtures.net_third None StatusScreens.mounted 0%nat)
   = MkLoader false None None [] /\
   trace (snd (fetchEmergencyData Fixtures.net_third None StatusScreens.mounted 0%nat))
   = []) /\
  exists k, (k <= 20)%nat /\
    requests (trace (snd (fetchReportData Fixtures.net_third (Some "CALL_1")
                            StatusScreens.mounted 0%nat)))
    = repeat (status_request "CALL_1") k.
Proof.
  split.
  - apply (proj1 (proj2 (proj2 (proj1
             (status_screens_loading Fixtures.net_third None
                StatusScreens.mounted 0%nat))))).
    reflexivity.
  - destruct (proj2 (proj2 (proj2 (proj2
               (status_screens_loading Fixtures.net_third (Some "CALL_1")
                  StatusScreens.mounted 0%nat)))) "CALL_1" eq_refl)
      as (k & Hk & Hreq & _); [discriminate|].
    exists k. auto.
Defined.

Lemma or_else_default_truthy a s : s <> "" -> truthy (or_else a (VStr s)) = true.
Proof.
  intros Hs. unfold or_else. destruct (truthy a) eqn:Ha; [exact Ha|].
  cbn. destruct (String.eqb_spec s ""); [contradiction | reflexivity].
Qed.

Lemma or_else_falsy a b : truthy a = false -> or_else a b = b.
Proof. intros H. unfold or_else. rewrite H. reflexivity. Qed.

Lemma object_test v :
  truthy v && String.eqb (typeof v) "object" = non_null_object v.
Proof. destruct v; cbn; rewrite ?andb_false_r; reflexivity. Qed.

Lemma object_field_absent data field :
  (forall d, data = Some d -> non_null_object (opt_get d field) = false) ->
  object_field data field = VNull.
Proof.
  intros H. unfold object_field. destruct data as [d|].
  - rewrite object_test, (H d eq_refl). reflexivity.
  - reflexivity.
Qed.

Lemma object_field_present d field props :
  opt_get d field = VObj props -> object_field (Some d) field = VObj props.
Proof. intros H. unfold object_field. rewrite H. reflexivity. Qed.

(** X20. The emergency screen never shows a blank driver name, driver status
    or patient location. When the data it holds has no emergency object
    (nothing loaded, or a status that [pollStatus] accepted for its medical
    record alone), every field is the built-in one: driver ['Manoj'], ['On
    the way'], location ['Kalkaji'] and the two default map points. When
    the emergency object has a [driver] object, the ambulance marker takes
    that driver's [latitude] and [longitude] as they are, without a
    fallback for a coordinate that is missing. *)
Theorem emergency_view_fallbacks emergencyData :
  truthy (driverName (emergency_view emergencyData)) = true /\
  truthy (driverStatus (emergency_view emergencyData)) = true /\
  truthy (patientLocation (emergency_view emergencyData)) = true /\
  ((forall d, emergencyData = Some d ->
              non_null_object (opt_get d "emergency_details") = false) ->
   emergency_view emergencyData
   = MkEmergencyView (VStr "Manoj") (VStr "On the way") (VStr "Kalkaji")
                     defaultAmbulanceLocation defaultPatientLocation) /\
  (forall d details driver,
      emergencyData = Some d ->
      opt_get d "emergency_details" = VObj details ->
      lookup "driver" details = VObj driver ->
      ambulanceLocation (emergency_view emergencyData)
      = At (lookup "latitude" driver) (lookup "longitude" driver) /\
      driverName (emergency_view emergencyData)
      = or_else (lookup "name" driver) (VStr "Manoj")).
Proof.
  split; [apply or_else_default_truthy; discriminate|].
  split; [apply or_else_default_truthy; discriminate|].
  split; [apply or_else_default_truthy; discriminate|].
  split.
  - intros H. unfold emergency_view. rewrite (@object_field_absent _ _ H). reflexivity.
  - intros d details driver -> Hd Hdriver. unfold emergency_view.
    rewrite (@object_field_present _ _ _ Hd). cbn [opt_get]. rewrite Hdriver.
    cbn. auto.
Qed.

Lemma emergency_view_fallbacks_witness :
  emergency_view (Some Fixtures.report_status)
  = MkEmergencyView (VStr "Manoj") (VStr "On the way") (VStr "Kalkaji")
                    defaultAmbulanceLocation defaultPatientLocation /\
  ambulanceLocation
    (emergency_view
       (Some (VObj [("emergency_details",
                     VObj [("driver", VObj [("name", VStr "Asha")])])])))
  = At VUndefined VUndefined.
Proof.
  split.
  - apply (proj1 (proj2 (proj2 (proj2
             (emergency_view_fallbacks (Some Fixtures.report_status)))))).
    intros d [= <-]. reflexivity.
  - destruct (proj2 (proj2 (proj2 (proj2
               (emergency_view_fallbacks
                  (Some (VObj [("emergency_details",
                                VObj [("driver", VObj [("name", VStr "Asha")])])]))))))
               _ [("driver", VObj [("name", VStr "Asha")])] [("name", VStr "Asha")]
               eq_refl eq_refl eq_refl) as [Hloc _].
    exact Hloc.
Defined.

(** X21. The report screen never shows a blank name, date, duration,
    complaint, analysis or specialty. When the data it holds has no medical
    record object, every field is the built-in sample and the symptom card
    has the four sample rows. The symptom list falls back to the sample only
    for a missing or falsy [reported_symptoms]: an empty array gives an
    empty card, and a value that is truthy but not an array makes drawing
    the card throw. *)
Theorem report_view_fallbacks reportData :
  truthy (patientName (report_view reportData)) = true /\
  truthy (consultationDate (report_view reportData)) = true /\
  truthy (duration (report_view reportData)) = true /\
  truthy (chiefComplaint (report_view reportData)) = true /\
  truthy (aiAnalysis (report_view reportData)) = true /\
  truthy (recommendedSpecialty (report_view reportData)) = true /\
  ((forall d, reportData = Some d ->
              non_null_object (opt_get d "medical_record_details") = false) ->
   patientName (report_view reportData) = VStr "John Doe" /\
   consultationDate (report_view reportData) = VStr "October 5, 2025" /\
   duration (report_view reportData) = VStr "5 minutes 32 seconds" /\
   chiefComplaint (report_view reportData)
   = VStr "Patient reports persistent headache with occasional dizziness for the past 3 days." /\
   aiAnalysis (report_view reportData)
   = VStr "Based on the symptoms described, this appears to be consistent with tension-type headache or possible migraine. No red flag symptoms were identified. Recommend consultation with a primary care physician or neurologist for proper diagnosis." /\
   recommendedSpecialty (report_view reportData)
   = VStr "Neurologist or Primary Care Physician" /\
   symptom_rows (symptoms (report_view reportData))
   = Ret [VStr "Headache (moderate intensity, frontal region)";
          VStr "Dizziness (intermittent)";
          VStr "Mild nausea";
          VStr "Light sensitivity"]) /\
  (forall d record reported,
      reportData = Some d ->
      opt_get d "medical_record_details" = VObj record ->
      lookup "reported_symptoms" record = reported ->
      (truthy reported = false ->
       symptoms (report_view reportData) = default_symptoms) /\
      (forall items, reported = VArr items ->
                     symptom_rows (symptoms (report_view reportData)) = Ret items) /\
      (truthy reported = true -> (forall items, reported <> VArr items) ->
       exists e, symptom_rows (symptoms (report_view reportData)) = Throw e)).
Proof.
  repeat (split; [apply or_else_default_truthy; discriminate|]).
  split.
  - intros H. unfold report_view. rewrite (@object_field_absent _ _ H). cbn.
    repeat split; reflexivity.
  - intros d record reported -> Hd Hrep. unfold report_view.
    rewrite (@object_field_present _ _ _ Hd). cbn [opt_get symptoms]. rewrite Hrep.
    split; [|split].
    + intros Hf. apply or_else_falsy. exact Hf.
    + intros items ->. reflexivity.
    + intros Ht Hnot. unfold or_else. rewrite Ht.
      destruct reported; cbn; eauto. destruct (Hnot items eq_refl).
Qed.

Lemma report_view_fallbacks_witness :
  symptom_rows (symptoms (report_view (Some Fixtures.pending_status)))
  = Ret [VStr "Headache (moderate intensity, frontal region)";
         VStr "Dizziness (intermittent)";
         VStr "Mild nausea";
         VStr "Light sensitivity"] /\
  exists e,
    symptom_rows
      (symptoms (report_view
                   (Some (VObj [("medical_record_details",
                                 VObj [("reported_symptoms", VStr "headache, nausea")])]))))
    = Throw e.
Proof.
  split.
  - apply (proj1 (proj2 (proj2 (proj2 (proj2 (proj2 (proj2
             (report_view_fallbacks (Some Fixtures.pending_status))))))))).
    intros d [= <-]. reflexivity.
  - destruct (proj2 (proj2 (proj2 (proj2 (proj2 (proj2 (proj2
               (report_view_fallbacks
                  (Some (VObj [("medical_record_details",
                                VObj [("reported_symptoms",
                                       VStr "headache, nausea")])])))))))))
               _ [("reported_symptoms", VStr "headache, nausea")]
               (VStr "headache, nausea") eq_refl eq_refl eq_refl) as (_ & _ & Hthrow).
    apply Hthrow; [reflexivity | intros items; discriminate].
Defined.

End StatusScreensProps.
